(** * cronbeats-go: the ping client, its retry loop and its normalizer

    A shallow embedding of the Go package [cronbeatsgo] (the client file,
    [errors.go] and the [HttpClient] interface of [http.go]) and the
    properties of its request / retry / normalization pipeline.

    Conventions of the embedding:
    - a Go [string] is a sequence of bytes: [string] of the Standard
      Library, whose [String.length] is Go's [len];
    - a Go [int] is a [Z]; where the source can leave the 64-bit range the
      wrap-around is written out with [GoInt.wrap];
    - a [float64] is a [spec_float] read at precision 53 and maximal
      exponent 1024 (IEEE 754 binary64, round to nearest even);
    - a [map[string]any] is a [gmap string any]; the nil map is [∅];
    - a pointer that may be nil is an [option];
    - the objects a client points to and mutates (its transport and its
      random generator) live in a [World], next to the log of the calls made
      to the transport and to [sleep]; a method takes the world and returns
      the next one with its [Outcome]: the pair it returns, or a panic;
    - of the Go standard library, [utf8.DecodeRuneInString] and the encoder
      of strings of [encoding/json] are written out, for the body of
      [Progress]; the other functions the package calls are parameters. *)

From Stdlib Require Import ZArith String Ascii List Bool Lia DecimalString.
From Stdlib Require Import Floats.SpecFloat.
From Stdlib Require DecimalPos DecimalZ.
From stdpp Require Import base option gmap strings.
From Equations Require Import Equations.

Set Warnings "-register-all".
Local Open Scope string_scope.
Local Open Scope Z_scope.

(** ** Machine integers *)

Module GoInt.

Definition MaxInt : Z := 2 ^ 63 - 1.
Definition MinInt : Z := - 2 ^ 63.

(** Two's complement wrap-around of a 64-bit signed integer. *)
Definition wrap (z : Z) : Z := (z + 2 ^ 63) mod 2 ^ 64 - 2 ^ 63.

Definition in_range (z : Z) : Prop := MinInt <= z <= MaxInt.

(** [maxInt] of the client file. *)
Definition maxInt (a b : Z) : Z := if a >? b then a else b.

(** [defaultInt] of the client file. *)
Definition defaultInt (v fallback : Z) : Z := if v =? 0 then fallback else v.

End GoInt.

(** ** Binary64 floating point *)

Module Float64.

Definition float64 : Type := spec_float.

Definition prec : Z := 53.
Definition emax : Z := 1024.

Definition zero : float64 := S754_zero false.

(** The conversion [float64(n)] of an integer: the nearest binary64 value,
    ties to even. *)
Definition of_int (n : Z) : float64 := binary_normalize prec emax n 0 false.

(** The product of two binary64 values. *)
Definition mul (x y : float64) : float64 := SFmul prec emax x y.

(** [math.Pow(2, float64(k))] for an integer [k >= 0], the only way the
    client calls [math.Pow]: the exact power of two while it is finite
    (k <= 1023), and +Inf above. *)
Definition pow2 (k : Z) : float64 :=
  if k <=? 1023 then S754_finite false (2 ^ 52) (k - 52) else S754_infinity false.

(** The integer a finite float denotes once its fraction is cut off
    (rounding toward zero). *)
Definition truncate (x : float64) : option Z :=
  match x with
  | S754_zero _ => Some 0
  | S754_finite s m e =>
      let mag := if 0 <=? e then Z.pos m * 2 ^ e else Z.pos m / 2 ^ (- e) in
      Some (if s then - mag else mag)
  | S754_infinity _ | S754_nan => None
  end.

(** The integer a float is, when it is one: a finite float without a
    fractional part. *)
Definition integer (x : float64) : option Z :=
  match x with
  | S754_zero _ => Some 0
  | S754_finite s m e =>
      if 0 <=? e then Some (if s then - (Z.pos m * 2 ^ e) else Z.pos m * 2 ^ e)
      else if Z.pos m mod 2 ^ (- e) =? 0
           then Some (if s then - (Z.pos m / 2 ^ (- e)) else Z.pos m / 2 ^ (- e))
           else None
  | S754_infinity _ | S754_nan => None
  end.

(** The conversion [int(x)]: truncation toward zero. Outside the range of
    [int] (and on NaN and the infinities) Go leaves the result to the
    implementation; the value here is the one of amd64. *)
Definition to_int (x : float64) : Z :=
  match truncate x with
  | Some z => if (GoInt.MinInt <=? z) && (z <=? GoInt.MaxInt) then z else GoInt.MinInt
  | None => GoInt.MinInt
  end.

(** The conversion [float64(x)] of a [float32]: every binary32 value is a
    binary64 value. *)
Definition of_float32 (x : spec_float) : float64 :=
  match x with
  | S754_finite s m e => binary_round prec emax s m e
  | _ => x
  end.

End Float64.

(** ** Strings *)

Module Strings.

Fixpoint rev_chars (s acc : string) : string :=
  match s with
  | EmptyString => acc
  | String a s' => rev_chars s' (String a acc)
  end.

Definition rev (s : string) : string := rev_chars s "".

Fixpoint drop_leading (c : ascii) (s : string) : string :=
  match s with
  | String a s' => if Ascii.eqb a c then drop_leading c s' else s
  | EmptyString => EmptyString
  end.

(** [strings.TrimRight(s, cutset)] for a cutset of one ASCII byte. *)
Definition TrimRight1 (s : string) (c : ascii) : string :=
  rev (drop_leading c (rev s)).

(** The slice [s[:n]]: the first [n] bytes. *)
Definition prefix (n : nat) (s : string) : string := String.substring 0 n s.

(** The verb [%d] of [fmt.Sprintf]. *)
Definition itoa (z : Z) : string := NilZero.string_of_int (Z.to_int z).

Definition is_alnum (a : ascii) : bool :=
  let n := N_of_ascii a in
  ((97 <=? n) && (n <=? 122) || (65 <=? n) && (n <=? 90) || (48 <=? n) && (n <=? 57))%N.

(** A matcher for the anchored patterns [^[class]{n}$]: the whole text is
    consumed by exactly [n] bytes of the class. *)
Fixpoint match_class_repeat (class : ascii -> bool) (n : nat) (s : string) : bool :=
  match n, s with
  | O, EmptyString => true
  | S n', String a s' => class a && match_class_repeat class n' s'
  | _, _ => false
  end.

End Strings.

(** ** [unicode/utf8] *)

Module Utf8.

Definition RuneError : Z := 0xFFFD.
Definition RuneSelf : Z := 0x80.
Definition MaxRune : Z := 0x10FFFF.

(** A byte of a string, as a number. *)
Definition byte (a : ascii) : Z := Z.of_N (N_of_ascii a).

(** The byte a number below 256 is. *)
Definition char (b : Z) : ascii := ascii_of_N (Z.to_N b).

(** [s[i]], for an [i] below [len(s)]. *)
Definition at_ (s : string) (i : nat) : Z :=
  match String.get i s with
  | Some a => byte a
  | None => 0
  end.

Definition maskx : Z := 0x3F.
Definition mask2 : Z := 0x1F.
Definition mask3 : Z := 0x0F.
Definition mask4 : Z := 0x07.
Definition locb : Z := 0x80.
Definition hicb : Z := 0xBF.

(** The entries of the table [first]: [xx] an invalid first byte, [as_] an
    ASCII byte, the others a size in the low bits and the index of an accept
    range in the high ones. *)
Definition xx : Z := 0xF1.
Definition as_ : Z := 0xF0.
Definition s1 : Z := 0x02.
Definition s2 : Z := 0x13.
Definition s3 : Z := 0x03.
Definition s4 : Z := 0x23.
Definition s5 : Z := 0x34.
Definition s6 : Z := 0x04.
Definition s7 : Z := 0x44.

(** The table [first], by the ranges of its index. *)
Definition first (b : Z) : Z :=
  if b <? 0x80 then as_
  else if b <? 0xC2 then xx
  else if b <? 0xE0 then s1
  else if b =? 0xE0 then s2
  else if b <? 0xED then s3
  else if b =? 0xED then s4
  else if b <? 0xF0 then s3
  else if b =? 0xF0 then s5
  else if b <? 0xF4 then s6
  else if b =? 0xF4 then s7
  else xx.

(** The table [acceptRanges]: the bounds of the second byte. *)
Definition acceptRanges (i : Z) : Z * Z :=
  match i with
  | 0 => (locb, hicb)
  | 1 => (0xA0, hicb)
  | 2 => (locb, 0x9F)
  | 3 => (0x90, hicb)
  | 4 => (locb, 0x8F)
  | _ => (0, 0)
  end.

(** [utf8.DecodeRuneInString]: the first rune of [s] and its width in
    bytes; [(RuneError, 1)] for an encoding that is not valid. *)
Definition DecodeRuneInString (s : string) : Z * Z :=
  let n := Z.of_nat (String.length s) in
  if n <? 1 then (RuneError, 0)
  else
    let s0 := at_ s 0 in
    let x := first s0 in
    if x >=? as_ then
      (* the mask of the source is all ones for [xx] and zero for [as_] *)
      (if Z.testbit x 0 then RuneError else s0, 1)
    else
      let sz := Z.land x 7 in
      let accept := acceptRanges (Z.shiftr x 4) in
      if n <? sz then (RuneError, 1)
      else
        let s1 := at_ s 1 in
        if (s1 <? fst accept) || (snd accept <? s1) then (RuneError, 1)
        else if sz <=? 2 then
          (Z.lor (Z.shiftl (Z.land s0 mask2) 6) (Z.land s1 maskx), 2)
        else
          let s2 := at_ s 2 in
          if (s2 <? locb) || (hicb <? s2) then (RuneError, 1)
          else if sz <=? 3 then
            (Z.lor (Z.lor (Z.shiftl (Z.land s0 mask3) 12) (Z.shiftl (Z.land s1 maskx) 6))
               (Z.land s2 maskx), 3)
          else
            let s3 := at_ s 3 in
            if (s3 <? locb) || (hicb <? s3) then (RuneError, 1)
            else
              (Z.lor (Z.lor (Z.lor (Z.shiftl (Z.land s0 mask4) 18)
                                   (Z.shiftl (Z.land s1 maskx) 12))
                            (Z.shiftl (Z.land s2 maskx) 6))
                 (Z.land s3 maskx), 4).

(** The runes of a string with the bytes of each, as a [for range] loop over
    the string meets them: every step decodes at the current index and moves
    on by the width decoded. *)
Fixpoint runes (s : string) : list (Z * string) :=
  match s with
  | EmptyString => []
  | String a0 r0 =>
      let '(c, size) := DecodeRuneInString (Strings.prefix 4 s) in
      match size, r0 with
      | 2, String a1 r1 => (c, String a0 (String a1 "")) :: runes r1
      | 3, String a1 (String a2 r2) => (c, String a0 (String a1 (String a2 ""))) :: runes r2
      | 4, String a1 (String a2 (String a3 r3)) =>
          (c, String a0 (String a1 (String a2 (String a3 "")))) :: runes r3
      | _, _ => (c, String a0 "") :: runes r0
      end
  end.

(** [utf8.RuneCountInString]. *)
Definition RuneCountInString (s : string) : nat := length (runes s).

(** [utf8.ValidString]: no step of the loop meets an encoding error, which
    decodes as [RuneError] with width 1. *)
Definition ValidString (s : string) : bool :=
  forallb (fun '(c, bs) => negb ((c =? RuneError) && (String.length bs =? 1)%nat)) (runes s).

(** [utf8.AppendRune] on the empty slice, for a rune of the basic plane
    (below 0x10000). *)
Definition EncodeRune (r : Z) : string :=
  if r <=? 0x7F then String (char r) ""
  else if r <=? 0x7FF then
    String (char (Z.lor 0xC0 (Z.shiftr r 6)))
      (String (char (Z.lor 0x80 (Z.land r maskx))) "")
  else
    let r := if (0xD800 <=? r) && (r <=? 0xDFFF) then RuneError else r in
    String (char (Z.lor 0xE0 (Z.shiftr r 12)))
      (String (char (Z.lor 0x80 (Z.land (Z.shiftr r 6) maskx)))
         (String (char (Z.lor 0x80 (Z.land r maskx))) "")).

End Utf8.

(** ** [encoding/json]: the encoding of a string

    The encoder as of Go 1.22; before, it wrote the backspace and the form
    feed as [\u0008] and [\u000c], which denote the same bytes. *)

Module GoJson.

Definition quote : string := String "034"%char "".
Definition backslash : string := String "092"%char "".

(** The digits [hex] of the encoder. *)
Definition hex (d : Z) : string :=
  match String.get (Z.to_nat d) "0123456789abcdef" with
  | Some a => String a ""
  | None => ""
  end.

(** The table [htmlSafeSet]: the ASCII bytes written as they are. *)
Definition htmlSafeSet (b : Z) : bool :=
  (0x20 <=? b) && (b <? 0x80) &&
  negb ((b =? 0x22) || (b =? 0x26) || (b =? 0x3C) || (b =? 0x3E) || (b =? 0x5C)).

(** What [appendString] writes for an ASCII byte outside [htmlSafeSet]. *)
Definition escapeByte (a : ascii) : string :=
  let b := Utf8.byte a in
  if (b =? 0x5C) || (b =? 0x22) then backslash +:+ String a ""
  else if b =? 0x08 then backslash +:+ "b"
  else if b =? 0x0C then backslash +:+ "f"
  else if b =? 0x0A then backslash +:+ "n"
  else if b =? 0x0D then backslash +:+ "r"
  else if b =? 0x09 then backslash +:+ "t"
  else backslash +:+ "u00" +:+ hex (Z.shiftr b 4) +:+ hex (Z.land b 0xF).

(** The loop of [appendString], with [escapeHTML] set as [json.Marshal]
    sets it: [src] is what is left from the index of the loop on. *)
Fixpoint appendStringLoop (src : string) : string :=
  match src with
  | EmptyString => EmptyString
  | String a0 r0 =>
      let b := Utf8.byte a0 in
      if b <? Utf8.RuneSelf then
        (if htmlSafeSet b then String a0 "" else escapeByte a0) +:+ appendStringLoop r0
      else
        let '(c, size) := Utf8.DecodeRuneInString (Strings.prefix 4 src) in
        if (c =? Utf8.RuneError) && (size =? 1) then
          backslash +:+ "ufffd" +:+ appendStringLoop r0
        else
          (if (c =? 0x2028) || (c =? 0x2029)
           then backslash +:+ "u202" +:+ hex (Z.land c 0xF)
           else Strings.prefix (Z.to_nat size) src)
          +:+ match size, r0 with
              | 2, String _ r1 => appendStringLoop r1
              | 3, String _ (String _ r2) => appendStringLoop r2
              | 4, String _ (String _ (String _ r3)) => appendStringLoop r3
              | _, _ => EmptyString
              end
  end.

(** [appendString] on the empty slice: the JSON string that encodes
    [src]. *)
Definition appendString (src : string) : string :=
  quote +:+ appendStringLoop src +:+ quote.

(** What [json.Marshal] writes for a map with the single entry [k: v], [v] a
    string. *)
Definition object (k v : string) : string :=
  "{" +:+ appendString k +:+ ":" +:+ appendString v +:+ "}".

(** What a reader of the encoding of [src] receives (see
    [readString_appendStringLoop]): [src] with every byte that belongs to no
    valid encoding replaced by U+FFFD, which the encoder writes in its
    place. *)
Definition received (src : string) : string :=
  fold_right
    (fun '(c, bs) rest =>
       (if (c =? Utf8.RuneError) && (String.length bs =? 1)%nat
        then Utf8.EncodeRune Utf8.RuneError
        else bs) +:+ rest)
    "" (Utf8.runes src).

(** *** Reading the encoding back *)

Definition hexval (a : ascii) : option Z :=
  let n := Utf8.byte a in
  if (0x30 <=? n) && (n <=? 0x39) then Some (n - 0x30)
  else if (0x61 <=? n) && (n <=? 0x66) then Some (n - 0x61 + 10)
  else if (0x41 <=? n) && (n <=? 0x46) then Some (n - 0x41 + 10)
  else None.

(** The byte a one-letter escape stands for. *)
Definition unescapeChar (a : ascii) : option ascii :=
  let n := Utf8.byte a in
  if (n =? 0x22) || (n =? 0x5C) || (n =? 0x2F) then Some a
  else if n =? 0x62 then Some (Utf8.char 0x08)
  else if n =? 0x66 then Some (Utf8.char 0x0C)
  else if n =? 0x6E then Some (Utf8.char 0x0A)
  else if n =? 0x72 then Some (Utf8.char 0x0D)
  else if n =? 0x74 then Some (Utf8.char 0x09)
  else None.

Definition prepend (p : string) (o : option (string * string)) : option (string * string) :=
  match o with
  | Some (d, rest) => Some (p +:+ d, rest)
  | None => None
  end.

(** The string a JSON string denotes, read from behind its opening quote up
    to its closing quote, and the text left behind that. The escapes of
    surrogates, which the encoder never writes for a string, are not
    read. *)
Fixpoint readString (s : string) : option (string * string) :=
  match s with
  | EmptyString => None
  | String a r =>
      let n := Utf8.byte a in
      if n =? 0x22 then Some ("", r)
      else if n =? 0x5C then
        match r with
        | String e r1 =>
            if Utf8.byte e =? 0x75 then
              match r1 with
              | String h1 (String h2 (String h3 (String h4 r5))) =>
                  match hexval h1, hexval h2, hexval h3, hexval h4 with
                  | Some d1, Some d2, Some d3, Some d4 =>
                      let c := ((d1 * 16 + d2) * 16 + d3) * 16 + d4 in
                      if (0xD800 <=? c) && (c <=? 0xDFFF) then None
                      else prepend (Utf8.EncodeRune c) (readString r5)
                  | _, _, _, _ => None
                  end
              | _ => None
              end
            else
              match unescapeChar e with
              | Some x => prepend (String x "") (readString r1)
              | None => None
              end
        | EmptyString => None
        end
      else if n <? 0x20 then None
      else prepend (String a "") (readString r)
  end.

Fixpoint stripPrefix (p s : string) : option string :=
  match p, s with
  | EmptyString, _ => Some s
  | String a p', String b s' => if Ascii.eqb a b then stripPrefix p' s' else None
  | String _ _, EmptyString => None
  end.

(** The text [json.Marshal] writes before the encoded message of a body
    with the single entry "message". *)
Definition messageOpen : string :=
  "{" +:+ quote +:+ "message" +:+ quote +:+ ":" +:+ quote.

(** The message a payload of the form [{"message":"..."}] carries. *)
Definition messageOf (payload : string) : option string :=
  match stripPrefix messageOpen payload with
  | Some rest =>
      match readString rest with
      | Some (m, close) => if String.eqb close "}" then Some m else None
      | None => None
      end
  | None => None
  end.

End GoJson.

(** ** The data of the package *)

(** [ProgressOptions]; [Seq] is a pointer to an [int]. *)
Record ProgressOptions := {
  Seq : option Z;
  Message : string
}.

(** The dynamic values (Go's [any]) the package inspects: the results of
    [json.Unmarshal] into an [any] (nil, bool, float64, string, slice, map),
    the other types the type switches of [floatOrZero] and [Progress] name,
    and [uint] for a type that none of them names. *)
Inductive any :=
| VNil
| VBool (b : bool)
| VFloat64 (f : Float64.float64)
| VFloat32 (f : spec_float)
| VInt (n : Z)
| VInt64 (n : Z)
| VInt32 (n : Z)
| VJsonNumber (s : string)
| VString (s : string)
| VSlice (l : list any)
| VMap (m : gmap string any)
| VProgressOptions (o : ProgressOptions)
| VProgressOptionsPtr (p : option ProgressOptions)
| VUint (n : Z).

(** [ApiErrorCode] and its constants ([errors.go]). *)
Inductive ApiErrorCode :=
| CodeValidation
| CodeNotFound
| CodeRateLimit
| CodeServer
| CodeNetwork
| CodeUnknown.

Definition ApiErrorCode_string (c : ApiErrorCode) : string :=
  match c with
  | CodeValidation => "VALIDATION_ERROR"
  | CodeNotFound => "NOT_FOUND"
  | CodeRateLimit => "RATE_LIMITED"
  | CodeServer => "SERVER_ERROR"
  | CodeNetwork => "NETWORK_ERROR"
  | CodeUnknown => "UNKNOWN_ERROR"
  end.

(** The values of the interface [error] that occur: the three error structs
    of [errors.go] and the plain errors of the standard library
    ([errors.New], the errors of [encoding/json] and [net/http]). The [Raw]
    field of an [ApiError] holds either the transport's error or the decoded
    body of the response. *)
Inductive error :=
| PlainError (msg : string)
| ValidationError (Message : string)
| SdkError (Message : string) (Cause : option error)
| ApiError (Code : ApiErrorCode) (HTTPStatus : option Z) (Retryable : bool)
    (Message : string) (Raw : ApiRaw)
with ApiRaw :=
| RawError (e : error)
| RawBody (m : gmap string any).

(** The method [Error()] of each of them. *)
Fixpoint Error (e : error) : string :=
  match e with
  | PlainError msg => msg
  | ValidationError msg => msg
  | SdkError msg None => msg
  | SdkError msg (Some cause) => msg +:+ ": " +:+ Error cause
  | ApiError _ _ _ msg _ => msg
  end.

(** [HttpResponse] ([http.go]). *)
Record HttpResponse := {
  Status : Z;
  Body : string;
  Headers : gmap string string
}.

(** [PingSuccess]. *)
Record PingSuccess := {
  Ok : bool;
  Action : string;
  JobKey : string;
  Timestamp : string;
  ProcessingTimeMs : Float64.float64;
  NextExpected : option string;
  Raw : gmap string any
}.

(** What a client does to the outside world, in the order it does it: a call
    of [HttpClient.Request] with its five arguments, and a call of the
    client's [sleep] with a [time.Duration] (nanoseconds). *)
Inductive Event :=
| Requested (method url : string) (headers : gmap string string) (body : string)
    (timeoutMs : Z)
| Slept (d : Z).

Definition is_request (ev : Event) : bool :=
  match ev with Requested _ _ _ _ _ => true | Slept _ => false end.

(** The number of transport invocations in a log. *)
Definition requests (log : list Event) : nat := length (List.filter is_request log).

(** The durations slept, oldest first. *)
Definition sleeps (log : list Event) : list Z :=
  omap (fun ev => match ev with Slept d => Some d | _ => None end) log.

(** The events of a log that are requests all carry the given url and
    payload. *)
Definition requestsCarry (url payload : string) (evs : list Event) : Prop :=
  Forall (fun ev =>
            match ev with
            | Requested method u _ b _ => method = "POST" /\ u = url /\ b = payload
            | Slept _ => True
            end) evs.

(** ** The collaborators *)

(** The interface [HttpClient] ([http.go]). An implementation is a type of
    transport states and a [Request] that answers a call with a response or
    with an error, and with the next state. *)
Class HttpClient (T : Type) := {
  Request : T -> string -> string -> gmap string string -> string -> Z ->
            T * (HttpResponse + error);
  (** [&NetHTTPClient{}], the transport of [net/http]. *)
  NetHTTPClient : T
}.

(** [*rand.Rand]: a generator state, [rand.New(rand.NewSource(seed))] and
    [Intn], which returns a number of [[0, n)] for [n > 0] (and panics
    otherwise). *)
Class Rand (R : Type) := {
  NewSource : Z -> R;
  Intn : R -> Z -> Z * R;
  Intn_range : forall r n, 0 < n -> 0 <= fst (Intn r n) < n
}.

(** The functions of the Go standard library the package calls and that are
    not written out here; of [json.Marshal], what it writes for a body with
    a single string is. *)
Class Library := {
  (** [strings.TrimSpace] *)
  TrimSpace : string -> string;
  (** [strings.ToLower] *)
  ToLower : string -> string;
  (** [json.Marshal] of a request body *)
  Marshal : gmap string any -> string + error;
  (** on a body whose single entry is a string, [json.Marshal] cannot fail
      and writes the object of that entry *)
  Marshal_string : forall k s, Marshal {[ k := VString s ]} = inl (GoJson.object k s);
  (** [json.Unmarshal] of a text into an [any] *)
  Unmarshal : string -> any + error;
  (** [fmt.Sscanf(x, "%f", &f)]: the float read, or the error *)
  Sscanf_f : string -> Float64.float64 + error;
  (** [json.Number.Float64], that is [strconv.ParseFloat(s, 64)] *)
  ParseFloat : string -> Float64.float64 + error
}.

(** ** The client *)

(** The control flow of one turn of a [for] loop: [return] a value,
    [continue] with the next value of the loop variable, or leave the
    function by a panic. *)
Inductive Flow (A : Type) :=
| Return (a : A)
| Continue (attempt : Z)
| Panic.
Arguments Return {A} a.
Arguments Continue {A} attempt.
Arguments Panic {A}.

Definition inspect {A : Type} (a : A) : {b : A | a = b} := exist _ a eq_refl.

Section Client.

Context {T R : Type} `{HttpClient T} `{Rand R} `{Library}.

(** [Options]; [HTTPClient] is nil when no transport is injected. *)
Record Options := {
  BaseURL : string;
  TimeoutMs : Z;
  MaxRetries : Z;
  RetryBackoffMs : Z;
  RetryJitterMs : Z;
  UserAgent : string;
  HTTPClient : option T
}.

(** The zero value [Options{}]. *)
Definition Options_zero : Options :=
  {| BaseURL := ""; TimeoutMs := 0; MaxRetries := 0; RetryBackoffMs := 0;
     RetryJitterMs := 0; UserAgent := ""; HTTPClient := None |}.

(** [PingClient]: the fields that hold values. They are never assigned after
    construction. *)
Record PingClient := {
  baseURL : string;
  jobKey : string;
  timeoutMs : Z;
  maxRetries : Z;
  retryBackoffMs : Z;
  retryJitterMs : Z;
  userAgent : string
}.

(** The objects behind the fields [httpClient] and [rng] of a [PingClient],
    which its methods mutate, and the log of the calls made to the transport
    and to the field [sleep]. *)
Record World := {
  httpClient : T;
  rng : R;
  log : list Event
}.

(** The pair of a [*PingSuccess] and an [error] a method returns: exactly
    one of the two is non-nil. *)
Definition Result : Type := PingSuccess + error.

(** How a call of a method ends: it returns its pair, or it panics. *)
Inductive Outcome :=
| Returns (r : Result)
| Panics.

Definition defaultString (v fallback : string) : string :=
  if String.eqb (TrimSpace v) "" then fallback else v.

(** [jobKeyRegex.MatchString], for the pattern [^[a-zA-Z0-9]{8}$]. *)
Definition jobKeyRegex_MatchString (s : string) : bool :=
  Strings.match_class_repeat Strings.is_alnum 8 s.

(** [NewPingClient]; [now] is [time.Now().UnixNano()]. The world it returns
    holds the transport and the generator the new client points to. *)
Definition NewPingClient (jobKey : string) (opts : option Options) (now : Z)
  : (PingClient * World) + error :=
  if negb (jobKeyRegex_MatchString jobKey) then
    inr (ValidationError "jobKey must be exactly 8 Base62 characters.")
  else
    let options := match opts with Some o => o | None => Options_zero end in
    let baseURL :=
      Strings.TrimRight1 (defaultString (BaseURL options) "https://cronbeats.io") "/" in
    let timeoutMs := GoInt.defaultInt (TimeoutMs options) 5000 in
    let maxRetries := GoInt.defaultInt (MaxRetries options) 2 in
    let retryBackoffMs := GoInt.defaultInt (RetryBackoffMs options) 250 in
    let retryJitterMs := GoInt.defaultInt (RetryJitterMs options) 100 in
    let userAgent := defaultString (UserAgent options) "cronbeats-go-sdk/0.1.0" in
    let httpClient :=
      match HTTPClient options with Some t => t | None => NetHTTPClient end in
    inl ({| baseURL := baseURL; jobKey := jobKey; timeoutMs := timeoutMs;
            maxRetries := maxRetries; retryBackoffMs := retryBackoffMs;
            retryJitterMs := retryJitterMs; userAgent := userAgent |},
         {| httpClient := httpClient; rng := NewSource now; log := [] |}).

(** [mapError]. *)
Definition mapError (status : Z) : ApiErrorCode * bool :=
  if status =? 400 then (CodeValidation, false)
  else if status =? 404 then (CodeNotFound, false)
  else if status =? 429 then (CodeRateLimit, true)
  else if status >=? 500 then (CodeServer, true)
  else (CodeUnknown, false).

Definition invalidJSON : gmap string any :=
  {[ "message" := VString "Invalid JSON response" ]}.

(** [safeJSON]. *)
Definition safeJSON (raw : string) : gmap string any :=
  match Unmarshal raw with
  | inr _ => invalidJSON
  | inl decoded =>
      match decoded with
      | VMap obj => obj
      | _ => invalidJSON
      end
  end.

(** [floatOrZero]. *)
Definition floatOrZero (v : any) : Float64.float64 :=
  match v with
  | VFloat64 x => x
  | VFloat32 x => Float64.of_float32 x
  | VInt x => Float64.of_int x
  | VInt64 x => Float64.of_int x
  | VInt32 x => Float64.of_int x
  | VJsonNumber x =>
      match ParseFloat x with
      | inl f => f
      | inr _ => Float64.zero
      end
  | VString x =>
      match Sscanf_f x with
      | inl f => f
      | inr _ => Float64.zero
      end
  | _ => Float64.zero
  end.

(** The index expression [m[k]] on a [map[string]any]: nil when the key is
    absent. *)
Definition index (m : gmap string any) (k : string) : any :=
  default VNil (m !! k).

(** The type assertion [s, _ := v.(string)]: the empty string when [v] does
    not hold a string. *)
Definition assert_string (v : any) : string :=
  match v with
  | VString s => s
  | _ => ""
  end.

Definition is_nil (v : any) : bool :=
  match v with
  | VNil => true
  | _ => false
  end.

(** [normalizeSuccess]. *)
Definition normalizeSuccess (c : PingClient) (action : string)
  (payload : gmap string any) : PingSuccess :=
  let outAction := assert_string (index payload "action") in
  let outAction := if String.eqb outAction "" then action else outAction in
  let outJobKey := assert_string (index payload "job_key") in
  let outJobKey := if String.eqb outJobKey "" then jobKey c else outJobKey in
  let timestamp := assert_string (index payload "timestamp") in
  let nextExpected :=
    match payload !! "next_expected" with
    | Some rawNext =>
        if negb (is_nil rawNext) then
          match rawNext with
          | VString v => Some v
          | _ => None
          end
        else None
    | None => None
    end in
  {| Ok := true;
     Action := outAction;
     JobKey := outJobKey;
     Timestamp := timestamp;
     ProcessingTimeMs := floatOrZero (index payload "processing_time_ms");
     NextExpected := nextExpected;
     Raw := payload |}.

(** [time.Millisecond], in nanoseconds. *)
Definition Millisecond : Z := 1000000.

(** The milliseconds [sleepWithBackoff] computes before it draws the jitter:
    [int(baseMs)]. *)
Definition backoffMs (c : PingClient) (attempt : Z) : Z :=
  let baseMs :=
    Float64.mul (Float64.of_int (retryBackoffMs c))
                (Float64.pow2 (GoInt.maxInt 0 (GoInt.wrap (attempt - 1)))) in
  Float64.to_int baseMs.

(** The draw of the jitter in [sleepWithBackoff]. [rand.Intn] panics when
    its argument is not positive, which [retryJitterMs + 1] is once it has
    wrapped around: there is no draw then. *)
Definition drawJitter (c : PingClient) (r : R) : option (Z * R) :=
  if retryJitterMs c >? 0 then
    let n := GoInt.wrap (retryJitterMs c + 1) in
    if n <=? 0 then None else Some (Intn r n)
  else Some (0, r).

(** [sleepWithBackoff]; no world when the draw of the jitter panics. *)
Definition sleepWithBackoff (c : PingClient) (attempt : Z) (w : World)
  : option World :=
  match drawJitter c (rng w) with
  | Some (jitter, r) =>
      let waitMs := GoInt.wrap (backoffMs c attempt + jitter) in
      Some {| httpClient := httpClient w;
              rng := r;
              log := log w ++ [Slept (GoInt.wrap (waitMs * Millisecond))] |}
  | None => None
  end.

Definition requestHeaders (c : PingClient) : gmap string string :=
  {[ "Content-Type" := "application/json";
     "Accept" := "application/json";
     "User-Agent" := userAgent c ]}.

(** The call of [c.httpClient.Request] in [request]. *)
Definition doRequest (c : PingClient) (url payload : string) (w : World)
  : World * (HttpResponse + error) :=
  let '(t, out) :=
    Request (httpClient w) "POST" url (requestHeaders c) payload (timeoutMs c) in
  ({| httpClient := t;
      rng := rng w;
      log := log w ++ [Requested "POST" url (requestHeaders c) payload (timeoutMs c)] |},
   out).

(** The statements [attempt++; c.sleepWithBackoff(attempt); continue] of the
    two branches of [request] that retry. *)
Definition retry (c : PingClient) (attempt : Z) (w : World) : World * Flow Result :=
  let attempt := attempt + 1 in
  match sleepWithBackoff c attempt w with
  | Some w' => (w', Continue attempt)
  | None => (w, Panic)
  end.

(** One turn of the [for] loop of [request]. *)
Definition iteration (c : PingClient) (action url payload : string)
  (attempt : Z) (w : World) : World * Flow Result :=
  let '(w, out) := doRequest c url payload w in
  match out with
  | inr reqErr =>
      if attempt >=? maxRetries c then
        (w, Return (inr (ApiError CodeNetwork None true (Error reqErr) (RawError reqErr))))
      else retry c attempt w
  | inl res =>
      let parsed := safeJSON (Body res) in
      if (Status res >=? 200) && (Status res <? 300) then
        (w, Return (inl (normalizeSuccess c action parsed)))
      else
        let '(code, retryable) := mapError (Status res) in
        let msg := assert_string (index parsed "message") in
        let msg := if String.eqb msg "" then "Request failed" else msg in
        if retryable && (attempt <? maxRetries c) then retry c attempt w
        else
          let status := Status res in
          (w, Return (inr (ApiError code (Some status) retryable msg (RawBody parsed))))
  end.

Lemma iteration_continue c action url payload attempt w w' a' :
  iteration c action url payload attempt w = (w', Continue a') ->
  a' = attempt + 1 /\ attempt < maxRetries c.
Proof.
  unfold iteration, retry.
  destruct (doRequest c url payload w) as [w1 [res | reqErr]].
  - destruct ((Status res >=? 200) && (Status res <? 300)); [discriminate |].
    destruct (mapError (Status res)) as [code retryable].
    destruct (retryable && (attempt <? maxRetries c)) eqn:E; [| discriminate].
    destruct (sleepWithBackoff c (attempt + 1) w1); [| discriminate].
    intros [= _ <-]. apply andb_prop in E as [_ E]. lia.
  - destruct (attempt >=? maxRetries c) eqn:E; [discriminate |].
    destruct (sleepWithBackoff c (attempt + 1) w1); [| discriminate].
    intros [= _ <-]. lia.
Qed.

(** The [for] loop of [request], entered with the loop variable at
    [attempt]. It ends because a turn only continues below [maxRetries]. *)
Equations? requestLoop (c : PingClient) (action url payload : string)
  (attempt : Z) (w : World) : World * Outcome
  by wf (Z.to_nat (maxRetries c - attempt)) lt :=
requestLoop c action url payload attempt w
  with inspect (iteration c action url payload attempt w) := {
  | exist _ (w', Return r) _ := (w', Returns r);
  | exist _ (w', Continue a') Hturn := requestLoop c action url payload a' w';
  | exist _ (w', Panic) _ := (w', Panics) }.
Proof.
  apply iteration_continue in Hturn as [-> Hlt]. lia.
Qed.

(** The loop, one turn at a time. *)
Lemma requestLoop_turn c action url payload attempt w :
  requestLoop c action url payload attempt w =
  match iteration c action url payload attempt w with
  | (w', Return r) => (w', Returns r)
  | (w', Continue a') => requestLoop c action url payload a' w'
  | (w', Panic) => (w', Panics)
  end.
Proof.
  rewrite requestLoop_equation_1. unfold requestLoop_unfold_clause_1, inspect.
  destruct (iteration c action url payload attempt w) as [w' [r | a' |]]; reflexivity.
Qed.

(** The payload of [request]: the body encoded when it has an entry, and no
    bytes otherwise. *)
Definition encodeBody (body : gmap string any) : string + error :=
  if (0 <? size body)%nat then Marshal body else inl "".

(** [request]. *)
Definition request (c : PingClient) (action path : string)
  (body : gmap string any) (w : World) : World * Outcome :=
  let url := baseURL c +:+ path in
  match encodeBody body with
  | inr err => (w, Returns (inr (SdkError "failed to encode request payload" (Some err))))
  | inl payload => requestLoop c action url payload 0 w
  end.

(** [Ping]. *)
Definition Ping (c : PingClient) (w : World) : World * Outcome :=
  request c "ping" ("/ping/" +:+ jobKey c) ∅ w.

(** [Start]. *)
Definition Start (c : PingClient) (w : World) : World * Outcome :=
  request c "start" ("/ping/" +:+ jobKey c +:+ "/start") ∅ w.

(** The status [End] works with: lowercased, trimmed, "success" when
    empty. *)
Definition endStatus (status : string) : string :=
  let statusValue := ToLower (TrimSpace status) in
  if String.eqb statusValue "" then "success" else statusValue.

(** The message of [End]'s error: [Status must be "success" or "fail".] *)
Definition statusMessage : string :=
  let q := String "034"%char "" in
  "Status must be " +:+ q +:+ "success" +:+ q +:+ " or " +:+ q +:+ "fail" +:+ q +:+ ".".

(** [End]. *)
Definition End (c : PingClient) (status : string) (w : World) : World * Outcome :=
  let statusValue := endStatus status in
  if negb (String.eqb statusValue "success") && negb (String.eqb statusValue "fail") then
    (w, Returns (inr (ValidationError statusMessage)))
  else
    request c "end" ("/ping/" +:+ jobKey c +:+ "/end/" +:+ statusValue) ∅ w.

(** [Success]. *)
Definition Success (c : PingClient) (w : World) : World * Outcome :=
  End c "success" w.

(** [Fail]. *)
Definition Fail (c : PingClient) (w : World) : World * Outcome :=
  End c "fail" w.

(** The local variables [seq], [seqProvided] and [msg] of [Progress]. *)
Record ProgressVars := {
  seq : Z;
  seqProvided : bool;
  msg : string
}.

(** What the [if] on a [ProgressOptions] value does to the variables. *)
Definition readOptions (v : ProgressOptions) (vars : ProgressVars) : ProgressVars :=
  let vars :=
    match Seq v with
    | Some n => {| seq := n; seqProvided := true; msg := msg vars |}
    | None => vars
    end in
  if negb (String.eqb (TrimSpace (Message v)) "") || String.eqb (msg vars) "" then
    {| seq := seq vars; seqProvided := seqProvided vars; msg := Message v |}
  else vars.

(** The type switch of [Progress] on its input; the default case returns
    the error. *)
Definition switchInput (input : any) (vars : ProgressVars) : ProgressVars + error :=
  match input with
  | VNil => inl vars
  | VInt v => inl {| seq := v; seqProvided := true; msg := msg vars |}
  | VProgressOptions v => inl (readOptions v vars)
  | VProgressOptionsPtr v =>
      match v with
      | Some v => inl (readOptions v vars)
      | None => inl vars
      end
  | _ => inr (ValidationError "Progress input must be int, ProgressOptions, or nil.")
  end.

(** The message [Progress] puts in the body: cut to 255 bytes. *)
Definition truncateMessage (msg : string) : string :=
  if (255 <? String.length msg)%nat then Strings.prefix 255 msg else msg.

(** The variables of [Progress] before its type switch; [message] is the
    variadic parameter. *)
Definition initialVars (message : list string) : ProgressVars :=
  {| seq := -1;
     seqProvided := false;
     msg := match message with m :: _ => m | [] => "" end |}.

(** [Progress]. *)
Definition Progress (c : PingClient) (input : any) (message : list string)
  (w : World) : World * Outcome :=
  match switchInput input (initialVars message) with
  | inr err => (w, Returns (inr err))
  | inl vars =>
      if seqProvided vars && (seq vars <? 0) then
        (w, Returns (inr (ValidationError "Progress seq must be a non-negative integer.")))
      else
        let msg := truncateMessage (msg vars) in
        let body : gmap string any := {[ "message" := VString msg ]} in
        if seqProvided vars then
          request c "progress"
            ("/ping/" +:+ jobKey c +:+ "/progress/" +:+ Strings.itoa (seq vars)) body w
        else
          request c "progress" ("/ping/" +:+ jobKey c +:+ "/progress") body w
  end.

(** *** The vocabulary of the properties *)

(** A status of the success range. *)
Definition is2xx (status : Z) : bool := (status >=? 200) && (status <? 300).

(** The retryable flag [mapError] gives a status. *)
Definition retryable (status : Z) : bool := snd (mapError status).

(** What the transport in state [t] answers to the request [request] sends
    for [url] and [payload]. *)
Definition answer (c : PingClient) (url payload : string) (t : T)
  : T * (HttpResponse + error) :=
  Request t "POST" url (requestHeaders c) payload (timeoutMs c).

(** A failure the retry policy may retry: an error of the transport, or a
    response whose status is mapped to a retryable code. *)
Definition retryableFailure (out : HttpResponse + error) : bool :=
  match out with
  | inr _ => true
  | inl res => negb (is2xx (Status res)) && retryable (Status res)
  end.

(** Any failure: an error of the transport or a status outside the success
    range. *)
Definition failure (out : HttpResponse + error) : bool :=
  match out with
  | inr _ => true
  | inl res => negb (is2xx (Status res))
  end.

(** From state [t] the transport answers [N] retryable failures in a row and
    then the response [res]. *)
Fixpoint failsThenReturns (N : nat) (c : PingClient) (url payload : string)
  (t : T) (res : HttpResponse) : Prop :=
  match N with
  | O => snd (answer c url payload t) = inl res
  | S n =>
      retryableFailure (snd (answer c url payload t)) = true /\
      failsThenReturns n c url payload (fst (answer c url payload t)) res
  end.

(** The message of an API error, in the words of the specification: the
    string under "message" in the decoded body, and "Request failed" when
    there is none or it is empty. *)
Definition responseMessage (parsed : gmap string any) : string :=
  match parsed !! "message" with
  | Some (VString m) => if decide (m = "") then "Request failed" else m
  | _ => "Request failed"
  end.

(** The structured error of a response with a failure status. *)
Definition apiErrorOf (res : HttpResponse) : error :=
  ApiError (fst (mapError (Status res))) (Some (Status res))
    (retryable (Status res)) (responseMessage (safeJSON (Body res)))
    (RawBody (safeJSON (Body res))).

(** The structured error of a failure of the transport. *)
Definition networkErrorOf (reqErr : error) : error :=
  ApiError CodeNetwork None true (Error reqErr) (RawError reqErr).

(** The structured error of any failure. *)
Definition errorOf (out : HttpResponse + error) : error :=
  match out with
  | inl res => apiErrorOf res
  | inr reqErr => networkErrorOf reqErr
  end.

(** The sequence a call of [Progress] supplies, if any. *)
Definition suppliedSeq (input : any) : option Z :=
  match input with
  | VInt n => Some n
  | VProgressOptions o => Seq o
  | VProgressOptionsPtr (Some o) => Seq o
  | _ => None
  end.

(** The inputs [Progress] accepts: nothing, an [int], options by value or
    by pointer. *)
Definition acceptedInput (input : any) : bool :=
  match input with
  | VNil | VInt _ | VProgressOptions _ | VProgressOptionsPtr _ => true
  | _ => false
  end.

(** The path [Progress] posts to. *)
Definition progressPath (c : PingClient) (vars : ProgressVars) : string :=
  if seqProvided vars then
    "/ping/" +:+ jobKey c +:+ "/progress/" +:+ Strings.itoa (seq vars)
  else "/ping/" +:+ jobKey c +:+ "/progress".

(** From state [t] the transport answers [N] retryable failures in a row and
    then [out], whatever that is. *)
Fixpoint failsThenAnswers (N : nat) (c : PingClient) (url payload : string)
  (t : T) (out : HttpResponse + error) : Prop :=
  match N with
  | O => snd (answer c url payload t) = out
  | S n =>
      retryableFailure (snd (answer c url payload t)) = true /\
      failsThenAnswers n c url payload (fst (answer c url payload t)) out
  end.

(** What [request] returns for the answer that ends its loop. *)
Definition resultOf (c : PingClient) (action : string) (out : HttpResponse + error)
  : Result :=
  match out with
  | inl res =>
      if is2xx (Status res) then inl (normalizeSuccess c action (safeJSON (Body res)))
      else inr (apiErrorOf res)
  | inr reqErr => inr (networkErrorOf reqErr)
  end.

(** The event of a call of the transport by [request]. *)
Definition requestEvent (c : PingClient) (url payload : string) : Event :=
  Requested "POST" url (requestHeaders c) payload (timeoutMs c).

(** The message a [Progress] call works with, in the words of its type
    switch: the [Message] of the options unless it is blank while a variadic
    message is given; the variadic message (or none) for the other inputs. *)
Definition chosenMessage (input : any) (message : list string) : string :=
  let given := match message with m :: _ => m | [] => "" end in
  let ofOptions (o : ProgressOptions) :=
    if decide (TrimSpace (Message o) = "" /\ given <> "") then given else Message o in
  match input with
  | VProgressOptions o => ofOptions o
  | VProgressOptionsPtr (Some o) => ofOptions o
  | _ => given
  end.

End Client.

(** The events one call of [request] adds to the log: calls of the transport
    with one sleep between two of them. *)
Inductive RetryTrace (ev : Event) : list Event -> Prop :=
| trace_last : RetryTrace ev [ev]
| trace_retry (d : Z) (evs : list Event) :
    RetryTrace ev evs -> RetryTrace ev (ev :: Slept d :: evs).

(** [SdkError.Unwrap]; nil for the other errors here, which have no such
    method. *)
Definition Unwrap (e : error) : option error :=
  match e with
  | SdkError _ cause => cause
  | _ => None
  end.

(** A byte of the class [a-zA-Z0-9]. *)
Definition alphanumeric (a : ascii) : Prop :=
  let n := N_of_ascii a in
  (97 <= n <= 122 \/ 65 <= n <= 90 \/ 48 <= n <= 57)%N.

(** The message of the error of an invalid job key. *)
Definition jobKeyMessage : string := "jobKey must be exactly 8 Base62 characters.".

(** The largest number of whole milliseconds a [time.Duration] (an [int64]
    of nanoseconds) holds. *)
Definition MaxDurationMs : Z := 9223372036854.

(** ** The stubs of the package's tests

    The transport of the test file, a counter that plays the random
    generator, and a stand-in for the parameters of the standard library
    that covers the texts the examples use. They make the client run on
    concrete inputs; the properties are stated for every transport,
    generator and library. *)

Module Stub.

Record stubResponse := {
  status : Z;
  body : string
}.

Record stubCall := {
  call_method : string;
  call_url : string;
  call_body : string
}.

Record stubHTTPClient := {
  responses : list stubResponse;
  networkFailures : Z;
  calls : list stubCall
}.

(** [stubHTTPClient.Request]. *)
Definition stubRequest (s : stubHTTPClient) (method url : string)
  (_ : gmap string string) (payload : string) (_ : Z)
  : stubHTTPClient * (HttpResponse + error) :=
  let calls := (calls s ++ [{| call_method := method; call_url := url; call_body := payload |}])%list in
  if networkFailures s >? 0 then
    ({| responses := responses s; networkFailures := networkFailures s - 1; calls := calls |},
     inr (SdkError "socket timeout" (Some (PlainError "timeout"))))
  else
    match responses s with
    | [] =>
        ({| responses := []; networkFailures := networkFailures s; calls := calls |},
         inl {| Status := 200; Body := "{}"; Headers := ∅ |})
    | next :: rest =>
        ({| responses := rest; networkFailures := networkFailures s; calls := calls |},
         inl {| Status := status next; Body := body next; Headers := ∅ |})
    end.

(** In the stubbed world the network is a stub without scripted answers. *)
#[export] Instance stubHttp : HttpClient stubHTTPClient := {
  Request := stubRequest;
  NetHTTPClient := {| responses := []; networkFailures := 0; calls := [] |}
}.

(** A generator that counts: the n-th draw is n reduced modulo the bound. *)
Definition counterIntn (r n : Z) : Z * Z := (r mod n, r + 1).

Lemma counterIntn_range (r n : Z) : 0 < n -> 0 <= fst (counterIntn r n) < n.
Proof. intros Hn. simpl. apply Z.mod_pos_bound. exact Hn. Qed.

#[export] Instance counterRand : Rand Z := {
  NewSource seed := seed;
  Intn := counterIntn;
  Intn_range := counterIntn_range
}.

Definition is_space (a : ascii) : bool :=
  let n := N_of_ascii a in
  ((n =? 32) || (9 <=? n) && (n <=? 13))%N.

Fixpoint trimLeft (s : string) : string :=
  match s with
  | String a s' => if is_space a then trimLeft s' else s
  | EmptyString => EmptyString
  end.

Definition trimSpace (s : string) : string :=
  Strings.rev (trimLeft (Strings.rev (trimLeft s))).

Definition lower (a : ascii) : ascii :=
  let n := N_of_ascii a in
  if ((65 <=? n) && (n <=? 90))%N then ascii_of_N (n + 32) else a.

Fixpoint toLower (s : string) : string :=
  match s with
  | String a s' => String (lower a) (toLower s')
  | EmptyString => EmptyString
  end.

(** Encodes the bodies [Progress] builds, as [json.Marshal] does, and
    refuses the others. *)
Definition marshal (m : gmap string any) : string + error :=
  match map_to_list m with
  | [(k, VString s)] => inl (GoJson.object k s)
  | _ => inr (PlainError "json: unsupported value")
  end.

Lemma marshal_string (k s : string) :
  marshal {[ k := VString s ]} = inl (GoJson.object k s).
Proof. unfold marshal. rewrite map_to_list_singleton. reflexivity. Qed.

(** Decodes three texts: the empty object, the empty array and null. *)
Definition unmarshal (raw : string) : any + error :=
  if String.eqb raw "{}" then inl (VMap ∅)
  else if String.eqb raw "[]" then inl (VSlice [])
  else if String.eqb raw "null" then inl VNil
  else inr (PlainError "invalid character").

(** Reads the numerals 0 and 1. *)
Definition parseFloat (s : string) : Float64.float64 + error :=
  if String.eqb s "0" then inl Float64.zero
  else if String.eqb s "1" then inl (Float64.of_int 1)
  else inr (PlainError "expected number").

#[export] Instance stubLibrary : Library := {
  TrimSpace := trimSpace;
  ToLower := toLower;
  Marshal := marshal;
  Marshal_string := marshal_string;
  Unmarshal := unmarshal;
  Sscanf_f := parseFloat;
  ParseFloat := parseFloat
}.

(** [newTestClient] of the test file builds its clients through
    [NewPingClient]; the tests of the retry loop below also use clients
    written as records, as code inside the package can. *)
Definition testClient (maxRetries retryBackoffMs retryJitterMs : Z)
  : PingClient :=
  {| baseURL := "https://cronbeats.io"; jobKey := "abc123de"; timeoutMs := 5000;
     maxRetries := maxRetries; retryBackoffMs := retryBackoffMs;
     retryJitterMs := retryJitterMs; userAgent := "cronbeats-go-sdk/0.1.0" |}.

Definition testWorld (networkFailures : Z) (responses : list stubResponse)
  : World (T := stubHTTPClient) (R := Z) :=
  {| httpClient := {| responses := responses; networkFailures := networkFailures; calls := [] |};
     rng := 0;
     log := [] |}.

(** The answer of the stub when it has no scripted response left. *)
Definition ok200 : HttpResponse := {| Status := 200; Body := "{}"; Headers := ∅ |}.

(** A message of 300 bytes, as in the test of the truncation. *)
Definition longMsg : string := string_of_list_ascii (repeat "x"%char 300).

(** A message of [n] times the letter e with an acute accent, which UTF-8
    encodes in the two bytes C3 A9. *)
Fixpoint accents (n : nat) : string :=
  match n with
  | O => ""
  | S n' => String (Utf8.char 0xC3) (String (Utf8.char 0xA9) (accents n'))
  end.

(** The response the stub serves once its network failures are spent. *)
Definition nextResponse (s : stubHTTPClient) : HttpResponse :=
  match responses s with
  | [] => ok200
  | next :: _ => {| Status := status next; Body := body next; Headers := ∅ |}
  end.

End Stub.


(** * Properties *)

(** ** The encoding of a message *)

(** *** Bytes and runes *)

Lemma byte_range (a : ascii) : 0 <= Utf8.byte a < 256.
Proof.
  unfold Utf8.byte. pose proof (N_ascii_bounded a) as Hb. lia.
Qed.

Lemma char_byte (a : ascii) : Utf8.char (Utf8.byte a) = a.
Proof. unfold Utf8.char, Utf8.byte. rewrite N2Z.id. apply ascii_N_embedding. Qed.

Lemma byte_eq_char (a : ascii) (k : Z) : Utf8.byte a = k -> a = Utf8.char k.
Proof. intros <-. symmetry. apply char_byte. Qed.

Lemma land_shiftl_low (a b k : Z) :
  0 <= k -> 0 <= b < 2 ^ k -> Z.land (Z.shiftl a k) b = 0.
Proof.
  intros Hk Hb. apply Z.bits_inj'. intros n Hn.
  rewrite Z.land_spec, Z.bits_0.
  destruct (Z.lt_ge_cases n k) as [Hlt | Hge].
  - rewrite Z.shiftl_spec_low by exact Hlt. reflexivity.
  - destruct (Z.eq_dec b 0) as [-> | Hnz].
    + rewrite Z.bits_0. apply andb_false_r.
    + rewrite (Z.bits_above_log2 b n); [apply andb_false_r | lia |].
      apply Z.log2_lt_pow2; [lia |].
      apply Z.lt_le_trans with (2 ^ k); [lia |].
      apply Z.pow_le_mono_r; lia.
Qed.

Lemma lor_shiftl_low (a b k : Z) :
  0 <= k -> 0 <= b < 2 ^ k -> Z.lor (Z.shiftl a k) b = a * 2 ^ k + b.
Proof.
  intros Hk Hb. pose proof (Z.add_lor_land (Z.shiftl a k) b) as Hadd.
  rewrite (land_shiftl_low a b k Hk Hb), Z.add_0_r in Hadd.
  rewrite Hadd, Z.shiftl_mul_pow2 by exact Hk. reflexivity.
Qed.

Lemma land_maskx (s : Z) : Z.land s Utf8.maskx = s mod 64.
Proof. change Utf8.maskx with (Z.ones 6). rewrite Z.land_ones by lia. reflexivity. Qed.

Lemma land_mask2 (s : Z) : Z.land s Utf8.mask2 = s mod 32.
Proof. change Utf8.mask2 with (Z.ones 5). rewrite Z.land_ones by lia. reflexivity. Qed.

Lemma land_mask3 (s : Z) : Z.land s Utf8.mask3 = s mod 16.
Proof. change Utf8.mask3 with (Z.ones 4). rewrite Z.land_ones by lia. reflexivity. Qed.

Lemma land_mask4 (s : Z) : Z.land s Utf8.mask4 = s mod 8.
Proof. change Utf8.mask4 with (Z.ones 3). rewrite Z.land_ones by lia. reflexivity. Qed.

Lemma rune2_value (s0 s1 : Z) :
  Z.lor (Z.shiftl (Z.land s0 Utf8.mask2) 6) (Z.land s1 Utf8.maskx) =
  (s0 mod 32) * 64 + s1 mod 64.
Proof.
  rewrite land_mask2, land_maskx.
  rewrite lor_shiftl_low; [reflexivity | lia |].
  change (2 ^ 6) with 64. apply Z.mod_pos_bound. lia.
Qed.

Lemma rune3_value (s0 s1 s2 : Z) :
  Z.lor (Z.lor (Z.shiftl (Z.land s0 Utf8.mask3) 12) (Z.shiftl (Z.land s1 Utf8.maskx) 6))
    (Z.land s2 Utf8.maskx) =
  (s0 mod 16) * 4096 + (s1 mod 64) * 64 + s2 mod 64.
Proof.
  rewrite land_mask3, !land_maskx.
  pose proof (Z.mod_pos_bound s1 64 ltac:(lia)) as H1.
  pose proof (Z.mod_pos_bound s2 64 ltac:(lia)) as H2.
  rewrite (Z.shiftl_mul_pow2 (s1 mod 64) 6) by lia.
  rewrite (lor_shiftl_low (s0 mod 16) _ 12) by (change (2 ^ 6) with 64; change (2 ^ 12) with 4096; lia).
  change (2 ^ 12) with 4096. change (2 ^ 6) with 64.
  replace (s0 mod 16 * 4096 + s1 mod 64 * 64) with (Z.shiftl (s0 mod 16 * 64 + s1 mod 64) 6)
    by (rewrite Z.shiftl_mul_pow2 by lia; change (2 ^ 6) with 64; lia).
  rewrite lor_shiftl_low by (change (2 ^ 6) with 64; lia).
  rewrite ?Z.shiftl_mul_pow2 by lia.
  change (2 ^ 6) with 64. change (2 ^ 12) with 4096. ring.
Qed.

Lemma rune4_value (s0 s1 s2 s3 : Z) :
  Z.lor (Z.lor (Z.lor (Z.shiftl (Z.land s0 Utf8.mask4) 18)
                       (Z.shiftl (Z.land s1 Utf8.maskx) 12))
                (Z.shiftl (Z.land s2 Utf8.maskx) 6))
    (Z.land s3 Utf8.maskx) =
  (s0 mod 8) * 262144 + (s1 mod 64) * 4096 + (s2 mod 64) * 64 + s3 mod 64.
Proof.
  rewrite land_mask4, !land_maskx.
  pose proof (Z.mod_pos_bound s1 64 ltac:(lia)) as H1.
  pose proof (Z.mod_pos_bound s2 64 ltac:(lia)) as H2.
  pose proof (Z.mod_pos_bound s3 64 ltac:(lia)) as H3.
  rewrite (Z.shiftl_mul_pow2 (s1 mod 64) 12) by lia.
  rewrite (Z.shiftl_mul_pow2 (s2 mod 64) 6) by lia.
  change (2 ^ 12) with 4096. change (2 ^ 6) with 64.
  rewrite (lor_shiftl_low (s0 mod 8) _ 18) by (change (2 ^ 18) with 262144; lia).
  change (2 ^ 18) with 262144.
  replace (s0 mod 8 * 262144 + s1 mod 64 * 4096)
    with (Z.shiftl (s0 mod 8 * 64 + s1 mod 64) 12)
    by (rewrite Z.shiftl_mul_pow2 by lia; change (2 ^ 12) with 4096; lia).
  rewrite lor_shiftl_low by (change (2 ^ 12) with 4096; lia).
  change (2 ^ 12) with 4096.
  replace ((s0 mod 8 * 64 + s1 mod 64) * 4096 + s2 mod 64 * 64)
    with (Z.shiftl ((s0 mod 8 * 64 + s1 mod 64) * 64 + s2 mod 64) 6)
    by (rewrite Z.shiftl_mul_pow2 by lia; change (2 ^ 6) with 64; lia).
  rewrite lor_shiftl_low by (change (2 ^ 6) with 64; lia).
  rewrite ?Z.shiftl_mul_pow2 by lia.
  change (2 ^ 6) with 64. change (2 ^ 12) with 4096. ring.
Qed.

Lemma first_cases (b : Z) :
  128 <= b < 256 ->
  Utf8.first b = Utf8.xx \/
  (Utf8.first b = Utf8.s1 /\ 0xC2 <= b <= 0xDF) \/
  (Utf8.first b = Utf8.s2 /\ b = 0xE0) \/
  (Utf8.first b = Utf8.s3 /\ 0xE1 <= b <= 0xEF /\ b <> 0xED) \/
  (Utf8.first b = Utf8.s4 /\ b = 0xED) \/
  (Utf8.first b = Utf8.s5 /\ b = 0xF0) \/
  (Utf8.first b = Utf8.s6 /\ 0xF1 <= b <= 0xF3) \/
  (Utf8.first b = Utf8.s7 /\ b = 0xF4).
Proof.
  intros Hb. unfold Utf8.first.
  repeat match goal with
         | |- context [?x <? ?y] => destruct (Z.ltb_spec x y)
         | |- context [?x =? ?y] => destruct (Z.eqb_spec x y)
         end; try lia;
    first [ left; reflexivity
          | right; left; split; [reflexivity | lia]
          | right; right; left; split; [reflexivity | lia]
          | right; right; right; left; split; [reflexivity | lia]
          | right; right; right; right; left; split; [reflexivity | lia]
          | right; right; right; right; right; left; split; [reflexivity | lia]
          | right; right; right; right; right; right; left; split; [reflexivity | lia]
          | right; right; right; right; right; right; right; split; [reflexivity | lia] ].
Qed.

Lemma prefix_4 (a0 a1 a2 a3 : ascii) (r : string) :
  Strings.prefix 4 (String a0 (String a1 (String a2 (String a3 r)))) =
  String a0 (String a1 (String a2 (String a3 ""))).
Proof. destruct r; reflexivity. Qed.

Ltac eval_cond :=
  match goal with
  | |- context [if ?b then _ else _] =>
      let v := eval vm_compute in b in
      lazymatch v with
      | true => change b with true; cbv iota
      | false => change b with false; cbv iota
      end
  end.

Ltac split_cond :=
  match goal with
  | |- context [if ?b then _ else _] =>
      match b with
      | context [?x <? ?y] =>
          let x' := eval vm_compute in x in
          let y' := eval vm_compute in y in
          change (x <? y) with (x' <? y'); destruct (Z.ltb_spec x' y')
      end
  end; cbn [orb andb]; cbv iota.

Lemma decode_multibyte (a0 : ascii) (r0 : string) (c size : Z) :
  128 <= Utf8.byte a0 ->
  Utf8.DecodeRuneInString (Strings.prefix 4 (String a0 r0)) = (c, size) ->
  (c = Utf8.RuneError /\ size = 1) \/
  (size = 2 /\ exists a1 r1,
     r0 = String a1 r1 /\ 128 <= Utf8.byte a1 /\ c < 0x800) \/
  (size = 3 /\ exists a1 a2 r2,
     r0 = String a1 (String a2 r2) /\ 128 <= Utf8.byte a1 /\ 128 <= Utf8.byte a2 /\
     0xE0 <= Utf8.byte a0 <= 0xEF /\ Utf8.byte a1 <= 0xBF /\ Utf8.byte a2 <= 0xBF /\
     c = (Utf8.byte a0 - 0xE0) * 4096 + (Utf8.byte a1 - 0x80) * 64 + (Utf8.byte a2 - 0x80)) \/
  (size = 4 /\ exists a1 a2 a3 r3,
     r0 = String a1 (String a2 (String a3 r3)) /\
     128 <= Utf8.byte a1 /\ 128 <= Utf8.byte a2 /\ 128 <= Utf8.byte a3 /\ 0x10000 <= c).
Proof.
  intros Hhi.
  pose proof (byte_range a0) as Hb0.
  unfold Utf8.DecodeRuneInString.
  destruct r0 as [| a1 [| a2 [| a3 r3]]]; rewrite ?prefix_4;
    cbn [Strings.prefix String.substring Utf8.at_ String.get String.length
         Z.of_nat Pos.of_succ_nat Pos.succ];
    try (pose proof (byte_range a1) as Hb1; remember (Utf8.byte a1) as b1 eqn:Eb1);
    try (pose proof (byte_range a2) as Hb2; remember (Utf8.byte a2) as b2 eqn:Eb2);
    try (pose proof (byte_range a3) as Hb3; remember (Utf8.byte a3) as b3 eqn:Eb3);
    remember (Utf8.byte a0) as b0 eqn:Eb0;
    destruct (first_cases b0 ltac:(lia))
      as [Hx | [[Hx Hr] | [[Hx Hr] | [[Hx Hr] | [[Hx Hr] | [[Hx Hr] | [[Hx Hr] | [Hx Hr]]]]]]]];
    rewrite Hx; repeat first [eval_cond | split_cond].
  all: intros [= <- <-].
  all: try (left; split; reflexivity).
  all: rewrite ?rune2_value, ?rune3_value, ?rune4_value.
  all: first
    [ solve [ right; left; split; [reflexivity |];
              eexists; eexists; split; [reflexivity |];
              subst; split; [lia | Z.div_mod_to_equations; lia] ]
    | solve [ right; right; left; split; [reflexivity |];
              eexists; eexists; eexists; split; [reflexivity |];
              subst; repeat split; try lia; Z.div_mod_to_equations; lia ]
    | solve [ right; right; right; split; [reflexivity |];
              eexists; eexists; eexists; eexists; split; [reflexivity |];
              subst; repeat split; try lia; Z.div_mod_to_equations; lia ] ].
Qed.

Lemma readString_ascii (a : ascii) (t : string) :
  Utf8.byte a < 128 ->
  GoJson.readString
    ((if GoJson.htmlSafeSet (Utf8.byte a) then String a "" else GoJson.escapeByte a) +:+ t) =
  GoJson.prepend (String a "") (GoJson.readString t).
Proof.
  destruct a as [[] [] [] [] [] [] [] []]; intros Hlow;
    first [ exfalso; revert Hlow; vm_compute; discriminate | reflexivity ].
Qed.

Lemma readString_high (a : ascii) (t : string) :
  128 <= Utf8.byte a ->
  GoJson.readString (String a t) = GoJson.prepend (String a "") (GoJson.readString t).
Proof.
  destruct a as [[] [] [] [] [] [] [] []]; intros Hhigh;
    first [ exfalso; apply Hhigh; vm_compute; reflexivity | reflexivity ].
Qed.

Lemma appendStringLoop_step (a0 : ascii) (r0 : string) :
  GoJson.appendStringLoop (String a0 r0) =
  let b := Utf8.byte a0 in
  if b <? Utf8.RuneSelf then
    (if GoJson.htmlSafeSet b then String a0 "" else GoJson.escapeByte a0)
    +:+ GoJson.appendStringLoop r0
  else
    let '(c, size) := Utf8.DecodeRuneInString (Strings.prefix 4 (String a0 r0)) in
    if (c =? Utf8.RuneError) && (size =? 1) then
      GoJson.backslash +:+ "ufffd" +:+ GoJson.appendStringLoop r0
    else
      (if (c =? 0x2028) || (c =? 0x2029)
       then GoJson.backslash +:+ "u202" +:+ GoJson.hex (Z.land c 0xF)
       else Strings.prefix (Z.to_nat size) (String a0 r0))
      +:+ match size, r0 with
          | 2, String _ r1 => GoJson.appendStringLoop r1
          | 3, String _ (String _ r2) => GoJson.appendStringLoop r2
          | 4, String _ (String _ (String _ r3)) => GoJson.appendStringLoop r3
          | _, _ => EmptyString
          end.
Proof. reflexivity. Qed.

Lemma runes_step (a0 : ascii) (r0 : string) :
  Utf8.runes (String a0 r0) =
  let '(c, size) := Utf8.DecodeRuneInString (Strings.prefix 4 (String a0 r0)) in
  match size, r0 with
  | 2, String a1 r1 => (c, String a0 (String a1 "")) :: Utf8.runes r1
  | 3, String a1 (String a2 r2) => (c, String a0 (String a1 (String a2 ""))) :: Utf8.runes r2
  | 4, String a1 (String a2 (String a3 r3)) =>
      (c, String a0 (String a1 (String a2 (String a3 "")))) :: Utf8.runes r3
  | _, _ => (c, String a0 "") :: Utf8.runes r0
  end.
Proof. reflexivity. Qed.

Lemma decode_ascii (a0 : ascii) (r0 : string) :
  Utf8.byte a0 < 128 ->
  Utf8.DecodeRuneInString (Strings.prefix 4 (String a0 r0)) = (Utf8.byte a0, 1).
Proof.
  intros Hlow. pose proof (byte_range a0) as Hb0.
  assert (Hfirst : Utf8.first (Utf8.byte a0) = Utf8.as_).
  { unfold Utf8.first. replace (Utf8.byte a0 <? 128) with true by lia. reflexivity. }
  unfold Utf8.DecodeRuneInString.
  destruct r0 as [| a1 [| a2 [| a3 r3]]]; rewrite ?prefix_4;
    cbn [Strings.prefix String.substring Utf8.at_ String.get String.length
         Z.of_nat Pos.of_succ_nat Pos.succ];
    rewrite Hfirst; reflexivity.
Qed.

Lemma append_assoc (s1 s2 s3 : string) : (s1 +:+ s2) +:+ s3 = s1 +:+ (s2 +:+ s3).
Proof.
  induction s1 as [| a s1 IH]; [reflexivity |].
  change (String a ((s1 +:+ s2) +:+ s3) = String a (s1 +:+ s2 +:+ s3)).
  f_equal. exact IH.
Qed.

Lemma prepend_some (p d rest : string) (o : option (string * string)) :
  o = Some (d, rest) -> GoJson.prepend p o = Some (p +:+ d, rest).
Proof. intros ->. reflexivity. Qed.

Lemma prefix_2 (a0 a1 : ascii) (r : string) :
  Strings.prefix 2 (String a0 (String a1 r)) = String a0 (String a1 "").
Proof. destruct r; reflexivity. Qed.

Lemma prefix_3 (a0 a1 a2 : ascii) (r : string) :
  Strings.prefix 3 (String a0 (String a1 (String a2 r))) = String a0 (String a1 (String a2 "")).
Proof. destruct r; reflexivity. Qed.

Lemma readString_line_separator (t : string) :
  GoJson.readString ((GoJson.backslash +:+ "u202" +:+ GoJson.hex (Z.land 0x2028 0xF)) +:+ t) =
  GoJson.prepend
    (String (Utf8.char 0xE2) (String (Utf8.char 0x80) (String (Utf8.char 0xA8) "")))
    (GoJson.readString t).
Proof. reflexivity. Qed.

Lemma readString_paragraph_separator (t : string) :
  GoJson.readString ((GoJson.backslash +:+ "u202" +:+ GoJson.hex (Z.land 0x2029 0xF)) +:+ t) =
  GoJson.prepend
    (String (Utf8.char 0xE2) (String (Utf8.char 0x80) (String (Utf8.char 0xA9) "")))
    (GoJson.readString t).
Proof. reflexivity. Qed.

Lemma readString_replacement (t : string) :
  GoJson.readString (GoJson.backslash +:+ "ufffd" +:+ t) =
  GoJson.prepend (Utf8.EncodeRune Utf8.RuneError) (GoJson.readString t).
Proof. reflexivity. Qed.

Lemma received_step (a0 : ascii) (r0 : string) :
  GoJson.received (String a0 r0) =
  let '(c, size) := Utf8.DecodeRuneInString (Strings.prefix 4 (String a0 r0)) in
  match size, r0 with
  | 2, String a1 r1 => String a0 (String a1 (GoJson.received r1))
  | 3, String a1 (String a2 r2) => String a0 (String a1 (String a2 (GoJson.received r2)))
  | 4, String a1 (String a2 (String a3 r3)) =>
      String a0 (String a1 (String a2 (String a3 (GoJson.received r3))))
  | _, _ =>
      (if c =? Utf8.RuneError then Utf8.EncodeRune Utf8.RuneError else String a0 "")
      +:+ GoJson.received r0
  end.
Proof.
  unfold GoJson.received. rewrite runes_step.
  destruct (Utf8.DecodeRuneInString (Strings.prefix 4 (String a0 r0))) as [c size].
  assert (Hone : forall r,
            fold_right
              (fun '(c, bs) rest =>
                 (if (c =? Utf8.RuneError) && (String.length bs =? 1)%nat
                  then Utf8.EncodeRune Utf8.RuneError
                  else bs) +:+ rest)
              "" ((c, String a0 "") :: Utf8.runes r) =
            (if c =? Utf8.RuneError then Utf8.EncodeRune Utf8.RuneError else String a0 "")
            +:+ GoJson.received r).
  { intros r. cbn [fold_right String.length Nat.eqb]. rewrite andb_true_r. reflexivity. }
  destruct size as [| [[[| | ] | [| | ] | ] | [[| | ] | [| | ] | ] | ] |]; try apply Hone;
    destruct r0 as [| a1 [| a2 [| a3 r3]]]; try apply Hone;
    cbn [fold_right String.length Nat.eqb]; rewrite andb_false_r; reflexivity.
Qed.

(** The encoding of a string is read back as that string with U+FFFD in the
    place of every byte that belongs to no valid encoding. *)
Lemma readString_appendStringLoop (n : nat) :
  forall s tail,
  (String.length s <= n)%nat ->
  GoJson.readString (GoJson.appendStringLoop s +:+ GoJson.quote +:+ tail) =
  Some (GoJson.received s, tail).
Proof.
  induction n as [| n IH]; intros s tail Hlen.
  - destruct s; [reflexivity | simpl in Hlen; lia].
  - destruct s as [| a0 r0]; [reflexivity |].
    simpl in Hlen.
    rewrite received_step, appendStringLoop_step. cbv zeta.
    destruct (Z.ltb_spec (Utf8.byte a0) Utf8.RuneSelf) as [Hlow | Hhigh]; cbv iota.
    + rewrite (decode_ascii a0 r0 Hlow).
      replace (Utf8.byte a0 =? Utf8.RuneError) with false
        by (pose proof (byte_range a0); unfold Utf8.RuneError; lia).
      rewrite append_assoc, (readString_ascii a0 _ Hlow).
      rewrite (IH r0 tail ltac:(lia)). reflexivity.
    + destruct (Utf8.DecodeRuneInString (Strings.prefix 4 (String a0 r0))) as [c size] eqn:HD.
      destruct (decode_multibyte a0 r0 c size Hhigh HD)
        as [[-> ->] | [[-> [a1 [r1 [-> [H1 Hc]]]]]
                     | [[-> [a1 [a2 [r2 [-> [H1 [H2 [Hr0 [Hr1 [Hr2 Hc]]]]]]]]]]
                       | [-> [a1 [a2 [a3 [r3 [-> [H1 [H2 [H3 Hc]]]]]]]]]]]].
      * change ((Utf8.RuneError =? Utf8.RuneError) && (1 =? 1)) with true. cbv iota.
        rewrite !append_assoc, readString_replacement.
        rewrite (IH r0 tail ltac:(lia)). reflexivity.
      * replace ((c =? Utf8.RuneError) && (2 =? 1)) with false
          by (rewrite andb_false_r; reflexivity).
        replace ((c =? 0x2028) || (c =? 0x2029)) with false by lia.
        change (Z.to_nat 2) with 2%nat. rewrite prefix_2, append_assoc.
        change (String a0 (String a1 "") +:+ ?x) with (String a0 (String a1 x)).
        rewrite (readString_high a0 _ Hhigh), (readString_high a1 _ H1).
        simpl in Hlen. rewrite (IH r1 tail ltac:(lia)). reflexivity.
      * replace ((c =? Utf8.RuneError) && (3 =? 1)) with false
          by (rewrite andb_false_r; reflexivity).
        simpl in Hlen.
        destruct (Z.eqb_spec c 0x2028) as [Hls | Hnls];
          [| destruct (Z.eqb_spec c 0x2029) as [Hps | Hnps]]; cbn [orb]; cbv iota.
        -- assert (E0 : a0 = Utf8.char 0xE2) by (apply byte_eq_char; lia).
           assert (E1 : a1 = Utf8.char 0x80) by (apply byte_eq_char; lia).
           assert (E2 : a2 = Utf8.char 0xA8) by (apply byte_eq_char; lia).
           rewrite Hls, append_assoc, readString_line_separator.
           rewrite (IH r2 tail ltac:(lia)). rewrite E0, E1, E2. reflexivity.
        -- assert (E0 : a0 = Utf8.char 0xE2) by (apply byte_eq_char; lia).
           assert (E1 : a1 = Utf8.char 0x80) by (apply byte_eq_char; lia).
           assert (E2 : a2 = Utf8.char 0xA9) by (apply byte_eq_char; lia).
           rewrite Hps, append_assoc, readString_paragraph_separator.
           rewrite (IH r2 tail ltac:(lia)). rewrite E0, E1, E2. reflexivity.
        -- change (Z.to_nat 3) with 3%nat. rewrite prefix_3, append_assoc.
           change (String a0 (String a1 (String a2 "")) +:+ ?x)
             with (String a0 (String a1 (String a2 x))).
           rewrite (readString_high a0 _ Hhigh), (readString_high a1 _ H1),
             (readString_high a2 _ H2).
           rewrite (IH r2 tail ltac:(lia)). reflexivity.
      * replace ((c =? Utf8.RuneError) && (4 =? 1)) with false
          by (rewrite andb_false_r; reflexivity).
        replace ((c =? 0x2028) || (c =? 0x2029)) with false by lia.
        simpl in Hlen.
        change (Z.to_nat 4) with 4%nat. rewrite prefix_4, append_assoc.
        change (String a0 (String a1 (String a2 (String a3 ""))) +:+ ?x)
          with (String a0 (String a1 (String a2 (String a3 x)))).
        rewrite (readString_high a0 _ Hhigh), (readString_high a1 _ H1),
          (readString_high a2 _ H2), (readString_high a3 _ H3).
        rewrite (IH r3 tail ltac:(lia)). reflexivity.
Qed.

Lemma stripPrefix_append (p x : string) : GoJson.stripPrefix p (p +:+ x) = Some x.
Proof.
  induction p as [| a p IH]; [destruct x; reflexivity |].
  change (String a p +:+ x) with (String a (p +:+ x)).
  cbn [GoJson.stripPrefix]. rewrite Ascii.eqb_refl. exact IH.
Qed.

(** The message of the payload [json.Marshal] writes for a body with the
    single entry "message" is what a reader receives for the message of the
    body. *)
Lemma messageOf_object (m : string) :
  GoJson.messageOf (GoJson.object "message" m) = Some (GoJson.received m).
Proof.
  unfold GoJson.messageOf.
  replace (GoJson.object "message" m)
    with (GoJson.messageOpen +:+ (GoJson.appendStringLoop m +:+ GoJson.quote +:+ "}")).
  - rewrite stripPrefix_append.
    rewrite (readString_appendStringLoop (String.length m) m "}" ltac:(lia)).
    reflexivity.
  - unfold GoJson.object, GoJson.appendString, GoJson.messageOpen.
    change (GoJson.appendStringLoop "message") with "message".
    rewrite !append_assoc. reflexivity.
Qed.

Lemma append_length (s1 s2 : string) :
  String.length (s1 +:+ s2) = (String.length s1 + String.length s2)%nat.
Proof.
  induction s1 as [| a s1 IH]; [reflexivity |].
  change (String a s1 +:+ s2) with (String a (s1 +:+ s2)). simpl. rewrite IH. reflexivity.
Qed.

(** What is received is the string itself exactly when the string is valid
    UTF-8; otherwise it is longer. *)
Lemma received_valid (n : nat) :
  forall s,
  (String.length s <= n)%nat ->
  (Utf8.ValidString s = true -> GoJson.received s = s) /\
  (Utf8.ValidString s = false -> (String.length s < String.length (GoJson.received s))%nat) /\
  (String.length s <= String.length (GoJson.received s))%nat.
Proof.
  induction n as [| n IH]; intros s Hlen.
  - destruct s; [| simpl in Hlen; lia].
    split; [reflexivity | split; [discriminate | reflexivity]].
  - destruct s as [| a0 r0];
      [split; [reflexivity | split; [discriminate | reflexivity]] |].
    simpl in Hlen. unfold Utf8.ValidString.
    rewrite received_step, runes_step.
    destruct (Z.ltb_spec (Utf8.byte a0) Utf8.RuneSelf) as [Hlow | Hhigh].
    + rewrite (decode_ascii a0 r0 Hlow).
      assert (Hne : (Utf8.byte a0 =? Utf8.RuneError) = false)
        by (pose proof (byte_range a0); unfold Utf8.RuneError; lia).
      cbn [forallb String.length Nat.eqb]. rewrite !Hne. cbn [negb andb].
      change (String a0 "" +:+ ?x) with (String a0 x).
      destruct (IH r0 ltac:(lia)) as [Hv [Hi Hle]]. fold (Utf8.ValidString r0).
      split; [intros Hr; rewrite (Hv Hr); reflexivity |].
      split; [intros Hr; specialize (Hi Hr); simpl; lia | simpl; lia].
    + destruct (Utf8.DecodeRuneInString (Strings.prefix 4 (String a0 r0))) as [c size] eqn:HD.
      destruct (decode_multibyte a0 r0 c size Hhigh HD)
        as [[-> ->] | [[-> [a1 [r1 [-> [H1 Hc]]]]]
                     | [[-> [a1 [a2 [r2 [-> [H1 [H2 [Hr0 [Hr1 [Hr2 Hc]]]]]]]]]]
                       | [-> [a1 [a2 [a3 [r3 [-> [H1 [H2 [H3 Hc]]]]]]]]]]]].
      * destruct (IH r0 ltac:(lia)) as [_ [_ Hle]].
        cbn [forallb String.length Nat.eqb].
        change (Utf8.RuneError =? Utf8.RuneError) with true. cbn [andb negb].
        rewrite append_length.
        change (String.length (Utf8.EncodeRune Utf8.RuneError)) with 3%nat.
        split; [discriminate | split; [intros _; lia | lia]].
      * cbn [forallb String.length Nat.eqb]. rewrite andb_false_r. cbn [negb andb].
        simpl in Hlen. destruct (IH r1 ltac:(lia)) as [Hv [Hi Hle]]. fold (Utf8.ValidString r1).
        split; [intros Hr; rewrite (Hv Hr); reflexivity |].
        split; [intros Hr; specialize (Hi Hr); simpl; lia | simpl; lia].
      * cbn [forallb String.length Nat.eqb]. rewrite andb_false_r. cbn [negb andb].
        simpl in Hlen. destruct (IH r2 ltac:(lia)) as [Hv [Hi Hle]]. fold (Utf8.ValidString r2).
        split; [intros Hr; rewrite (Hv Hr); reflexivity |].
        split; [intros Hr; specialize (Hi Hr); simpl; lia | simpl; lia].
      * cbn [forallb String.length Nat.eqb]. rewrite andb_false_r. cbn [negb andb].
        simpl in Hlen. destruct (IH r3 ltac:(lia)) as [Hv [Hi Hle]]. fold (Utf8.ValidString r3).
        split; [intros Hr; rewrite (Hv Hr); reflexivity |].
        split; [intros Hr; specialize (Hi Hr); simpl; lia | simpl; lia].
Qed.
(** ** The log of effects *)

Lemma requests_app (l1 l2 : list Event) :
  requests (l1 ++ l2) = (requests l1 + requests l2)%nat.
Proof. unfold requests. rewrite List.filter_app, List.length_app. reflexivity. Qed.

Lemma requests_request (l : list Event) method url headers body timeoutMs :
  requests (l ++ [Requested method url headers body timeoutMs]) = S (requests l).
Proof. rewrite requests_app. unfold requests. simpl. lia. Qed.

Lemma requests_sleep (l : list Event) (d : Z) : requests (l ++ [Slept d]) = requests l.
Proof. rewrite requests_app. unfold requests. simpl. lia. Qed.

Lemma sleeps_app (l1 l2 : list Event) : sleeps (l1 ++ l2) = (sleeps l1 ++ sleeps l2)%list.
Proof. unfold sleeps. apply omap_app. Qed.

Lemma wrap_in_range (z : Z) : GoInt.in_range z -> GoInt.wrap z = z.
Proof.
  unfold GoInt.in_range, GoInt.wrap, GoInt.MinInt, GoInt.MaxInt.
  change (2 ^ 63) with 9223372036854775808.
  change (2 ^ 64) with 18446744073709551616.
  intros Hz. rewrite Z.mod_small by lia. lia.
Qed.

Section RetryLoop.

Context {T R : Type} `{HttpClient T} `{Rand R} `{Library}.

Implicit Types (c : PingClient) (w : World (T := T) (R := R)).

(** *** What one call of the transport and one sleep do to the world *)

Lemma doRequest_answer c url payload w :
  doRequest c url payload w =
  ({| httpClient := fst (answer c url payload (httpClient w));
      rng := rng w;
      log := log w ++ [Requested "POST" url (requestHeaders c) payload (timeoutMs c)] |},
   snd (answer c url payload (httpClient w))).
Proof.
  unfold doRequest, answer.
  destruct (Request _ _ _ _ _ _) as [t out]. reflexivity.
Qed.

Lemma doRequest_requests c url payload w :
  requests (log (fst (doRequest c url payload w))) = S (requests (log w)).
Proof. rewrite doRequest_answer. simpl. apply requests_request. Qed.

Lemma doRequest_sleeps c url payload w :
  sleeps (log (fst (doRequest c url payload w))) = sleeps (log w).
Proof.
  rewrite doRequest_answer. simpl. rewrite sleeps_app. simpl. apply app_nil_r.
Qed.

Lemma doRequest_httpClient c url payload w :
  httpClient (fst (doRequest c url payload w)) = fst (answer c url payload (httpClient w)).
Proof. rewrite doRequest_answer. reflexivity. Qed.

(** The draw of the jitter panics only at the largest jitter bound. *)
Lemma drawJitter_some c (r : R) :
  retryJitterMs c < GoInt.MaxInt -> exists j r', drawJitter c r = Some (j, r').
Proof.
  intros Hmax. unfold drawJitter.
  destruct (Z.gtb_spec (retryJitterMs c) 0) as [Hpos | Hle].
  - rewrite wrap_in_range
      by (unfold GoInt.in_range, GoInt.MinInt, GoInt.MaxInt in *;
          change (2 ^ 63) with 9223372036854775808 in *; lia).
    cbv zeta. replace (retryJitterMs c + 1 <=? 0) with false by lia.
    destruct (Intn r (retryJitterMs c + 1)) as [j r']. eexists. eexists. reflexivity.
  - eexists. eexists. reflexivity.
Qed.

Lemma sleepWithBackoff_some c attempt w :
  retryJitterMs c < GoInt.MaxInt -> exists w1, sleepWithBackoff c attempt w = Some w1.
Proof.
  intros Hmax. unfold sleepWithBackoff.
  destruct (drawJitter_some c (rng w) Hmax) as [j [r ->]]. eexists. reflexivity.
Qed.

Lemma sleepWithBackoff_httpClient c attempt w w1 :
  sleepWithBackoff c attempt w = Some w1 -> httpClient w1 = httpClient w.
Proof.
  unfold sleepWithBackoff. destruct (drawJitter c (rng w)) as [[j r] |]; [| discriminate].
  intros [= <-]. reflexivity.
Qed.

Lemma sleepWithBackoff_requests c attempt w w1 :
  sleepWithBackoff c attempt w = Some w1 -> requests (log w1) = requests (log w).
Proof.
  unfold sleepWithBackoff. destruct (drawJitter c (rng w)) as [[j r] |]; [| discriminate].
  intros [= <-]. simpl. apply requests_sleep.
Qed.

(** *** The turns of the loop *)

(** A response of the success range returns at once, whatever [attempt]. *)
Lemma iteration_success c action url payload attempt w res :
  snd (answer c url payload (httpClient w)) = inl res ->
  is2xx (Status res) = true ->
  iteration c action url payload attempt w =
  (fst (doRequest c url payload w),
   Return (inl (normalizeSuccess c action (safeJSON (Body res))))).
Proof.
  intros Hout H2xx. unfold iteration. rewrite doRequest_answer. simpl.
  rewrite Hout. unfold is2xx in H2xx. rewrite H2xx. reflexivity.
Qed.

(** The message the loop extracts is the one the specification words. *)
Lemma message_extracted (parsed : gmap string any) :
  (let msg := assert_string (index parsed "message") in
   if String.eqb msg "" then "Request failed" else msg) = responseMessage parsed.
Proof.
  unfold responseMessage, index. cbv zeta.
  destruct (parsed !! "message") as [[]|]; simpl; try reflexivity.
  destruct (String.eqb_spec s ""); destruct (decide (s = "")); congruence.
Qed.

(** A failure status that is not retried returns the API error. *)
Lemma iteration_api_error c action url payload attempt w res :
  snd (answer c url payload (httpClient w)) = inl res ->
  is2xx (Status res) = false ->
  retryable (Status res) = false \/ maxRetries c <= attempt ->
  iteration c action url payload attempt w =
  (fst (doRequest c url payload w), Return (inr (apiErrorOf res))).
Proof.
  intros Hout H2xx Hstop. unfold iteration. rewrite doRequest_answer. simpl.
  rewrite Hout. unfold is2xx in H2xx. rewrite H2xx.
  unfold apiErrorOf, retryable in *.
  destruct (mapError (Status res)) as [code flag] eqn:Hmap. simpl in *.
  rewrite message_extracted.
  replace (flag && (attempt <? maxRetries c)) with false; [reflexivity |].
  symmetry. apply andb_false_iff.
  destruct Hstop as [-> | Hle]; [left; reflexivity | right; lia].
Qed.

(** A failure of the transport with the budget used up returns the network
    error. *)
Lemma iteration_network_error c action url payload attempt w reqErr :
  snd (answer c url payload (httpClient w)) = inr reqErr ->
  maxRetries c <= attempt ->
  iteration c action url payload attempt w =
  (fst (doRequest c url payload w), Return (inr (networkErrorOf reqErr))).
Proof.
  intros Hout Hle. unfold iteration. rewrite doRequest_answer. simpl.
  rewrite Hout. replace (attempt >=? maxRetries c) with true by lia. reflexivity.
Qed.

(** A retryable failure below the budget sleeps and continues with the next
    attempt number. *)
Lemma iteration_retry c action url payload attempt w :
  retryableFailure (snd (answer c url payload (httpClient w))) = true ->
  attempt < maxRetries c ->
  iteration c action url payload attempt w =
  retry c attempt (fst (doRequest c url payload w)).
Proof.
  intros Hfail Hlt. unfold iteration. rewrite doRequest_answer. simpl.
  destruct (snd (answer c url payload (httpClient w))) as [res | reqErr]; simpl in Hfail.
  - apply andb_prop in Hfail as [H2xx Hretry].
    apply negb_true_iff in H2xx. unfold is2xx in H2xx. rewrite H2xx.
    unfold retryable in Hretry.
    destruct (mapError (Status res)) as [code flag]. simpl in Hretry. subst flag.
    replace (attempt <? maxRetries c) with true by lia. reflexivity.
  - replace (attempt >=? maxRetries c) with false by lia. reflexivity.
Qed.

(** *** Runs of the loop *)

Lemma requestLoop_success c action url payload attempt w res :
  snd (answer c url payload (httpClient w)) = inl res ->
  is2xx (Status res) = true ->
  requestLoop c action url payload attempt w =
  (fst (doRequest c url payload w),
   Returns (inl (normalizeSuccess c action (safeJSON (Body res))))).
Proof.
  intros Hout H2xx. rewrite requestLoop_turn.
  rewrite (iteration_success _ _ _ _ _ _ _ Hout H2xx). reflexivity.
Qed.

Lemma requestLoop_api_error c action url payload attempt w res :
  snd (answer c url payload (httpClient w)) = inl res ->
  is2xx (Status res) = false ->
  retryable (Status res) = false \/ maxRetries c <= attempt ->
  requestLoop c action url payload attempt w =
  (fst (doRequest c url payload w), Returns (inr (apiErrorOf res))).
Proof.
  intros Hout H2xx Hstop. rewrite requestLoop_turn.
  rewrite (iteration_api_error _ _ _ _ _ _ _ Hout H2xx Hstop). reflexivity.
Qed.

Lemma requestLoop_network_error c action url payload attempt w reqErr :
  snd (answer c url payload (httpClient w)) = inr reqErr ->
  maxRetries c <= attempt ->
  requestLoop c action url payload attempt w =
  (fst (doRequest c url payload w), Returns (inr (networkErrorOf reqErr))).
Proof.
  intros Hout Hle. rewrite requestLoop_turn.
  rewrite (iteration_network_error _ _ _ _ _ _ _ Hout Hle). reflexivity.
Qed.

Lemma requestLoop_retry c action url payload attempt w w1 :
  retryableFailure (snd (answer c url payload (httpClient w))) = true ->
  attempt < maxRetries c ->
  sleepWithBackoff c (attempt + 1) (fst (doRequest c url payload w)) = Some w1 ->
  requestLoop c action url payload attempt w =
  requestLoop c action url payload (attempt + 1) w1.
Proof.
  intros Hfail Hlt Hsleep. rewrite requestLoop_turn.
  rewrite (iteration_retry _ _ _ _ _ _ Hfail Hlt). unfold retry.
  rewrite Hsleep. reflexivity.
Qed.

(** A retry whose draw of the jitter panics ends the run, after the request
    and before any sleep. *)
Lemma requestLoop_retry_panics c action url payload attempt w :
  retryableFailure (snd (answer c url payload (httpClient w))) = true ->
  attempt < maxRetries c ->
  sleepWithBackoff c (attempt + 1) (fst (doRequest c url payload w)) = None ->
  requestLoop c action url payload attempt w =
  (fst (doRequest c url payload w), Panics).
Proof.
  intros Hfail Hlt Hsleep. rewrite requestLoop_turn.
  rewrite (iteration_retry _ _ _ _ _ _ Hfail Hlt). unfold retry.
  rewrite Hsleep. reflexivity.
Qed.

(** Induction over the turns of a run of the loop. *)
Lemma requestLoop_turns c action url payload
  (P : Z -> World (T := T) (R := R) -> World (T := T) (R := R) * Outcome -> Prop) :
  (forall attempt w w' r,
     iteration c action url payload attempt w = (w', Return r) ->
     P attempt w (w', Returns r)) ->
  (forall attempt w w' a',
     iteration c action url payload attempt w = (w', Continue a') ->
     P a' w' (requestLoop c action url payload a' w') ->
     P attempt w (requestLoop c action url payload a' w')) ->
  (forall attempt w w',
     iteration c action url payload attempt w = (w', Panic) ->
     P attempt w (w', Panics)) ->
  forall attempt w, P attempt w (requestLoop c action url payload attempt w).
Proof.
  intros Hreturn Hcontinue Hpanic attempt.
  remember (Z.to_nat (maxRetries c - attempt)) as n eqn:Hn.
  revert attempt Hn.
  induction n as [n IH] using lt_wf_ind. intros attempt Hn w.
  rewrite requestLoop_turn.
  destruct (iteration c action url payload attempt w) as [w' [r | a' |]] eqn:Hturn.
  - apply Hreturn. exact Hturn.
  - apply (Hcontinue _ _ _ _ Hturn).
    apply iteration_continue in Hturn as [-> Hlt].
    apply (IH (Z.to_nat (maxRetries c - (attempt + 1)))); [lia | reflexivity].
  - apply Hpanic. exact Hturn.
Qed.

(** What a turn returns is a success or an [ApiError]. *)
Lemma iteration_returns c action url payload attempt w w' r :
  iteration c action url payload attempt w = (w', Return r) ->
  match r with
  | inl _ => True
  | inr (ApiError _ _ _ _ _) => True
  | inr _ => False
  end.
Proof.
  unfold iteration, retry.
  destruct (doRequest c url payload w) as [w1 [res | reqErr]].
  - destruct ((Status res >=? 200) && (Status res <? 300)); [intros [= _ <-]; exact I |].
    destruct (mapError (Status res)) as [code flag].
    destruct (flag && (attempt <? maxRetries c));
      [destruct (sleepWithBackoff c (attempt + 1) w1); discriminate |].
    intros [= _ <-]. exact I.
  - destruct (attempt >=? maxRetries c);
      [| destruct (sleepWithBackoff c (attempt + 1) w1); discriminate].
    intros [= _ <-]. exact I.
Qed.

(** When the loop returns, it returns a success or an [ApiError]. *)
Lemma requestLoop_returns c action url payload attempt w :
  match snd (requestLoop c action url payload attempt w) with
  | Returns (inl _) => True
  | Returns (inr (ApiError _ _ _ _ _)) => True
  | Returns (inr _) => False
  | Panics => True
  end.
Proof.
  apply (requestLoop_turns c action url payload
           (fun _ _ out => match snd out with
                           | Returns (inl _) => True
                           | Returns (inr (ApiError _ _ _ _ _)) => True
                           | Returns (inr _) => False
                           | Panics => True
                           end)).
  - intros a w0 w' r Hturn. simpl. exact (iteration_returns _ _ _ _ _ _ _ _ Hturn).
  - intros a w0 w' a' _ IH. exact IH.
  - intros a w0 w' _. exact I.
Qed.

Lemma iteration_log c action url payload attempt w w' flow :
  iteration c action url payload attempt w = (w', flow) ->
  exists evs, log w' = (log w ++ evs)%list /\ requestsCarry url payload evs.
Proof.
  unfold iteration. rewrite doRequest_answer.
  set (ev := Requested "POST" url (requestHeaders c) payload (timeoutMs c)).
  assert (Hev : requestsCarry url payload [ev]).
  { constructor; [simpl; auto | constructor]. }
  assert (Hretry : forall a w1, log w1 = (log w ++ [ev])%list ->
            retry c a w1 = (w', flow) ->
            exists evs, log w' = (log w ++ evs)%list /\ requestsCarry url payload evs).
  { intros a w1 Hw1. unfold retry, sleepWithBackoff.
    destruct (drawJitter c (rng w1)) as [[j r] |].
    - intros [= <- _]. simpl. rewrite Hw1, <- app_assoc. eexists. split; [reflexivity |].
      apply Forall_app. split; [exact Hev | constructor; [exact I | constructor]].
    - intros [= <- _]. exists [ev]. split; [exact Hw1 | exact Hev]. }
  destruct (snd (answer c url payload (httpClient w))) as [res | reqErr].
  - destruct ((Status res >=? 200) && (Status res <? 300)).
    + intros [= <- _]. exists [ev]. split; [reflexivity | exact Hev].
    + destruct (mapError (Status res)) as [code flag].
      destruct (flag && (attempt <? maxRetries c)).
      * apply Hretry. reflexivity.
      * intros [= <- _]. exists [ev]. split; [reflexivity | exact Hev].
  - destruct (attempt >=? maxRetries c).
    + intros [= <- _]. exists [ev]. split; [reflexivity | exact Hev].
    + apply Hretry. reflexivity.
Qed.

Lemma requestLoop_log c action url payload attempt w :
  exists evs,
    log (fst (requestLoop c action url payload attempt w)) = (log w ++ evs)%list /\
    requestsCarry url payload evs.
Proof.
  apply (requestLoop_turns c action url payload
           (fun _ w0 out => exists evs, log (fst out) = (log w0 ++ evs)%list /\
                                        requestsCarry url payload evs)).
  - intros a w0 w' r Hturn. simpl. exact (iteration_log _ _ _ _ _ _ _ _ Hturn).
  - intros a w0 w' a' Hturn [evs2 [Hlog2 Hall2]].
    destruct (iteration_log _ _ _ _ _ _ _ _ Hturn) as [evs1 [Hlog1 Hall1]].
    exists (evs1 ++ evs2)%list. split.
    + rewrite Hlog2, Hlog1, app_assoc. reflexivity.
    + apply Forall_app. split; assumption.
  - intros a w0 w' Hturn. simpl. exact (iteration_log _ _ _ _ _ _ _ _ Hturn).
Qed.

(** [N] retryable failures and then a success, within the budget: the loop
    returns the normalized success after [N + 1] calls of the transport,
    provided a retry can draw its jitter. *)
Lemma requestLoop_fails_then_succeeds N :
  forall c action url payload attempt w res,
  failsThenReturns N c url payload (httpClient w) res ->
  is2xx (Status res) = true ->
  attempt + Z.of_nat N <= maxRetries c ->
  ((0 < N)%nat -> retryJitterMs c < GoInt.MaxInt) ->
  snd (requestLoop c action url payload attempt w) =
    Returns (inl (normalizeSuccess c action (safeJSON (Body res)))) /\
  requests (log (fst (requestLoop c action url payload attempt w))) =
    (requests (log w) + N + 1)%nat.
Proof.
  induction N as [| n IH];
    intros c action url payload attempt w res Hrun H2xx Hbudget Hjitter.
  - simpl in Hrun. rewrite (requestLoop_success _ _ _ _ _ _ _ Hrun H2xx). simpl.
    split; [reflexivity |]. rewrite doRequest_requests. lia.
  - destruct Hrun as [Hfail Hrest].
    specialize (Hjitter ltac:(lia)).
    destruct (sleepWithBackoff_some c (attempt + 1) (fst (doRequest c url payload w)) Hjitter)
      as [w1 Hw1].
    assert (Hlt : attempt < maxRetries c) by lia.
    rewrite (requestLoop_retry _ _ _ _ _ _ _ Hfail Hlt Hw1).
    assert (Ht : httpClient w1 = fst (answer c url payload (httpClient w))).
    { rewrite (sleepWithBackoff_httpClient _ _ _ _ Hw1). apply doRequest_httpClient. }
    rewrite <- Ht in Hrest.
    destruct (IH c action url payload (attempt + 1) w1 res Hrest H2xx) as [Hres Hcount];
      [lia | intros _; exact Hjitter |].
    split; [exact Hres |]. rewrite Hcount.
    rewrite (sleepWithBackoff_requests _ _ _ _ Hw1), doRequest_requests. lia.
Qed.

End RetryLoop.

(** ** The shape of a call *)

Lemma RetryTrace_requests (ev : Event) (evs : list Event) :
  is_request ev = true ->
  RetryTrace ev evs -> requests evs = S (length (sleeps evs)).
Proof.
  intros Hev Htrace. induction Htrace as [| d evs _ IH].
  - unfold requests. simpl. rewrite Hev. destruct ev; [reflexivity | discriminate].
  - change (ev :: Slept d :: evs) with ([ev] ++ [Slept d] ++ evs)%list.
    rewrite !requests_app, !sleeps_app, !length_app, IH.
    unfold requests. simpl. rewrite Hev. destruct ev; [simpl; lia | discriminate].
Qed.

Lemma RetryTrace_extend (ev : Event) (d : Z) (evs : list Event) :
  RetryTrace ev evs -> RetryTrace ev ([ev; Slept d] ++ evs).
Proof. intros Htrace. simpl. constructor. exact Htrace. Qed.

Section CallShape.

Context {T R : Type} `{HttpClient T} `{Rand R} `{Library}.

Implicit Types (c : PingClient) (w : World (T := T) (R := R)).

Lemma sleepWithBackoff_log c attempt w w1 :
  sleepWithBackoff c attempt w = Some w1 ->
  exists d, log w1 = (log w ++ [Slept d])%list.
Proof.
  unfold sleepWithBackoff. destruct (drawJitter c (rng w)) as [[j r] |]; [| discriminate].
  intros [= <-]. eexists. reflexivity.
Qed.

Lemma sleepWithBackoff_sleeps c attempt w w1 :
  sleepWithBackoff c attempt w = Some w1 ->
  length (sleeps (log w1)) = S (length (sleeps (log w))).
Proof.
  intros Hsleep. destruct (sleepWithBackoff_log c attempt w w1 Hsleep) as [d ->].
  rewrite sleeps_app, length_app. simpl. lia.
Qed.

(** A turn that returns adds the request alone; a turn that continues adds
    the request and one sleep; a turn that panics adds the request alone.
    A turn returns an error flagged retryable only when the budget is used
    up. *)
Lemma iteration_events c action url payload attempt w w' flow :
  iteration c action url payload attempt w = (w', flow) ->
  match flow with
  | Return r =>
      log w' = (log w ++ [requestEvent c url payload])%list /\
      (forall code st m raw, r = inr (ApiError code st true m raw) ->
       maxRetries c <= attempt)
  | Continue _ =>
      exists d, log w' = (log w ++ [requestEvent c url payload; Slept d])%list
  | Panic => log w' = (log w ++ [requestEvent c url payload])%list
  end.
Proof.
  unfold iteration. rewrite doRequest_answer.
  fold (requestEvent c url payload).
  set (w1 := {| httpClient := fst (answer c url payload (httpClient w));
                rng := rng w;
                log := log w ++ [requestEvent c url payload] |}).
  assert (Hretry : forall a,
            retry c a w1 = (w', flow) ->
            match flow with
            | Return r =>
                log w' = (log w ++ [requestEvent c url payload])%list /\
                (forall code st m raw, r = inr (ApiError code st true m raw) ->
                 maxRetries c <= attempt)
            | Continue _ =>
                exists d, log w' = (log w ++ [requestEvent c url payload; Slept d])%list
            | Panic => log w' = (log w ++ [requestEvent c url payload])%list
            end).
  { intros a. unfold retry.
    destruct (sleepWithBackoff c (a + 1) w1) as [w2 |] eqn:Hs.
    - intros [= <- <-]. destruct (sleepWithBackoff_log c (a + 1) w1 w2 Hs) as [d ->].
      exists d. simpl. rewrite <- app_assoc. reflexivity.
    - intros [= <- <-]. reflexivity. }
  destruct (snd (answer c url payload (httpClient w))) as [res | reqErr].
  - destruct ((Status res >=? 200) && (Status res <? 300)).
    + intros [= <- <-]. split; [reflexivity | discriminate].
    + destruct (mapError (Status res)) as [code flag].
      destruct (flag && (attempt <? maxRetries c)) eqn:E.
      * apply Hretry.
      * intros [= <- <-]. split; [reflexivity |].
        intros code' st m raw [= _ _ -> _ _]. simpl in E. lia.
  - destruct (attempt >=? maxRetries c) eqn:E.
    + intros [= <- <-]. split; [reflexivity |]. intros. lia.
    + apply Hretry.
Qed.

(** The events of a run of the loop, the bound on its calls, and the budget
    behind an error flagged retryable. *)
Lemma requestLoop_trace c action url payload attempt w :
  exists evs,
    log (fst (requestLoop c action url payload attempt w)) = (log w ++ evs)%list /\
    RetryTrace (requestEvent c url payload) evs /\
    (requests evs <= S (Z.to_nat (maxRetries c - attempt)))%nat /\
    (forall code st m raw,
       snd (requestLoop c action url payload attempt w) =
         Returns (inr (ApiError code st true m raw)) ->
       requests evs = S (Z.to_nat (maxRetries c - attempt))).
Proof.
  apply (requestLoop_turns c action url payload
    (fun attempt w out =>
       exists evs,
         log (fst out) = (log w ++ evs)%list /\
         RetryTrace (requestEvent c url payload) evs /\
         (requests evs <= S (Z.to_nat (maxRetries c - attempt)))%nat /\
         (forall code st m raw,
            snd out = Returns (inr (ApiError code st true m raw)) ->
            requests evs = S (Z.to_nat (maxRetries c - attempt))))).
  - intros a w0 w' r Hturn.
    apply iteration_events in Hturn as [Hlog Hflag].
    exists [requestEvent c url payload]. simpl.
    split; [exact Hlog |]. split; [constructor |].
    split; [unfold requests; simpl; lia |].
    intros code st m raw [= Hr]. specialize (Hflag _ _ _ _ Hr).
    unfold requests. simpl. f_equal. lia.
  - intros a w0 w' a' Hturn [evs [Hlog [Htrace [Hbound Hflag]]]].
    pose proof (iteration_continue _ _ _ _ _ _ _ _ Hturn) as [-> Hlt].
    apply iteration_events in Hturn as [d Hlog1].
    exists ([requestEvent c url payload; Slept d] ++ evs)%list.
    split; [rewrite Hlog, Hlog1, <- app_assoc; reflexivity |].
    split; [apply RetryTrace_extend; exact Htrace |].
    assert (Hcount : requests ([requestEvent c url payload; Slept d] ++ evs)
                     = S (requests evs)).
    { rewrite requests_app. reflexivity. }
    assert (Hbudget : Z.to_nat (maxRetries c - a) =
                      S (Z.to_nat (maxRetries c - (a + 1)))) by lia.
    rewrite Hcount, Hbudget. split; [lia |].
    intros code st m raw Hr. rewrite (Hflag _ _ _ _ Hr). reflexivity.
  - intros a w0 w' Hturn.
    apply iteration_events in Hturn.
    exists [requestEvent c url payload]. simpl.
    split; [exact Hturn |]. split; [constructor |].
    split; [unfold requests; simpl; lia | discriminate].
Qed.

End CallShape.


(** ** The request pipeline *)

Section Pipeline.

Context {T R : Type} `{HttpClient T} `{Rand R} `{Library}.

Implicit Types (c : PingClient) (w : World (T := T) (R := R)).

Lemma request_encoded c action path body payload w :
  encodeBody body = inl payload ->
  request c action path body w =
  requestLoop c action (baseURL c +:+ path) payload 0 w.
Proof. intros Henc. unfold request. rewrite Henc. reflexivity. Qed.

(** The methods without a body send no payload. *)
Lemma encodeBody_empty : encodeBody ∅ = inl "".
Proof. reflexivity. Qed.

(** C1, as the code has it. When the transport answers N retryable failures
    (errors of the transport or retryable statuses) and then a response with
    a status in [200,300), the client's max retries is at least N and, if
    N is at least 1, its jitter bound is below the largest [int], the call
    returns the normalized success of that response and has invoked the
    transport exactly N+1 times. Moreover a status in [200,300) ends the
    loop in the turn it arrives, whatever the attempt count and the jitter
    bound: one more invocation, no wait, the normalized success. *)
Theorem retry_until_success c action path body payload w N res :
  encodeBody body = inl payload ->
  failsThenReturns N c (baseURL c +:+ path) payload (httpClient w) res ->
  is2xx (Status res) = true ->
  Z.of_nat N <= maxRetries c ->
  ((0 < N)%nat -> retryJitterMs c < GoInt.MaxInt) ->
  (snd (request c action path body w) =
     Returns (inl (normalizeSuccess c action (safeJSON (Body res)))) /\
   Ok (normalizeSuccess c action (safeJSON (Body res))) = true /\
   requests (log (fst (request c action path body w))) = (requests (log w) + N + 1)%nat) /\
  (forall attempt w0 res0,
     snd (answer c (baseURL c +:+ path) payload (httpClient w0)) = inl res0 ->
     is2xx (Status res0) = true ->
     snd (requestLoop c action (baseURL c +:+ path) payload attempt w0) =
       Returns (inl (normalizeSuccess c action (safeJSON (Body res0)))) /\
     requests (log (fst (requestLoop c action (baseURL c +:+ path) payload attempt w0))) =
       S (requests (log w0)) /\
     sleeps (log (fst (requestLoop c action (baseURL c +:+ path) payload attempt w0))) =
       sleeps (log w0)).
Proof.
  intros Henc Hrun H2xx Hbudget Hjitter. split.
  - rewrite (request_encoded _ _ _ _ _ _ Henc).
    destruct (requestLoop_fails_then_succeeds N c action _ payload 0 w res Hrun H2xx)
      as [Hres Hcount]; [lia | exact Hjitter |].
    repeat split; assumption.
  - intros attempt w0 res0 Hout0 Hok0.
    rewrite (requestLoop_success _ _ _ _ _ _ _ Hout0 Hok0). simpl.
    repeat split.
    + apply doRequest_requests.
    + apply doRequest_sleeps.
Qed.


(** C3, as the code has it. A client whose max retries field is 0 or
    negative never retries: the first failure, an error of the transport or
    any status outside [200,300), is returned as the structured error of that
    failure after a single invocation of the transport and without a wait.
    [NewPingClient] gives the field the value of the option [MaxRetries],
    except that the option 0 becomes 2: it builds such a client from a
    negative option only. *)
Theorem no_retry_without_budget c action path body payload w :
  encodeBody body = inl payload ->
  maxRetries c <= 0 ->
  failure (snd (answer c (baseURL c +:+ path) payload (httpClient w))) = true ->
  (snd (request c action path body w) =
     Returns (inr (errorOf (snd (answer c (baseURL c +:+ path) payload (httpClient w))))) /\
   requests (log (fst (request c action path body w))) = S (requests (log w)) /\
   sleeps (log (fst (request c action path body w))) = sleeps (log w)) /\
  (forall key opts now c' w',
     NewPingClient key (Some opts) now = inl (c', w') ->
     maxRetries c' = (if MaxRetries opts =? 0 then 2 else MaxRetries opts) /\
     (maxRetries c' <= 0 <-> MaxRetries opts < 0)).
Proof.
  intros Henc Hbudget Hfail. split.
  - rewrite (request_encoded _ _ _ _ _ _ Henc).
    destruct (snd (answer c (baseURL c +:+ path) payload (httpClient w)))
      as [res | reqErr] eqn:Hout; simpl in Hfail.
    + apply negb_true_iff in Hfail.
      rewrite (requestLoop_api_error _ _ _ _ _ _ _ Hout Hfail (or_intror Hbudget)).
      simpl. repeat split; [apply doRequest_requests | apply doRequest_sleeps].
    + rewrite (requestLoop_network_error _ _ _ _ _ _ _ Hout Hbudget).
      simpl. repeat split; [apply doRequest_requests | apply doRequest_sleeps].
  - intros key opts now c' w'. unfold NewPingClient.
    destruct (negb (jobKeyRegex_MatchString key)); [discriminate |].
    intros [= <- _]. simpl. unfold GoInt.defaultInt.
    destruct (MaxRetries opts =? 0) eqn:E; split; lia.
Qed.

(** C5. A response with a status in [200,300) whose body does not decode to
    a JSON object (it does not parse, or its top-level value is of another
    kind) still makes the call return a success: the decoded body is
    replaced by the object with the single entry "message": "Invalid JSON
    response", and the result is the normalization of that object, with ok
    true, the action and job key of the call, and the substitute as raw
    data. This holds at every attempt of the loop. *)
Theorem invalid_body_still_success c action path body payload w res :
  encodeBody body = inl payload ->
  snd (answer c (baseURL c +:+ path) payload (httpClient w)) = inl res ->
  is2xx (Status res) = true ->
  (forall obj, Unmarshal (Body res) <> inl (VMap obj)) ->
  safeJSON (Body res) = {[ "message" := VString "Invalid JSON response" ]} /\
  snd (request c action path body w) =
    Returns (inl {| Ok := true; Action := action; JobKey := jobKey c; Timestamp := "";
                    ProcessingTimeMs := Float64.zero; NextExpected := None;
                    Raw := {[ "message" := VString "Invalid JSON response" ]} |}) /\
  (forall attempt w0,
     snd (answer c (baseURL c +:+ path) payload (httpClient w0)) = inl res ->
     snd (requestLoop c action (baseURL c +:+ path) payload attempt w0) =
       Returns (inl (normalizeSuccess c action
                       {[ "message" := VString "Invalid JSON response" ]})) /\
     Ok (normalizeSuccess c action {[ "message" := VString "Invalid JSON response" ]}) = true).
Proof.
  intros Henc Hout H2xx Hbad.
  assert (Hsafe : safeJSON (Body res) = invalidJSON).
  { unfold safeJSON. destruct (Unmarshal (Body res)) as [[]|] eqn:E; try reflexivity.
    exfalso. eapply Hbad. reflexivity. }
  split; [exact Hsafe | split].
  - rewrite (request_encoded _ _ _ _ _ _ Henc).
    rewrite (requestLoop_success _ _ _ _ _ _ _ Hout H2xx). simpl.
    rewrite Hsafe. reflexivity.
  - intros attempt w0 Hout0.
    rewrite (requestLoop_success _ _ _ _ _ _ _ Hout0 H2xx). simpl.
    rewrite Hsafe. split; reflexivity.
Qed.

End Pipeline.

(** ** Normalization, construction and validation *)

Section Boundary.

Context {T R : Type} `{HttpClient T} `{Rand R} `{Library}.

Implicit Types (c : PingClient) (w : World (T := T) (R := R)).

(** C6. A response with a status in [200,300) whose decoded body is a JSON
    object without the fields "action", "job_key" and "processing_time_ms"
    (the empty object among them) is normalized to the action of the
    request sent, the job key of the client and a processing time of 0.
    The processing time is the field "processing_time_ms" coerced: a float
    as it is, an integer converted, a string or a JSON number through its
    parser when that succeeds; it is 0 when the field is absent, of another
    kind, or when the parser fails. *)
Theorem normalize_defaults c action path body payload w res obj :
  encodeBody body = inl payload ->
  snd (answer c (baseURL c +:+ path) payload (httpClient w)) = inl res ->
  is2xx (Status res) = true ->
  Unmarshal (Body res) = inl (VMap obj) ->
  obj !! "action" = None ->
  obj !! "job_key" = None ->
  obj !! "processing_time_ms" = None ->
  (exists s,
     snd (request c action path body w) = Returns (inl s) /\
     Ok s = true /\ Action s = action /\ JobKey s = jobKey c /\
     ProcessingTimeMs s = Float64.zero /\ Raw s = obj) /\
  normalizeSuccess c action ∅ =
    {| Ok := true; Action := action; JobKey := jobKey c; Timestamp := "";
       ProcessingTimeMs := Float64.zero; NextExpected := None; Raw := ∅ |} /\
  (forall m : gmap string any,
     ProcessingTimeMs (normalizeSuccess c action m) =
     match m !! "processing_time_ms" with
     | Some (VFloat64 x) => x
     | Some (VFloat32 x) => Float64.of_float32 x
     | Some (VInt n) | Some (VInt64 n) | Some (VInt32 n) => Float64.of_int n
     | Some (VString x) =>
         match Sscanf_f x with inl f => f | inr _ => Float64.zero end
     | Some (VJsonNumber x) =>
         match ParseFloat x with inl f => f | inr _ => Float64.zero end
     | _ => Float64.zero
     end).
Proof.
  intros Henc Hout H2xx Hdecoded Haction Hkey Htime. split; [| split].
  - rewrite (request_encoded _ _ _ _ _ _ Henc).
    rewrite (requestLoop_success _ _ _ _ _ _ _ Hout H2xx). simpl.
    eexists. split; [reflexivity |].
    unfold safeJSON. rewrite Hdecoded.
    unfold normalizeSuccess, index. simpl.
    rewrite Haction, Hkey, Htime. simpl. repeat split; reflexivity.
  - reflexivity.
  - intros m. unfold normalizeSuccess, index. simpl.
    destruct (m !! "processing_time_ms") as [[]|]; reflexivity.
Qed.

(** *** The job key *)

Lemma is_alnum_spec (a : ascii) : Strings.is_alnum a = true <-> alphanumeric a.
Proof.
  unfold Strings.is_alnum, alphanumeric. cbv zeta.
  rewrite !orb_true_iff, !andb_true_iff, !N.leb_le. tauto.
Qed.

Lemma match_class_repeat_spec (class : ascii -> bool) (n : nat) (s : string) :
  Strings.match_class_repeat class n s = true <->
  String.length s = n /\ Forall (fun a => class a = true) (list_ascii_of_string s).
Proof.
  revert s. induction n as [| n IH]; intros [| a s]; simpl.
  - split; [intros _; split; [reflexivity | constructor] | reflexivity].
  - split; [discriminate | intros [Hlen _]; discriminate].
  - split; [discriminate | intros [Hlen _]; discriminate].
  - rewrite andb_true_iff, IH. split.
    + intros [Ha [Hlen Hall]]. split; [congruence | constructor; assumption].
    + intros [Hlen Hall]. inversion Hall; subst. repeat split; [assumption | congruence | assumption].
Qed.

Lemma jobKeyRegex_spec (key : string) :
  jobKeyRegex_MatchString key = true <->
  String.length key = 8%nat /\ Forall alphanumeric (list_ascii_of_string key).
Proof.
  unfold jobKeyRegex_MatchString. rewrite match_class_repeat_spec.
  split; intros [Hlen Hall]; (split; [exact Hlen |]);
    eapply Forall_impl; try exact Hall; intros a; apply is_alnum_spec.
Qed.

Lemma request_not_validation c action path body w m :
  snd (request c action path body w) <> Returns (inr (ValidationError m)).
Proof.
  unfold request. destruct (encodeBody body) as [payload | err]; [| discriminate].
  pose proof (requestLoop_returns c action (baseURL c +:+ path) payload 0 w) as Hr.
  intros Heq. rewrite Heq in Hr. exact Hr.
Qed.

(** C7. [NewPingClient] succeeds exactly on the keys of 8 bytes all in
    [a-zA-Z0-9], and the client it returns holds the key; on every other
    key it returns the validation error of the job key. The key is checked
    there only: no method of a client, whatever key the client holds, returns
    that error. *)
Theorem job_key_validation (key : string) (opts : option Options) (now : Z) :
  ((exists c w, NewPingClient key opts now = inl (c, w)) <->
   String.length key = 8%nat /\ Forall alphanumeric (list_ascii_of_string key)) /\
  (forall c w, NewPingClient key opts now = inl (c, w) -> jobKey c = key) /\
  (~ (String.length key = 8%nat /\ Forall alphanumeric (list_ascii_of_string key)) ->
   NewPingClient key opts now = inr (ValidationError jobKeyMessage)) /\
  (forall c w status input message,
     snd (Ping c w) <> Returns (inr (ValidationError jobKeyMessage)) /\
     snd (Start c w) <> Returns (inr (ValidationError jobKeyMessage)) /\
     snd (End c status w) <> Returns (inr (ValidationError jobKeyMessage)) /\
     snd (Progress c input message w) <> Returns (inr (ValidationError jobKeyMessage))).
Proof.
  assert (Hmethods : forall c w status input message,
     snd (Ping c w) <> Returns (inr (ValidationError jobKeyMessage)) /\
     snd (Start c w) <> Returns (inr (ValidationError jobKeyMessage)) /\
     snd (End c status w) <> Returns (inr (ValidationError jobKeyMessage)) /\
     snd (Progress c input message w) <> Returns (inr (ValidationError jobKeyMessage))).
  { intros c w status input message. repeat split.
    - apply request_not_validation.
    - apply request_not_validation.
    - unfold End. destruct (_ && _); [simpl; intros [= Heq]; discriminate Heq |].
      apply request_not_validation.
    - unfold Progress.
      destruct (switchInput input (initialVars message)) as [vars | err] eqn:Hsw.
      + destruct (seqProvided vars && (seq vars <? 0));
          [simpl; intros [= Heq]; discriminate Heq |].
        destruct (seqProvided vars); apply request_not_validation.
      + destruct input; simpl in Hsw; try discriminate Hsw;
          try (injection Hsw as <-; simpl; intros [= Heq]; discriminate Heq).
        destruct p; discriminate Hsw. }
  pose proof (jobKeyRegex_spec key) as Hspec.
  unfold NewPingClient.
  destruct (jobKeyRegex_MatchString key) eqn:Hmatch; simpl.
  - split; [| split; [| split]].
    + split; [intros _; apply Hspec; reflexivity |].
      intros _. eexists. eexists. reflexivity.
    + intros c w [= <- _]. reflexivity.
    + intros Hno. exfalso. apply Hno, Hspec. reflexivity.
    + exact Hmethods.
  - split; [| split; [| split]].
    + split; [intros [c [w Hc]]; discriminate Hc |].
      intros Hyes. apply Hspec in Hyes. discriminate Hyes.
    + intros c w Hc. discriminate Hc.
    + intros _. reflexivity.
    + exact Hmethods.
Qed.

End Boundary.

Section Actions.

Context {T R : Type} `{HttpClient T} `{Rand R} `{Library}.

Implicit Types (c : PingClient) (w : World (T := T) (R := R)).

(** C8. An [End] whose status, trimmed and lowercased and with the empty
    string read as "success", is neither "success" nor "fail" returns a
    validation error; so does a [Progress] that supplies a negative
    sequence (as an [int], or in options passed by value or by pointer), and
    a [Progress] whose input is not nil, an [int] or options. In all three
    cases the world is returned as it was: the transport is not invoked. *)
Theorem validation_before_network c w :
  (forall status,
     endStatus status <> "success" -> endStatus status <> "fail" ->
     End c status w = (w, Returns (inr (ValidationError statusMessage)))) /\
  (forall input message n,
     suppliedSeq input = Some n -> n < 0 ->
     Progress c input message w =
       (w, Returns (inr (ValidationError "Progress seq must be a non-negative integer.")))) /\
  (forall input message,
     acceptedInput input = false ->
     Progress c input message w =
       (w, Returns (inr (ValidationError
                           "Progress input must be int, ProgressOptions, or nil.")))) /\
  (forall status input message (out : World * Outcome) m,
     (out = End c status w \/ out = Progress c input message w) ->
     snd out = Returns (inr (ValidationError m)) ->
     fst out = w /\ requests (log (fst out)) = requests (log w)).
Proof.
  split; [| split; [| split]].
  - intros status Hs Hf. unfold End.
    destruct (String.eqb_spec (endStatus status) "success"); [contradiction |].
    destruct (String.eqb_spec (endStatus status) "fail"); [contradiction |].
    reflexivity.
  - intros input message n Hseq Hneg. unfold Progress.
    assert (Hvars : exists vars,
              switchInput input (initialVars message) = inl vars /\
              seqProvided vars = true /\ seq vars = n).
    { destruct input; simpl in Hseq; try discriminate Hseq.
      - injection Hseq as ->. eexists. split; [reflexivity |]. split; reflexivity.
      - simpl. unfold readOptions. rewrite Hseq.
        destruct (_ || _); eexists; (split; [reflexivity |]); split; reflexivity.
      - destruct p as [o |]; [| discriminate Hseq]. simpl. unfold readOptions.
        rewrite Hseq.
        destruct (_ || _); eexists; (split; [reflexivity |]); split; reflexivity. }
    destruct Hvars as [vars [-> [-> ->]]].
    replace (n <? 0) with true by lia. reflexivity.
  - intros input message Hacc. unfold Progress.
    destruct input; simpl in Hacc; try discriminate Hacc; reflexivity.
  - intros status input message out m [-> | ->] Hout.
    + unfold End in *. destruct (_ && _); [split; reflexivity |].
      exfalso. exact (request_not_validation _ _ _ _ _ _ Hout).
    + unfold Progress in *.
      destruct (switchInput input (initialVars message)) as [vars | err];
        [| split; reflexivity].
      destruct (seqProvided vars && (seq vars <? 0)); [split; reflexivity |].
      exfalso. destruct (seqProvided vars); exact (request_not_validation _ _ _ _ _ _ Hout).
Qed.

Lemma prefix_length (n : nat) (s : string) :
  (n <= String.length s)%nat -> String.length (Strings.prefix n s) = n.
Proof.
  unfold Strings.prefix. revert s.
  induction n as [| n IH]; intros [| a s] Hlen; simpl in *; try reflexivity; try lia.
  rewrite IH by lia. reflexivity.
Qed.

Lemma truncateMessage_long (m : string) :
  (255 < String.length m)%nat ->
  truncateMessage m = Strings.prefix 255 m /\ String.length (truncateMessage m) = 255%nat.
Proof.
  intros Hlong. unfold truncateMessage.
  replace (255 <? String.length m)%nat with true by (symmetry; apply Nat.ltb_lt; exact Hlong).
  split; [reflexivity | apply prefix_length; lia].
Qed.

Lemma truncateMessage_short (m : string) :
  (String.length m <= 255)%nat -> truncateMessage m = m.
Proof.
  intros Hshort. unfold truncateMessage.
  replace (255 <? String.length m)%nat with false; [reflexivity |].
  symmetry. apply Nat.ltb_ge. exact Hshort.
Qed.

Lemma encodeBody_message (m : string) :
  encodeBody {[ "message" := VString m ]} = inl (GoJson.object "message" m).
Proof. unfold encodeBody. rewrite map_size_singleton. apply Marshal_string. Qed.

(** C9, as the code has it. A [Progress] call that passes validation sends
    the body whose only entry is "message", holding the message the call
    works with cut at 255 bytes: its first 255 bytes, exactly 255 of them,
    when it is longer than 255 bytes, and the message unchanged when it has
    255 bytes or fewer. The call makes at least one request, and every
    request it makes carries the text [json.Marshal] writes for that body.
    What a reader of that text receives is the message of the body with
    U+FFFD in the place of every byte that belongs to no valid encoding:
    the message itself when it is valid UTF-8, and another string when it
    is not, as when the cut falls inside a character of several bytes. The
    message of options passed without the variadic argument is their
    [Message] field. *)
Theorem progress_message_truncated c input message w vars :
  switchInput input (initialVars message) = inl vars ->
  (seqProvided vars = true -> 0 <= seq vars) ->
  Progress c input message w =
    request c "progress" (progressPath c vars)
      {[ "message" := VString (truncateMessage (msg vars)) ]} w /\
  ((255 < String.length (msg vars))%nat ->
   truncateMessage (msg vars) = Strings.prefix 255 (msg vars) /\
   String.length (truncateMessage (msg vars)) = 255%nat) /\
  ((String.length (msg vars) <= 255)%nat -> truncateMessage (msg vars) = msg vars) /\
  (exists evs,
     log (fst (Progress c input message w)) = (log w ++ evs)%list /\
     RetryTrace
       (Requested "POST" (baseURL c +:+ progressPath c vars) (requestHeaders c)
          (GoJson.object "message" (truncateMessage (msg vars))) (timeoutMs c))
       evs) /\
  GoJson.messageOf (GoJson.object "message" (truncateMessage (msg vars))) =
    Some (GoJson.received (truncateMessage (msg vars))) /\
  (Utf8.ValidString (truncateMessage (msg vars)) = true ->
   GoJson.received (truncateMessage (msg vars)) = truncateMessage (msg vars)) /\
  (Utf8.ValidString (truncateMessage (msg vars)) = false ->
   GoJson.received (truncateMessage (msg vars)) <> truncateMessage (msg vars)) /\
  (forall o, input = VProgressOptions o -> message = [] -> msg vars = Message o).
Proof.
  intros Hswitch Hseq.
  assert (Hcall : Progress c input message w =
            request c "progress" (progressPath c vars)
              {[ "message" := VString (truncateMessage (msg vars)) ]} w).
  { unfold Progress, progressPath. rewrite Hswitch.
    destruct (seqProvided vars) eqn:Hp; simpl; [| reflexivity].
    replace (seq vars <? 0) with false; [reflexivity |].
    specialize (Hseq eq_refl). lia. }
  destruct (received_valid (String.length (truncateMessage (msg vars)))
              (truncateMessage (msg vars)) (Nat.le_refl _)) as [Hvalid [Hinvalid _]].
  split; [exact Hcall |].
  split; [apply truncateMessage_long |].
  split; [apply truncateMessage_short |].
  split; [| split; [apply messageOf_object | split; [exact Hvalid | split]]].
  - rewrite Hcall.
    rewrite (request_encoded c "progress" _ _ _ w (encodeBody_message _)).
    destruct (requestLoop_trace c "progress" (baseURL c +:+ progressPath c vars)
                (GoJson.object "message" (truncateMessage (msg vars))) 0 w)
      as [evs [Hlog [Htrace _]]].
    exists evs. split; [exact Hlog | exact Htrace].
  - intros Hno Heq. specialize (Hinvalid Hno). rewrite Heq in Hinvalid. lia.
  - intros o -> ->. simpl in Hswitch. injection Hswitch as <-.
    unfold readOptions, initialVars. simpl.
    destruct (Seq o); simpl; rewrite orb_true_r; reflexivity.
Qed.

(** C10. [NewPingClient] replaces a [TimeoutMs], [MaxRetries],
    [RetryBackoffMs] or [RetryJitterMs] of 0 (and all four when no options
    are given) by 5000, 2, 250 and 100, and keeps any other value. So the
    max retries and the jitter bound of a client it returns are never 0. *)
Theorem zero_options_use_defaults key opts now c w :
  NewPingClient key opts now = inl (c, w) ->
  let options := match opts with Some o => o | None => Options_zero end in
  timeoutMs c = (if decide (TimeoutMs options = 0) then 5000 else TimeoutMs options) /\
  maxRetries c = (if decide (MaxRetries options = 0) then 2 else MaxRetries options) /\
  retryBackoffMs c =
    (if decide (RetryBackoffMs options = 0) then 250 else RetryBackoffMs options) /\
  retryJitterMs c =
    (if decide (RetryJitterMs options = 0) then 100 else RetryJitterMs options) /\
  maxRetries c <> 0 /\
  retryJitterMs c <> 0.
Proof.
  unfold NewPingClient.
  destruct (negb (jobKeyRegex_MatchString key)); [discriminate |].
  intros [= <- _]. simpl. unfold GoInt.defaultInt.
  repeat split;
    repeat match goal with
    | |- context [decide ?P] => destruct (decide P)
    | |- context [?x =? 0] => destruct (Z.eqb_spec x 0)
    end; try reflexivity; try lia.
Qed.

End Actions.

(** ** The backoff *)

(** *** Binary64 arithmetic on the integers the backoff uses *)

Section Binary64.

Lemma digits2_pos_bounds (p : positive) :
  2 ^ (Z.pos (digits2_pos p) - 1) <= Z.pos p < 2 ^ Z.pos (digits2_pos p).
Proof.
  induction p as [p IH | p IH |]; simpl digits2_pos.
  - rewrite Pos2Z.inj_succ.
    replace (Z.succ (Z.pos (digits2_pos p)) - 1) with (Z.succ (Z.pos (digits2_pos p) - 1)) by lia.
    rewrite !Z.pow_succ_r by lia. lia.
  - rewrite Pos2Z.inj_succ.
    replace (Z.succ (Z.pos (digits2_pos p)) - 1) with (Z.succ (Z.pos (digits2_pos p) - 1)) by lia.
    rewrite !Z.pow_succ_r by lia. lia.
  - simpl. lia.
Qed.

Lemma iter_xO_value (j p : positive) : Z.pos (Pos.iter xO p j) = Z.pos p * 2 ^ Z.pos j.
Proof.
  revert p. induction j as [| j IH] using Pos.peano_ind; intros p.
  - simpl. lia.
  - rewrite Pos.iter_succ, Pos2Z.inj_succ, Z.pow_succ_r by lia.
    rewrite Pos2Z.inj_xO, IH. lia.
Qed.

Lemma iter_xO_digits (j p : positive) :
  digits2_pos (Pos.iter xO p j) = (digits2_pos p + j)%positive.
Proof.
  revert p. induction j as [| j IH] using Pos.peano_ind; intros p.
  - simpl. lia.
  - rewrite Pos.iter_succ. simpl. rewrite IH. lia.
Qed.

Lemma round_canonical (s : bool) (m : positive) (e : Z) :
  digits2_pos m = 53%positive -> -1074 <= e <= 971 ->
  binary_round_aux 53 1024 s (Z.pos m) e loc_Exact = S754_finite s m e.
Proof.
  intros Hd He.
  assert (Hno : shr_fexp 53 1024 (Z.pos m) e loc_Exact =
                ({| shr_m := Z.pos m; shr_r := false; shr_s := false |}, e)).
  { unfold shr_fexp, fexp, emin. simpl Zdigits2. rewrite Hd.
    replace (Z.max (53 + e - 53) (3 - 1024 - 53) - e) with 0 by lia.
    reflexivity. }
  unfold binary_round_aux. rewrite Hno. simpl. rewrite Hno. simpl.
  replace (e <=? 1024 - 53) with true by lia. reflexivity.
Qed.

Lemma digits2_pos_le (p : positive) (n : Z) :
  0 <= n -> Z.pos p < 2 ^ n -> Z.pos (digits2_pos p) <= n.
Proof.
  intros Hn Hp. pose proof (digits2_pos_bounds p) as [Hlo Hhi].
  destruct (Z_le_gt_dec (Z.pos (digits2_pos p)) n) as [| Hgt]; [assumption |].
  exfalso.
  assert (2 ^ n <= 2 ^ (Z.pos (digits2_pos p) - 1)) by (apply Z.pow_le_mono_r; lia).
  lia.
Qed.

Lemma shl_align_normal (p : positive) :
  Z.pos p < 2 ^ 53 ->
  let '(mz, ez) := shl_align p 0 (fexp 53 1024 (Z.pos (digits2_pos p) + 0)) in
  digits2_pos mz = 53%positive /\ ez = Z.pos (digits2_pos p) - 53 /\
  Z.pos mz = Z.pos p * 2 ^ (53 - Z.pos (digits2_pos p)).
Proof.
  intros Hp. pose proof (digits2_pos_le p 53 ltac:(lia) Hp) as Hd.
  unfold shl_align, fexp, emin.
  replace (Z.max (Z.pos (digits2_pos p) + 0 - 53) (3 - 1024 - 53) - 0)
    with (Z.pos (digits2_pos p) - 53) by lia.
  destruct (Z.pos (digits2_pos p) - 53) as [| q | q] eqn:Hdiff; [| lia |].
  - replace (Z.max (Z.pos (digits2_pos p) + 0 - 53) (3 - 1024 - 53)) with 0 by lia.
    repeat split; try lia.
    replace (53 - Z.pos (digits2_pos p)) with 0 by lia. lia.
  - repeat split.
    + rewrite iter_xO_digits. lia.
    + lia.
    + rewrite iter_xO_value. f_equal. f_equal. lia.
Qed.

Lemma of_int_normal (s : bool) (p : positive) :
  Z.pos p < 2 ^ 53 ->
  exists m, binary_round 53 1024 s p 0 = S754_finite s m (Z.pos (digits2_pos p) - 53) /\
            digits2_pos m = 53%positive /\
            Z.pos m = Z.pos p * 2 ^ (53 - Z.pos (digits2_pos p)).
Proof.
  intros Hp. pose proof (shl_align_normal p Hp) as Hal.
  pose proof (digits2_pos_le p 53 ltac:(lia) Hp) as Hle.
  unfold binary_round.
  destruct (shl_align p 0 (fexp 53 1024 (Z.pos (digits2_pos p) + 0))) as [mz ez].
  destruct Hal as [Hd [-> Hv]].
  exists mz. split; [| split; assumption].
  apply round_canonical; [exact Hd | lia].
Qed.

Lemma mul_pow2 (s : bool) (m : positive) (e k : Z) :
  digits2_pos m = 53%positive -> 0 <= k <= 1023 -> -1074 <= e + k <= 971 ->
  Float64.mul (S754_finite s m e) (Float64.pow2 k) = S754_finite s m (e + k).
Proof.
  intros Hd Hk He. unfold Float64.mul, Float64.pow2.
  replace (k <=? 1023) with true by lia.
  unfold SFmul. rewrite xorb_false_r.
  replace (m * 2 ^ 52)%positive with (Pos.iter xO m 52) by (rewrite Pos.mul_comm; reflexivity).
  unfold binary_round_aux.
  assert (Hshift : shr_fexp Float64.prec Float64.emax (Z.pos (Pos.iter xO m 52)) (e + (k - 52)) loc_Exact =
                   ({| shr_m := Z.pos m; shr_r := false; shr_s := false |}, e + k)).
  { unfold shr_fexp, fexp, emin, Float64.prec, Float64.emax, Zdigits2.
    rewrite iter_xO_digits, Hd.
    replace (Z.max (Z.pos (53 + 52) + (e + (k - 52)) - 53) (3 - 1024 - 53) - (e + (k - 52)))
      with 52 by lia.
    unfold shr. simpl. f_equal. lia. }
  rewrite Hshift. simpl.
  assert (Hno : shr_fexp Float64.prec Float64.emax (Z.pos m) (e + k) loc_Exact =
                ({| shr_m := Z.pos m; shr_r := false; shr_s := false |}, e + k)).
  { unfold shr_fexp, fexp, emin, Float64.prec, Float64.emax, Zdigits2. rewrite Hd.
    replace (Z.max (53 + (e + k) - 53) (3 - 1024 - 53) - (e + k)) with 0 by lia.
    reflexivity. }
  rewrite Hno. simpl.
  unfold Float64.emax, Float64.prec.
  replace (e + k <=? 1024 - 53) with true by lia. reflexivity.
Qed.

Lemma truncate_scaled (s : bool) (m p : positive) (d k : Z) :
  Z.pos m = Z.pos p * 2 ^ (53 - d) -> 0 <= k -> d + k <= 53 ->
  Float64.truncate (S754_finite s m (d - 53 + k)) =
  Some (if s then - (Z.pos p * 2 ^ k) else Z.pos p * 2 ^ k).
Proof.
  intros Hm Hk Hdk. unfold Float64.truncate.
  assert (Hmag : (if 0 <=? d - 53 + k then Z.pos m * 2 ^ (d - 53 + k)
                  else Z.pos m / 2 ^ (- (d - 53 + k))) = Z.pos p * 2 ^ k).
  { rewrite Hm. destruct (Z.leb_spec 0 (d - 53 + k)) as [Hz | Hneg].
    - replace (d - 53 + k) with 0 by lia. replace (53 - d) with k by lia. lia.
    - replace (53 - d) with (k + - (d - 53 + k)) by lia.
      rewrite Z.pow_add_r by lia. rewrite Z.mul_assoc.
      apply Z.div_mul. apply Z.pow_nonzero; lia. }
  rewrite Hmag. reflexivity.
Qed.

(** The product [float64(b) * math.Pow(2, k)] converted back to an [int] is
    the integer [b * 2^k] as long as that stays below 2^53. *)
Lemma backoff_product_exact (b k : Z) :
  0 <= k <= 1023 -> Z.abs b * 2 ^ k < 2 ^ 53 ->
  Float64.to_int (Float64.mul (Float64.of_int b) (Float64.pow2 k)) = b * 2 ^ k.
Proof.
  intros Hk Hb.
  assert (Hpow : 1 <= 2 ^ k) by (apply (Z.pow_le_mono_r 2 0 k); lia).
  destruct b as [| p | p].
  - unfold Float64.of_int, Float64.pow2. replace (k <=? 1023) with true by lia.
    reflexivity.
  - assert (Hp : Z.pos p < 2 ^ 53) by (simpl Z.abs in Hb; nia).
    destruct (of_int_normal false p Hp) as [m [Hround [Hd Hv]]].
    pose proof (digits2_pos_bounds p) as [Hlo _].
    assert (Hdk : Z.pos (digits2_pos p) + k <= 53).
    { destruct (Z_le_gt_dec (Z.pos (digits2_pos p) + k) 53) as [| Hgt]; [assumption |].
      exfalso.
      assert (2 ^ 53 <= 2 ^ (Z.pos (digits2_pos p) - 1 + k)) by (apply Z.pow_le_mono_r; lia).
      rewrite Z.pow_add_r in * by lia. simpl Z.abs in Hb. nia. }
    unfold Float64.of_int, binary_normalize. fold Float64.prec Float64.emax in Hround |- *.
    unfold Float64.prec, Float64.emax in Hround |- *. rewrite Hround.
    rewrite (mul_pow2 _ _ _ _ Hd Hk) by lia.
    unfold Float64.to_int. rewrite (truncate_scaled false m p _ k Hv) by lia.
    unfold GoInt.MinInt, GoInt.MaxInt.
    change (Z.abs (Z.pos p)) with (Z.pos p) in Hb.
    change (2 ^ 53) with 9007199254740992 in Hb.
    change (2 ^ 63) with 9223372036854775808.
    rewrite !(proj2 (Z.leb_le _ _)) by lia.
    reflexivity.
  - assert (Hp : Z.pos p < 2 ^ 53) by (simpl Z.abs in Hb; nia).
    destruct (of_int_normal true p Hp) as [m [Hround [Hd Hv]]].
    pose proof (digits2_pos_bounds p) as [Hlo _].
    assert (Hdk : Z.pos (digits2_pos p) + k <= 53).
    { destruct (Z_le_gt_dec (Z.pos (digits2_pos p) + k) 53) as [| Hgt]; [assumption |].
      exfalso.
      assert (2 ^ 53 <= 2 ^ (Z.pos (digits2_pos p) - 1 + k)) by (apply Z.pow_le_mono_r; lia).
      rewrite Z.pow_add_r in * by lia. simpl Z.abs in Hb. nia. }
    unfold Float64.of_int, binary_normalize.
    unfold Float64.prec, Float64.emax. rewrite Hround.
    rewrite (mul_pow2 _ _ _ _ Hd Hk) by lia.
    unfold Float64.to_int. rewrite (truncate_scaled true m p _ k Hv) by lia.
    unfold GoInt.MinInt, GoInt.MaxInt.
    change (Z.abs (Z.neg p)) with (Z.pos p) in Hb.
    change (2 ^ 53) with 9007199254740992 in Hb.
    change (2 ^ 63) with 9223372036854775808.
    rewrite !(proj2 (Z.leb_le _ _)) by lia.
    simpl. lia.
Qed.

End Binary64.

Section Backoff.

Context {T R : Type} `{HttpClient T} `{Rand R} `{Library}.

Implicit Types (c : PingClient) (w : World (T := T) (R := R)).

Lemma backoffMs_exact c a :
  1 <= a <= 1024 ->
  Z.abs (retryBackoffMs c * 2 ^ (a - 1)) < 2 ^ 53 ->
  backoffMs c a = retryBackoffMs c * 2 ^ (a - 1).
Proof.
  intros Ha Hb. unfold backoffMs.
  rewrite wrap_in_range
    by (unfold GoInt.in_range, GoInt.MinInt, GoInt.MaxInt;
        change (2 ^ 63) with 9223372036854775808; lia).
  unfold GoInt.maxInt. replace (0 >? a - 1) with false by lia.
  apply backoff_product_exact; [lia |].
  rewrite Z.abs_mul in Hb. rewrite (Z.abs_eq (2 ^ (a - 1))) in Hb; [exact Hb |].
  apply Z.pow_nonneg. lia.
Qed.

Lemma drawJitter_range c (r : R) :
  retryJitterMs c < GoInt.MaxInt ->
  exists j r',
    drawJitter c r = Some (j, r') /\
    0 <= j <= Z.max 0 (retryJitterMs c) /\
    (retryJitterMs c <= 0 -> j = 0) /\
    (0 < retryJitterMs c -> j = fst (Intn r (retryJitterMs c + 1))).
Proof.
  intros Hmax. unfold drawJitter.
  destruct (Z.gtb_spec (retryJitterMs c) 0) as [Hpos | Hle].
  - rewrite wrap_in_range
      by (unfold GoInt.in_range, GoInt.MinInt, GoInt.MaxInt in *;
          change (2 ^ 63) with 9223372036854775808 in *; lia).
    cbv zeta. replace (retryJitterMs c + 1 <=? 0) with false by lia.
    pose proof (Intn_range r (retryJitterMs c + 1) ltac:(lia)) as Hr.
    destruct (Intn r (retryJitterMs c + 1)) as [j r']. simpl in Hr.
    exists j, r'. repeat split; first [lia | reflexivity].
  - exists 0, r. repeat split; first [lia | reflexivity].
Qed.

(** C4, as the code has it. The a-th retry of a request (a = 1 for the
    first) waits backoffBase * 2^(a-1) milliseconds plus a jitter, provided
    a <= 1024 and the milliseconds fit a [time.Duration] with the largest
    jitter added (between -9223372036854 and 9223372036854). The jitter is
    the number the client's generator returns for [Intn(jitterBound + 1)],
    between 0 and jitterBound, when the bound is positive, and exactly 0
    when the bound is 0 (or negative). *)
Theorem backoff_wait c a w :
  1 <= a <= 1024 ->
  - MaxDurationMs <= retryBackoffMs c * 2 ^ (a - 1) ->
  retryBackoffMs c * 2 ^ (a - 1) + Z.max 0 (retryJitterMs c) <= MaxDurationMs ->
  exists j r,
    drawJitter c (rng w) = Some (j, r) /\
    (exists w',
       sleepWithBackoff c a w = Some w' /\
       log w' =
         (log w ++ [Slept ((retryBackoffMs c * 2 ^ (a - 1) + j) * Millisecond)])%list) /\
    0 <= j <= Z.max 0 (retryJitterMs c) /\
    (retryJitterMs c <= 0 -> j = 0) /\
    (0 < retryJitterMs c -> j = fst (Intn (rng w) (retryJitterMs c + 1))) /\
    (forall action url payload attempt w0 w' a',
       iteration c action url payload attempt w0 = (w', Continue a') ->
       a' = attempt + 1 /\
       sleepWithBackoff c a' (fst (doRequest c url payload w0)) = Some w').
Proof.
  intros Ha Hlow Hhigh. unfold MaxDurationMs in *.
  assert (Hjmax : retryJitterMs c < GoInt.MaxInt).
  { unfold GoInt.MaxInt. change (2 ^ 63) with 9223372036854775808. lia. }
  destruct (drawJitter_range c (rng w) Hjmax) as [j [r [Hdrawn [Hj [Hzero Hdraw]]]]].
  exists j, r.
  split; [exact Hdrawn |].
  split; [| split; [exact Hj | split; [exact Hzero | split; [exact Hdraw |]]]].
  - unfold sleepWithBackoff. rewrite Hdrawn. eexists. split; [reflexivity |]. simpl.
    rewrite backoffMs_exact; [| exact Ha |].
    + clear Hjmax Hzero Hdraw Hdrawn.
      set (base := retryBackoffMs c * 2 ^ (a - 1)) in *. clearbody base.
      rewrite (wrap_in_range (base + j))
        by (unfold GoInt.in_range, GoInt.MinInt, GoInt.MaxInt;
            change (2 ^ 63) with 9223372036854775808; lia).
      rewrite wrap_in_range
        by (unfold GoInt.in_range, GoInt.MinInt, GoInt.MaxInt, Millisecond;
            change (2 ^ 63) with 9223372036854775808; lia).
      reflexivity.
    + clear Hjmax Hzero Hdraw Hdrawn.
      set (base := retryBackoffMs c * 2 ^ (a - 1)) in *. clearbody base.
      change (2 ^ 53) with 9007199254740992. lia.
  - intros action url payload attempt w0 w' a'. unfold iteration, retry.
    destruct (doRequest c url payload w0) as [w1 [res | reqErr]]; simpl.
    + destruct ((Status res >=? 200) && (Status res <? 300)); [discriminate |].
      destruct (mapError (Status res)) as [code flag].
      destruct (flag && (attempt <? maxRetries c)); [| discriminate].
      destruct (sleepWithBackoff c (attempt + 1) w1) as [w2 |] eqn:Hs; [| discriminate].
      intros [= <- <-]. split; [reflexivity | exact Hs].
    + destruct (attempt >=? maxRetries c); [discriminate |].
      destruct (sleepWithBackoff c (attempt + 1) w1) as [w2 |] eqn:Hs; [| discriminate].
      intros [= <- <-]. split; [reflexivity | exact Hs].
Qed.

End Backoff.

(** ** The properties on the stubs *)

Section OnTheStubs.

Import Stub.

(** C1 on the stub transport: a network failure, then a 429, then a 200,
    with max retries 2. *)
Lemma retry_until_success_witness :
  Z.of_nat 2 <= maxRetries (testClient 2 1 0) /\
  snd (Ping (testClient 2 1 0)
         (testWorld 1 [{| status := 429; body := "busy" |}; {| status := 200; body := "{}" |}])) =
    Returns (inl (normalizeSuccess (testClient 2 1 0) "ping" ∅)) /\
  requests (log (fst (Ping (testClient 2 1 0)
         (testWorld 1 [{| status := 429; body := "busy" |}; {| status := 200; body := "{}" |}]))))
    = 3%nat.
Proof.
  split; [vm_compute; discriminate |].
  destruct (retry_until_success (testClient 2 1 0) "ping" "/ping/abc123de" ∅ ""
              (testWorld 1 [{| status := 429; body := "busy" |}; {| status := 200; body := "{}" |}])
              2 ok200) as [[Hres [_ Hcount]] _].
  - reflexivity.
  - vm_compute. repeat split; reflexivity.
  - reflexivity.
  - vm_compute. discriminate.
  - intros _. vm_compute. reflexivity.
  - split; [exact Hres | exact Hcount].
Defined.

(** C1 as the specification words it fails: a client built by
    [NewPingClient] with the largest [int] as its jitter bound and one retry
    allowed, on a transport that fails once and then answers 200. The retry
    draws its jitter with [Intn(jitterBound + 1)], whose argument has wrapped
    to the smallest [int]: the call panics after its first request, and
    returns no success. *)
Lemma retry_panics_at_largest_jitter :
  let opts := {| BaseURL := ""; TimeoutMs := 0; MaxRetries := 1; RetryBackoffMs := 1;
                 RetryJitterMs := 9223372036854775807; UserAgent := "";
                 HTTPClient := Some {| responses := []; networkFailures := 1; calls := [] |} |} in
  exists c w,
    NewPingClient "abc123de" (Some opts) 0 = inl (c, w) /\
    retryJitterMs c = GoInt.MaxInt /\
    failsThenReturns 1 c (baseURL c +:+ "/ping/abc123de") "" (httpClient w) ok200 /\
    is2xx (Status ok200) = true /\
    Z.of_nat 1 <= maxRetries c /\
    snd (Ping c w) = Panics /\
    (forall s, snd (Ping c w) <> Returns (inl s)) /\
    requests (log (fst (Ping c w))) = 1%nat /\
    requests (log (fst (Ping c w))) <> (0 + 1 + 1)%nat.
Proof.
  eexists. eexists. split; [reflexivity |].
  split; [reflexivity |].
  split; [vm_compute; repeat split; reflexivity |].
  split; [reflexivity |].
  split; [vm_compute; discriminate |].
  split; [vm_compute; reflexivity |].
  split; [intros s; vm_compute; discriminate |].
  split; [vm_compute; reflexivity | vm_compute; discriminate].
Qed.


(** C3 as the specification words it fails: a client built by
    [NewPingClient] from the option [MaxRetries: 0] (the options of the test
    helper), on a transport that keeps failing, invokes the transport three
    times and waits twice before it returns the error. *)
Lemma option_zero_still_retries :
  let opts := {| BaseURL := ""; TimeoutMs := 0; MaxRetries := 0; RetryBackoffMs := 1;
                 RetryJitterMs := 0; UserAgent := "";
                 HTTPClient := Some {| responses := []; networkFailures := 5; calls := [] |} |} in
  exists c w,
    NewPingClient "abc123de" (Some opts) 0 = inl (c, w) /\
    MaxRetries opts = 0 /\
    failure (snd (answer c (baseURL c +:+ "/ping/abc123de") "" (httpClient w))) = true /\
    requests (log (fst (Ping c w))) = 3%nat /\
    requests (log (fst (Ping c w))) <> 1%nat /\
    length (sleeps (log (fst (Ping c w)))) = 2%nat.
Proof.
  eexists. eexists. split; [reflexivity |].
  repeat split; try reflexivity. vm_compute. discriminate.
Qed.

(** C3 as amended, on a client whose field is 0. *)
Lemma no_retry_without_budget_witness :
  maxRetries (testClient 0 1 0) <= 0 /\
  snd (Ping (testClient 0 1 0) (testWorld 1 [])) =
    Returns (inr (ApiError CodeNetwork None true "socket timeout: timeout"
                    (RawError (SdkError "socket timeout" (Some (PlainError "timeout")))))) /\
  requests (log (fst (Ping (testClient 0 1 0) (testWorld 1 [])))) = 1%nat.
Proof.
  split; [vm_compute; discriminate |].
  destruct (no_retry_without_budget (testClient 0 1 0) "ping" "/ping/abc123de" ∅ ""
              (testWorld 1 [])) as [[Hres [Hcount _]] _].
  - reflexivity.
  - vm_compute. discriminate.
  - reflexivity.
  - split; [exact Hres | exact Hcount].
Defined.

(** C4 as the specification words it fails. With the default base of 250 ms
    the 37th retry should wait 250 * 2^36 ms; those milliseconds do not fit
    a [time.Duration], and the client sleeps a negative duration. With a
    base of 2^53 + 1 ms the first retry computes 2^53 ms: the base is not a
    binary64 number. *)
Lemma backoff_wait_out_of_range :
  ((exists w',
      sleepWithBackoff (testClient 40 250 0) 37 (testWorld 0 []) = Some w' /\
      sleeps (log w') = [-1266874889709551616]) /\
   (250 * 2 ^ (37 - 1) + 0) * Millisecond = 17179869184000000000) /\
  (backoffMs (testClient 2 9007199254740993 0) 1 = 9007199254740992 /\
   9007199254740993 * 2 ^ (1 - 1) = 9007199254740993).
Proof.
  split; [split |].
  - eexists. split; vm_compute; reflexivity.
  - vm_compute. reflexivity.
  - vm_compute. split; reflexivity.
Qed.

(** C4 as amended, on the second retry of a client with base 250 and jitter
    bound 100. *)
Lemma backoff_wait_witness :
  1 <= 2 <= 1024 /\
  exists w',
    sleepWithBackoff (testClient 2 250 100) 2 (testWorld 0 []) = Some w' /\
    log w' = [Slept ((250 * 2 ^ (2 - 1) + 0) * Millisecond)].
Proof.
  split; [lia |].
  destruct (backoff_wait (testClient 2 250 100) 2 (testWorld 0 []))
    as [j [r [Hdrawn [[w' [Hsleep Hlog]] _]]]].
  - lia.
  - vm_compute. discriminate.
  - vm_compute. discriminate.
  - exists w'. split; [exact Hsleep |].
    injection Hdrawn as Hj _. rewrite <- Hj in Hlog. exact Hlog.
Defined.

(** C5 on the stub transport: a 200 whose body is not JSON. *)
Lemma invalid_body_still_success_witness :
  snd (Ping (testClient 2 1 0) (testWorld 0 [{| status := 200; body := "<html>" |}])) =
    Returns (inl {| Ok := true; Action := "ping"; JobKey := "abc123de"; Timestamp := "";
                    ProcessingTimeMs := Float64.zero; NextExpected := None;
                    Raw := {[ "message" := VString "Invalid JSON response" ]} |}).
Proof.
  destruct (invalid_body_still_success (testClient 2 1 0) "ping" "/ping/abc123de" ∅ ""
              (testWorld 0 [{| status := 200; body := "<html>" |}])
              {| Status := 200; Body := "<html>"; Headers := ∅ |}) as [_ [Hres _]].
  - reflexivity.
  - reflexivity.
  - reflexivity.
  - intros obj. vm_compute. discriminate.
  - exact Hres.
Defined.

(** C6 on the stub transport: a 200 with the empty object. *)
Lemma normalize_defaults_witness :
  exists s,
    snd (Start (testClient 2 1 0) (testWorld 0 [{| status := 200; body := "{}" |}])) =
      Returns (inl s) /\
    Ok s = true /\ Action s = "start" /\ JobKey s = "abc123de" /\
    ProcessingTimeMs s = Float64.zero /\ Raw s = ∅.
Proof.
  destruct (normalize_defaults (testClient 2 1 0) "start" "/ping/abc123de/start" ∅ ""
              (testWorld 0 [{| status := 200; body := "{}" |}]) ok200 ∅) as [Hres _];
    try reflexivity.
  exact Hres.
Defined.

(** C9 as the specification words it fails. A message of 300 times the
    letter e with an acute accent has 300 characters in 600 bytes. [Progress]
    cuts it at byte 255, inside the 128th character, and [json.Marshal]
    writes U+FFFD for the byte left of that character: the message
    transmitted has 128 characters in 257 bytes, and is neither the message
    nor its first 255 bytes (or characters). A message of 200 of these
    letters has fewer than 255 characters, and is not sent unchanged
    either. *)
Lemma progress_cut_inside_character :
  let c := testClient 2 1 0 in
  let w := testWorld 0 [] in
  (String.length (accents 300) = 600%nat /\
   Utf8.RuneCountInString (accents 300) = 300%nat /\
   Utf8.ValidString (accents 300) = true) /\
  (exists payload m,
     log (fst (Progress c VNil [accents 300] w)) =
       [Requested "POST" "https://cronbeats.io/ping/abc123de/progress" (requestHeaders c)
          payload 5000] /\
     GoJson.messageOf payload = Some m /\
     m = accents 127 +:+ Utf8.EncodeRune Utf8.RuneError /\
     String.length m = 257%nat /\
     Utf8.RuneCountInString m = 128%nat /\
     m <> Strings.prefix 255 (accents 300) /\
     m <> accents 255 /\
     m <> accents 300) /\
  (Utf8.RuneCountInString (accents 200) = 200%nat /\
   exists payload m,
     log (fst (Progress c VNil [accents 200] w)) =
       [Requested "POST" "https://cronbeats.io/ping/abc123de/progress" (requestHeaders c)
          payload 5000] /\
     GoJson.messageOf payload = Some m /\
     m <> accents 200).
Proof.
  intros c w. split; [| split].
  - vm_compute. repeat split; reflexivity.
  - exists (GoJson.object "message" (Strings.prefix 255 (accents 300))).
    exists (accents 127 +:+ Utf8.EncodeRune Utf8.RuneError).
    split; [vm_compute; reflexivity |].
    split; [vm_compute; reflexivity |].
    split; [reflexivity |].
    split; [vm_compute; reflexivity |].
    split; [vm_compute; reflexivity |].
    split; [| split]; intros Heq; apply (f_equal String.length) in Heq;
      vm_compute in Heq; discriminate Heq.
  - split; [vm_compute; reflexivity |].
    exists (GoJson.object "message" (Strings.prefix 255 (accents 200))).
    exists (accents 127 +:+ Utf8.EncodeRune Utf8.RuneError).
    split; [vm_compute; reflexivity |].
    split; [vm_compute; reflexivity |].
    intros Heq; apply (f_equal String.length) in Heq; vm_compute in Heq; discriminate Heq.
Qed.

(** C9 as amended, on the call of the test: options with sequence 50 and a
    message of 300 bytes, all of them the letter x. *)
Lemma progress_message_truncated_witness :
  String.length longMsg = 300%nat /\
  Progress (testClient 2 1 0) (VProgressOptions {| Seq := Some 50; Message := longMsg |}) []
    (testWorld 0 [])
  = request (testClient 2 1 0) "progress" "/ping/abc123de/progress/50"
      {[ "message" := VString (truncateMessage longMsg) ]} (testWorld 0 []) /\
  String.length (truncateMessage longMsg) = 255%nat /\
  GoJson.messageOf (GoJson.object "message" (truncateMessage longMsg)) =
    Some (truncateMessage longMsg).
Proof.
  split; [reflexivity |].
  destruct (progress_message_truncated (testClient 2 1 0)
              (VProgressOptions {| Seq := Some 50; Message := longMsg |}) []
              (testWorld 0 [])
              {| seq := 50; seqProvided := true; msg := longMsg |})
    as [Hcall [Hlong [_ [_ [Hread [Hvalid _]]]]]].
  - reflexivity.
  - intros _. vm_compute. discriminate.
  - destruct Hlong as [_ Hlen]; [apply Nat.ltb_lt; reflexivity |].
    split; [exact Hcall |]. split; [exact Hlen |].
    simpl msg in Hread, Hvalid. rewrite Hread, Hvalid; reflexivity.
Defined.

(** C10 on the options of the test helper: max retries 0 and jitter 0 are
    replaced by 2 and 100, the backoff of 1 is kept. *)
Lemma zero_options_use_defaults_witness :
  let opts := {| BaseURL := ""; TimeoutMs := 0; MaxRetries := 0; RetryBackoffMs := 1;
                 RetryJitterMs := 0; UserAgent := "";
                 HTTPClient := Some {| responses := []; networkFailures := 0; calls := [] |} |} in
  NewPingClient "abc123de" (Some opts) 7 =
    inl (testClient 2 1 100,
         {| httpClient := {| responses := []; networkFailures := 0; calls := [] |};
            rng := 7; log := [] |}) /\
  timeoutMs (testClient 2 1 100) = 5000 /\
  maxRetries (testClient 2 1 100) = 2 /\
  retryBackoffMs (testClient 2 1 100) = 1 /\
  retryJitterMs (testClient 2 1 100) = 100.
Proof.
  intros opts.
  assert (Hnew : NewPingClient "abc123de" (Some opts) 7 =
    inl (testClient 2 1 100,
         {| httpClient := {| responses := []; networkFailures := 0; calls := [] |};
            rng := 7; log := [] |})) by reflexivity.
  split; [exact Hnew |].
  destruct (zero_options_use_defaults _ _ _ _ _ Hnew) as [Ht [Hm [Hb [Hj _]]]].
  repeat split; assumption.
Defined.

End OnTheStubs.

(** * Further properties of the code *)

(** ** The outcome and the cost of a call *)

Section CallOutcome.

Context {T R : Type} `{HttpClient T} `{Rand R} `{Library}.

Implicit Types (c : PingClient) (w : World (T := T) (R := R)).

(** X1. Whatever the transport does, and however the call ends, a call
    whose body encodes adds to the log calls of the transport that are all
    the same request (POST, the base URL followed by the path, the three
    headers, the encoded body, the client's timeout) with exactly one sleep
    between two of them: at least one call, at most max retries + 1, and one
    sleep fewer than calls. *)
Theorem request_trace c action path body payload w :
  encodeBody body = inl payload ->
  exists evs,
    log (fst (request c action path body w)) = (log w ++ evs)%list /\
    RetryTrace
      (Requested "POST" (baseURL c +:+ path) (requestHeaders c) payload (timeoutMs c)) evs /\
    (1 <= requests evs <= S (Z.to_nat (maxRetries c)))%nat /\
    requests evs = S (length (sleeps evs)) /\
    requestHeaders c !! "Content-Type" = Some "application/json" /\
    requestHeaders c !! "Accept" = Some "application/json" /\
    requestHeaders c !! "User-Agent" = Some (userAgent c) /\
    (forall k, k <> "Content-Type" -> k <> "Accept" -> k <> "User-Agent" ->
               requestHeaders c !! k = None).
Proof.
  intros Henc. rewrite (request_encoded _ _ _ _ _ _ Henc).
  destruct (requestLoop_trace c action (baseURL c +:+ path) payload 0 w)
    as [evs [Hlog [Htrace [Hbound _]]]].
  pose proof (RetryTrace_requests (requestEvent c (baseURL c +:+ path) payload) _ eq_refl Htrace) as Hcount.
  exists evs. split; [exact Hlog |]. split; [exact Htrace |].
  rewrite Z.sub_0_r in Hbound.
  split; [lia |]. split; [exact Hcount |].
  unfold requestHeaders.
  split; [reflexivity |]. split; [reflexivity |]. split; [reflexivity |].
  intros k Hk1 Hk2 Hk3. rewrite !lookup_insert_ne by congruence.
  apply lookup_singleton_ne. congruence.
Qed.

(** X2. An error flagged retryable is returned only when the budget is used
    up: the call has then invoked the transport exactly max retries + 1
    times (once when max retries is negative) and slept max retries times. *)
Theorem retryable_error_exhausts_budget c action path body payload w code st m raw :
  encodeBody body = inl payload ->
  snd (request c action path body w) = Returns (inr (ApiError code st true m raw)) ->
  requests (log (fst (request c action path body w))) =
    (requests (log w) + S (Z.to_nat (maxRetries c)))%nat /\
  length (sleeps (log (fst (request c action path body w)))) =
    (length (sleeps (log w)) + Z.to_nat (maxRetries c))%nat.
Proof.
  intros Henc. rewrite (request_encoded _ _ _ _ _ _ Henc). intros Herr.
  destruct (requestLoop_trace c action (baseURL c +:+ path) payload 0 w)
    as [evs [Hlog [Htrace [_ Hflag]]]].
  specialize (Hflag _ _ _ _ Herr). rewrite Z.sub_0_r in Hflag.
  pose proof (RetryTrace_requests (requestEvent c (baseURL c +:+ path) payload) _ eq_refl Htrace) as Hcount.
  rewrite Hlog, requests_app, sleeps_app, length_app. lia.
Qed.

(** An answer that is not a retryable failure, or that arrives with the
    budget used up, ends the loop in its turn. *)
Lemma requestLoop_terminal c action url payload attempt w out :
  snd (answer c url payload (httpClient w)) = out ->
  retryableFailure out = false \/ maxRetries c <= attempt ->
  requestLoop c action url payload attempt w =
  (fst (doRequest c url payload w), Returns (resultOf c action out)).
Proof.
  intros Hout Hend. destruct out as [res | reqErr]; simpl.
  - destruct (is2xx (Status res)) eqn:H2xx.
    + apply requestLoop_success; assumption.
    + apply requestLoop_api_error; try assumption.
      destruct Hend as [Hno | Hle]; [left | right; exact Hle].
      simpl in Hno. rewrite H2xx in Hno. exact Hno.
  - apply requestLoop_network_error; [assumption |].
    destruct Hend as [Hno | Hle]; [discriminate Hno | exact Hle].
Qed.

(** The loop on a transport that answers [N] retryable failures within the
    budget and then an answer that ends the loop, for a client whose retries
    can draw their jitter. *)
Lemma requestLoop_fails_then_answers N :
  forall c action url payload attempt w out,
  failsThenAnswers N c url payload (httpClient w) out ->
  attempt + Z.of_nat N <= maxRetries c ->
  retryableFailure out = false \/ maxRetries c <= attempt + Z.of_nat N ->
  ((0 < N)%nat -> retryJitterMs c < GoInt.MaxInt) ->
  snd (requestLoop c action url payload attempt w) = Returns (resultOf c action out) /\
  requests (log (fst (requestLoop c action url payload attempt w))) =
    (requests (log w) + N + 1)%nat /\
  length (sleeps (log (fst (requestLoop c action url payload attempt w)))) =
    (length (sleeps (log w)) + N)%nat.
Proof.
  induction N as [| n IH];
    intros c action url payload attempt w out Hrun Hbudget Hend Hjitter.
  - simpl in Hrun. rewrite Z.add_0_r in Hend.
    rewrite (requestLoop_terminal _ _ _ _ _ _ _ Hrun Hend). simpl. rewrite doRequest_requests, doRequest_sleeps.
    repeat split; lia.
  - destruct Hrun as [Hfail Hrest].
    assert (Hmax : retryJitterMs c < GoInt.MaxInt) by (apply Hjitter; lia).
    destruct (sleepWithBackoff_some c (attempt + 1) (fst (doRequest c url payload w)) Hmax)
      as [w1 Hw1].
    assert (Hlt : attempt < maxRetries c) by lia.
    rewrite (requestLoop_retry _ _ _ _ _ _ _ Hfail Hlt Hw1).
    assert (Ht : httpClient w1 = fst (answer c url payload (httpClient w))).
    { rewrite (sleepWithBackoff_httpClient _ _ _ _ Hw1). apply doRequest_httpClient. }
    rewrite <- Ht in Hrest.
    destruct (IH c action url payload (attempt + 1) w1 out Hrest) as [Hres [Hcalls Hsleeps]];
      [lia | destruct Hend; [left; assumption | right; lia] | intros _; exact Hmax |].
    split; [exact Hres |]. rewrite Hcalls, Hsleeps.
    rewrite (sleepWithBackoff_requests _ _ _ _ Hw1), (sleepWithBackoff_sleeps _ _ _ _ Hw1),
      doRequest_requests, doRequest_sleeps.
    split; lia.
Qed.

(** X3. The answer that decides a call is the first one that is not a
    retryable failure, or the one that arrives when the budget is used up:
    after N retryable failures within the budget, a success is normalized, a
    response with a failure status becomes the API error of that response
    and an error of the transport becomes the network error (code Network,
    no status, retryable, the message of the transport's error). The call
    has then made N + 1 requests and slept N times. When N is at least 1 this
    needs a jitter bound below the largest [int]: at that bound the first
    retry panics in its draw. *)
Theorem request_outcome c action path body payload w N out :
  encodeBody body = inl payload ->
  failsThenAnswers N c (baseURL c +:+ path) payload (httpClient w) out ->
  Z.of_nat N <= maxRetries c ->
  retryableFailure out = false \/ maxRetries c <= Z.of_nat N ->
  ((0 < N)%nat -> retryJitterMs c < GoInt.MaxInt) ->
  snd (request c action path body w) =
    Returns
      match out with
      | inl res =>
          if is2xx (Status res) then inl (normalizeSuccess c action (safeJSON (Body res)))
          else inr (ApiError (fst (mapError (Status res))) (Some (Status res))
                      (retryable (Status res)) (responseMessage (safeJSON (Body res)))
                      (RawBody (safeJSON (Body res))))
      | inr reqErr => inr (ApiError CodeNetwork None true (Error reqErr) (RawError reqErr))
      end /\
  requests (log (fst (request c action path body w))) = (requests (log w) + N + 1)%nat /\
  length (sleeps (log (fst (request c action path body w)))) =
    (length (sleeps (log w)) + N)%nat.
Proof.
  intros Henc Hrun Hbudget Hend Hjitter. rewrite (request_encoded _ _ _ _ _ _ Henc).
  apply (requestLoop_fails_then_answers N c action _ payload 0 w out Hrun);
    [lia | destruct Hend; [left; assumption | right; lia] | exact Hjitter].
Qed.

(** X4. When the body does not encode, the call returns the [SdkError] that
    wraps the encoder's error, whose text is "failed to encode request
    payload: " followed by the text of that error, and the world is left as
    it was: the transport is not invoked. A call without a body never takes
    this path. *)
Theorem request_encode_failure c action path body w err :
  encodeBody body = inr err ->
  request c action path body w =
    (w, Returns (inr (SdkError "failed to encode request payload" (Some err)))) /\
  Error (SdkError "failed to encode request payload" (Some err)) =
    "failed to encode request payload: " +:+ Error err /\
  Unwrap (SdkError "failed to encode request payload" (Some err)) = Some err /\
  body <> ∅ /\ Marshal body = inr err.
Proof.
  intros Henc. unfold request. rewrite Henc.
  split; [reflexivity |]. split; [reflexivity |]. split; [reflexivity |].
  unfold encodeBody in Henc.
  destruct (0 <? size body)%nat eqn:Hsize; [| discriminate Henc].
  split; [| exact Henc].
  intros ->. rewrite map_size_empty in Hsize. discriminate Hsize.
Qed.

Lemma iteration_no_panic c action url payload attempt w w' :
  retryJitterMs c < GoInt.MaxInt ->
  iteration c action url payload attempt w <> (w', Panic).
Proof.
  intros Hmax. unfold iteration, retry.
  destruct (doRequest c url payload w) as [w1 [res | reqErr]].
  - destruct ((Status res >=? 200) && (Status res <? 300)); [discriminate |].
    destruct (mapError (Status res)) as [code flag].
    destruct (flag && (attempt <? maxRetries c)); [| discriminate].
    destruct (sleepWithBackoff_some c (attempt + 1) w1 Hmax) as [w2 ->]. discriminate.
  - destruct (attempt >=? maxRetries c); [discriminate |].
    destruct (sleepWithBackoff_some c (attempt + 1) w1 Hmax) as [w2 ->]. discriminate.
Qed.

(** X17. A call panics only in the draw of the jitter of a retry, and only
    at the largest jitter bound. With a jitter bound below the largest
    [int] a call whose body encodes never panics. With the largest [int] as
    the bound and at least one retry allowed, a call whose first answer is a
    retryable failure panics after that one request, without a sleep and
    without touching the generator. *)
Theorem request_panics_at_largest_jitter c action path body payload w :
  encodeBody body = inl payload ->
  (retryJitterMs c < GoInt.MaxInt -> snd (request c action path body w) <> Panics) /\
  (retryJitterMs c = GoInt.MaxInt ->
   0 < maxRetries c ->
   retryableFailure (snd (answer c (baseURL c +:+ path) payload (httpClient w))) = true ->
   request c action path body w = (fst (doRequest c (baseURL c +:+ path) payload w), Panics) /\
   requests (log (fst (request c action path body w))) = S (requests (log w)) /\
   sleeps (log (fst (request c action path body w))) = sleeps (log w) /\
   rng (fst (request c action path body w)) = rng w).
Proof.
  intros Henc. rewrite (request_encoded _ _ _ _ _ _ Henc). split.
  - intros Hmax.
    apply (requestLoop_turns c action (baseURL c +:+ path) payload
             (fun _ _ out => snd out <> Panics)).
    + intros a w0 w' r _. discriminate.
    + intros a w0 w' a' _ IH. exact IH.
    + intros a w0 w' Hturn. exfalso.
      exact (iteration_no_panic _ _ _ _ _ _ _ Hmax Hturn).
  - intros Hmax Hbudget Hfail.
    assert (Hnone : sleepWithBackoff c (0 + 1)
                      (fst (doRequest c (baseURL c +:+ path) payload w)) = None).
    { unfold sleepWithBackoff, drawJitter. rewrite Hmax.
      unfold GoInt.MaxInt, GoInt.wrap.
      change (2 ^ 63) with 9223372036854775808.
      change (2 ^ 64) with 18446744073709551616.
      reflexivity. }
    rewrite (requestLoop_retry_panics _ _ _ _ _ _ Hfail Hbudget Hnone). simpl.
    rewrite doRequest_requests, doRequest_sleeps, doRequest_answer.
    repeat split; reflexivity.
Qed.

End CallOutcome.

(** ** The waits of a call without jitter *)

Section Waits.

Context {T R : Type} `{HttpClient T} `{Rand R} `{Library}.

Implicit Types (c : PingClient) (w : World (T := T) (R := R)).

Lemma sleepWithBackoff_no_jitter c a w :
  retryJitterMs c <= 0 ->
  1 <= a <= 1024 ->
  Z.abs (retryBackoffMs c) * 2 ^ (a - 1) <= MaxDurationMs ->
  sleepWithBackoff c a w =
  Some {| httpClient := httpClient w;
          rng := rng w;
          log := log w ++ [Slept (retryBackoffMs c * 2 ^ (a - 1) * Millisecond)] |}.
Proof.
  intros Hj Ha Hb. unfold sleepWithBackoff, drawJitter.
  replace (retryJitterMs c >? 0) with false by lia.
  assert (Hpow : 0 <= 2 ^ (a - 1)) by (apply Z.pow_nonneg; lia).
  assert (Habs : Z.abs (retryBackoffMs c * 2 ^ (a - 1)) <= MaxDurationMs).
  { rewrite Z.abs_mul, (Z.abs_eq (2 ^ (a - 1))) by exact Hpow. exact Hb. }
  unfold MaxDurationMs in Habs.
  rewrite backoffMs_exact;
    [| exact Ha | change (2 ^ 53) with 9007199254740992; lia].
  set (base := retryBackoffMs c * 2 ^ (a - 1)) in *. clearbody base.
  rewrite Z.add_0_r.
  rewrite (wrap_in_range base)
    by (unfold GoInt.in_range, GoInt.MinInt, GoInt.MaxInt;
        change (2 ^ 63) with 9223372036854775808; lia).
  rewrite wrap_in_range
    by (unfold GoInt.in_range, GoInt.MinInt, GoInt.MaxInt, Millisecond;
        change (2 ^ 63) with 9223372036854775808; lia).
  reflexivity.
Qed.

Lemma requestLoop_waits N :
  forall c action url payload attempt w out,
  failsThenAnswers N c url payload (httpClient w) out ->
  0 <= attempt ->
  attempt + Z.of_nat N <= maxRetries c ->
  retryableFailure out = false \/ maxRetries c <= attempt + Z.of_nat N ->
  retryJitterMs c <= 0 ->
  attempt + Z.of_nat N <= 1024 ->
  Z.abs (retryBackoffMs c) * 2 ^ (attempt + Z.of_nat N - 1) <= MaxDurationMs ->
  sleeps (log (fst (requestLoop c action url payload attempt w))) =
    (sleeps (log w) ++
     List.map (fun i => retryBackoffMs c * 2 ^ (attempt + Z.of_nat i) * Millisecond)
       (List.seq 0 N))%list /\
  rng (fst (requestLoop c action url payload attempt w)) = rng w.
Proof.
  induction N as [| n IH];
    intros c action url payload attempt w out Hrun Ha Hbudget Hend Hj Hmax Hb.
  - simpl in Hrun. rewrite Z.add_0_r in Hend.
    rewrite (requestLoop_terminal _ _ _ _ _ _ _ Hrun Hend). simpl.
    rewrite app_nil_r, doRequest_sleeps, doRequest_answer. split; reflexivity.
  - destruct Hrun as [Hfail Hrest].
    assert (Hfirst : Z.abs (retryBackoffMs c) * 2 ^ (attempt + 1 - 1) <= MaxDurationMs).
    { assert (2 ^ (attempt + 1 - 1) <= 2 ^ (attempt + Z.of_nat (S n) - 1))
        by (apply Z.pow_le_mono_r; lia).
      pose proof (Z.abs_nonneg (retryBackoffMs c)). nia. }
    assert (Hlt : attempt < maxRetries c) by lia.
    assert (Hrange : 1 <= attempt + 1 <= 1024) by lia.
    rewrite (requestLoop_retry _ _ _ _ _ _ _ Hfail Hlt
               (sleepWithBackoff_no_jitter c (attempt + 1) _ Hj Hrange Hfirst)).
    set (w1 := {| httpClient := httpClient (fst (doRequest c url payload w));
                  rng := rng (fst (doRequest c url payload w));
                  log := _ |}).
    assert (Ht : httpClient w1 = fst (answer c url payload (httpClient w))).
    { unfold w1. simpl. apply doRequest_httpClient. }
    rewrite <- Ht in Hrest.
    destruct (IH c action url payload (attempt + 1) w1 out Hrest) as [Hs Hr];
      try assumption; try lia.
    { destruct Hend; [left; assumption | right; lia]. }
    { replace (attempt + 1 + Z.of_nat n - 1) with (attempt + Z.of_nat (S n) - 1) by lia.
      exact Hb. }
    rewrite Hs, Hr. unfold w1. simpl.
    rewrite sleeps_app, doRequest_sleeps. simpl.
    rewrite doRequest_answer. simpl. split; [| reflexivity].
    rewrite <- app_assoc. simpl. f_equal.
    replace (attempt + 1 - 1) with (attempt + 0) by lia. f_equal.
    rewrite <- List.seq_shift, List.map_map.
    apply List.map_ext. intros i.
    replace (attempt + 1 + Z.of_nat i) with (attempt + Z.of_nat (S i)) by lia. reflexivity.
Qed.

(** X5. A client without jitter waits base, 2 base, 4 base, ... milliseconds
    before its first, second, third, ... retry: on a transport that answers N
    retryable failures within the budget and then the answer that ends the
    call, the durations slept are base * 2^i ms for i = 0 .. N-1, in that
    order, as long as N <= 1024 and the last one fits a [time.Duration]; the
    generator is not touched. *)
Theorem request_waits_double c action path body payload w N out :
  encodeBody body = inl payload ->
  failsThenAnswers N c (baseURL c +:+ path) payload (httpClient w) out ->
  Z.of_nat N <= maxRetries c ->
  retryableFailure out = false \/ maxRetries c <= Z.of_nat N ->
  retryJitterMs c <= 0 ->
  Z.of_nat N <= 1024 ->
  Z.abs (retryBackoffMs c) * 2 ^ (Z.of_nat N - 1) <= MaxDurationMs ->
  sleeps (log (fst (request c action path body w))) =
    (sleeps (log w) ++
     List.map (fun i => retryBackoffMs c * 2 ^ Z.of_nat i * Millisecond) (List.seq 0 N))%list /\
  rng (fst (request c action path body w)) = rng w.
Proof.
  intros Henc Hrun Hbudget Hend Hj Hmax Hb. rewrite (request_encoded _ _ _ _ _ _ Henc).
  apply (requestLoop_waits N c action _ payload 0 w out Hrun); try assumption; lia.
Qed.

End Waits.

(** ** What a response becomes *)

Section Responses.

Context {T R : Type} `{HttpClient T} `{Rand R} `{Library}.

Implicit Types (c : PingClient) (w : World (T := T) (R := R)).

(** X6. A response with a status in [200,300) whose body decodes to a JSON
    object is normalized field by field: the action and the job key of the
    body when they are non-empty strings, and those of the call otherwise
    (absent, empty, or not a string); the timestamp of the body when it is a
    string and the empty string otherwise; next-expected only when the body
    holds a string there (absent when the field is missing, null or of
    another kind); ok is true and the raw data is the decoded object. *)
Theorem success_fields c action path body payload w res obj :
  encodeBody body = inl payload ->
  snd (answer c (baseURL c +:+ path) payload (httpClient w)) = inl res ->
  is2xx (Status res) = true ->
  Unmarshal (Body res) = inl (VMap obj) ->
  exists s,
    snd (request c action path body w) = Returns (inl s) /\
    Ok s = true /\
    Raw s = obj /\
    Action s = match obj !! "action" with
               | Some (VString a) => if decide (a = "") then action else a
               | _ => action
               end /\
    JobKey s = match obj !! "job_key" with
               | Some (VString k) => if decide (k = "") then jobKey c else k
               | _ => jobKey c
               end /\
    Timestamp s = match obj !! "timestamp" with
                  | Some (VString t) => t
                  | _ => ""
                  end /\
    NextExpected s = match obj !! "next_expected" with
                     | Some (VString v) => Some v
                     | _ => None
                     end.
Proof.
  intros Henc Hout H2xx Hdecoded.
  rewrite (request_encoded _ _ _ _ _ _ Henc).
  rewrite (requestLoop_success _ _ _ _ _ _ _ Hout H2xx). simpl.
  eexists. split; [reflexivity |].
  unfold safeJSON. rewrite Hdecoded. unfold normalizeSuccess, index. simpl.
  repeat split.
  - destruct (obj !! "action") as [[]|]; simpl; try reflexivity.
    destruct (String.eqb_spec s ""); destruct (decide (s = "")); congruence.
  - destruct (obj !! "job_key") as [[]|]; simpl; try reflexivity.
    destruct (String.eqb_spec s ""); destruct (decide (s = "")); congruence.
  - destruct (obj !! "timestamp") as [[]|]; reflexivity.
  - destruct (obj !! "next_expected") as [[]|]; reflexivity.
Qed.

(** X7. The body of a failure response never makes the error path fail: when
    a response with a failure status that is not retried has a body that
    does not decode to a JSON object, the API error carries the message
    "Invalid JSON response" and the substitute object as raw data; when the
    body is an object, the raw data is that object and the message is
    "Request failed" unless the object holds a non-empty string under
    "message". *)
Theorem failure_body_tolerated c action path body payload w res :
  encodeBody body = inl payload ->
  snd (answer c (baseURL c +:+ path) payload (httpClient w)) = inl res ->
  is2xx (Status res) = false ->
  retryable (Status res) = false \/ maxRetries c <= 0 ->
  ((forall obj, Unmarshal (Body res) <> inl (VMap obj)) ->
   snd (request c action path body w) =
     Returns (inr (ApiError (fst (mapError (Status res))) (Some (Status res))
                     (retryable (Status res)) "Invalid JSON response"
                     (RawBody {[ "message" := VString "Invalid JSON response" ]})))) /\
  (forall obj,
     Unmarshal (Body res) = inl (VMap obj) ->
     snd (request c action path body w) =
       Returns (inr (ApiError (fst (mapError (Status res))) (Some (Status res))
                       (retryable (Status res))
                       (match obj !! "message" with
                        | Some (VString m) => if decide (m = "") then "Request failed" else m
                        | _ => "Request failed"
                        end)
                       (RawBody obj)))).
Proof.
  intros Henc Hout H2xx Hstop.
  rewrite (request_encoded _ _ _ _ _ _ Henc).
  rewrite (requestLoop_api_error _ _ _ _ _ _ _ Hout H2xx Hstop). simpl.
  unfold apiErrorOf, safeJSON. split.
  - intros Hbad.
    destruct (Unmarshal (Body res)) as [[]|] eqn:E; try reflexivity.
    exfalso. eapply Hbad. reflexivity.
  - intros obj ->. reflexivity.
Qed.

End Responses.

(** ** The request builders *)

Section Builders.

Context {T R : Type} `{HttpClient T} `{Rand R} `{Library}.

Implicit Types (c : PingClient) (w : World (T := T) (R := R)).

(** X8. [End] returns a validation error exactly when its status, trimmed
    and lowercased and with the empty string read as "success", is neither
    "success" nor "fail". Otherwise it is the request of the action "end"
    to the path /ping/{key}/end/{status}, with that normalized status and
    without a body. *)
Theorem End_validates_status c status w :
  ((exists m, snd (End c status w) = Returns (inr (ValidationError m))) <->
   endStatus status <> "success" /\ endStatus status <> "fail") /\
  (endStatus status = "success" \/ endStatus status = "fail" ->
   End c status w =
     request c "end" ("/ping/" +:+ jobKey c +:+ "/end/" +:+ endStatus status) ∅ w).
Proof.
  unfold End.
  destruct (String.eqb_spec (endStatus status) "success") as [Hs | Hs];
    destruct (String.eqb_spec (endStatus status) "fail") as [Hf | Hf]; simpl.
  - rewrite Hs in Hf. discriminate Hf.
  - split; [| reflexivity]. split; [| tauto].
    intros [m Hm]. exfalso. exact (request_not_validation _ _ _ _ _ _ Hm).
  - split; [| reflexivity]. split; [| tauto].
    intros [m Hm]. exfalso. exact (request_not_validation _ _ _ _ _ _ Hm).
  - split; [| tauto]. split; [tauto |]. intros _. eexists. reflexivity.
Qed.

(** What the type switch of [Progress] computes, in the vocabulary of the
    properties. *)
Lemma switchInput_spec input message :
  match switchInput input (initialVars message) with
  | inl vars =>
      acceptedInput input = true /\
      msg vars = chosenMessage input message /\
      match suppliedSeq input with
      | Some n => seqProvided vars = true /\ seq vars = n
      | None => seqProvided vars = false
      end
  | inr err =>
      acceptedInput input = false /\
      err = ValidationError "Progress input must be int, ProgressOptions, or nil."
  end.
Proof.
  assert (Hopts : forall o,
    let vars := readOptions o (initialVars message) in
    msg vars =
      (if decide (TrimSpace (Message o) = "" /\
                  match message with m :: _ => m | [] => "" end <> "")
       then match message with m :: _ => m | [] => "" end else Message o) /\
    match Seq o with
    | Some n => seqProvided vars = true /\ seq vars = n
    | None => seqProvided vars = false
    end).
  { intros o. unfold readOptions, initialVars. cbv zeta.
    set (given := match message with m :: _ => m | [] => "" end).
    destruct (Seq o) as [n |]; simpl;
      destruct (String.eqb_spec (TrimSpace (Message o)) "") as [Ht | Ht];
      destruct (String.eqb_spec given "") as [Hg | Hg]; simpl;
      destruct (decide (TrimSpace (Message o) = "" /\ given <> "")) as [[Hd1 Hd2] | Hd];
      try contradiction; try (exfalso; apply Hd; split; assumption);
      repeat split; reflexivity. }
  destruct input; simpl; try (split; reflexivity).
  - repeat split; reflexivity.
  - repeat split; reflexivity.
  - split; [reflexivity |]. exact (Hopts o).
  - destruct p as [o |]; simpl.
    + split; [reflexivity |]. exact (Hopts o).
    + repeat split; reflexivity.
Qed.

Lemma append_inj_l (s a b : string) : s +:+ a = s +:+ b -> a = b.
Proof.
  induction s as [| ch s IH]; simpl; [tauto |].
  intros [= Heq]. exact (IH Heq).
Qed.

Lemma itoa_inj (n m : Z) : Strings.itoa n = Strings.itoa m -> n = m.
Proof.
  unfold Strings.itoa. intros Heq.
  assert (Hnonnil : forall z, Z.to_int z <> Decimal.Pos Decimal.Nil /\
                              Z.to_int z <> Decimal.Neg Decimal.Nil).
  { intros [| p | p]; simpl; split; try discriminate;
      intros [= Hp]; exact (DecimalPos.Unsigned.to_uint_nonnil p Hp). }
  apply DecimalZ.to_int_inj.
  assert (Hsome : Some (Z.to_int n) = Some (Z.to_int m)).
  { rewrite <- (NilZero.isi (Z.to_int n)) by apply Hnonnil.
    rewrite <- (NilZero.isi (Z.to_int m)) by apply Hnonnil.
    rewrite Heq. reflexivity. }
  injection Hsome as ->. reflexivity.
Qed.

(** X9. [Progress] returns a validation error exactly when its input is not
    nil, an [int] or options (by value or by pointer), or supplies a negative
    sequence; in both cases nothing is sent. *)
Theorem Progress_validates_input c input message w :
  (exists m, snd (Progress c input message w) = Returns (inr (ValidationError m))) <->
  acceptedInput input = false \/ (exists n, suppliedSeq input = Some n /\ n < 0).
Proof.
  unfold Progress. pose proof (switchInput_spec input message) as Hsw.
  destruct (switchInput input (initialVars message)) as [vars | err].
  - destruct Hsw as [Hacc [_ Hseq]].
    destruct (suppliedSeq input) as [n |].
    + destruct Hseq as [-> ->]. simpl.
      destruct (Z.ltb_spec n 0) as [Hneg | Hpos].
      * split; [intros _; right; exists n; split; [reflexivity | exact Hneg] |].
        intros _. eexists. reflexivity.
      * split.
        -- intros [m Hm]. exfalso. exact (request_not_validation _ _ _ _ _ _ Hm).
        -- intros [Hno | [k [[= <-] Hk]]]; [congruence | lia].
    + rewrite Hseq. simpl. split.
      * intros [m Hm]. exfalso. exact (request_not_validation _ _ _ _ _ _ Hm).
      * intros [Hno | [k [Hk _]]]; [congruence | discriminate Hk].
  - destruct Hsw as [Hacc ->]. simpl. split.
    + intros _. left. exact Hacc.
    + intros _. eexists. reflexivity.
Qed.

(** X10. A [Progress] call that passes validation is the request of the
    action "progress" whose body has the single entry "message". The message
    is the one of the options, unless that is blank while a variadic message
    is given, and the variadic message (or the empty string) for a nil or
    [int] input; it is cut to its first 255 bytes. The path is
    /ping/{key}/progress/{seq} when a sequence is supplied and
    /ping/{key}/progress otherwise, and two different sequences give two
    different paths. *)
Theorem Progress_request c input message w :
  acceptedInput input = true ->
  (forall n, suppliedSeq input = Some n -> 0 <= n) ->
  Progress c input message w =
    request c "progress"
      (match suppliedSeq input with
       | Some n => "/ping/" +:+ jobKey c +:+ "/progress/" +:+ Strings.itoa n
       | None => "/ping/" +:+ jobKey c +:+ "/progress"
       end)
      {[ "message" := VString (truncateMessage (chosenMessage input message)) ]} w /\
  (String.length (truncateMessage (chosenMessage input message)) <= 255)%nat /\
  (forall n m,
     "/ping/" +:+ jobKey c +:+ "/progress/" +:+ Strings.itoa n =
     "/ping/" +:+ jobKey c +:+ "/progress/" +:+ Strings.itoa m -> n = m).
Proof.
  intros Hacc Hseq. split; [| split].
  - unfold Progress. pose proof (switchInput_spec input message) as Hsw.
    destruct (switchInput input (initialVars message)) as [vars | err];
      [| destruct Hsw as [Hno _]; congruence].
    destruct Hsw as [_ [Hmsg Hsup]].
    destruct (suppliedSeq input) as [n |].
    + destruct Hsup as [Hp Hn]. rewrite Hp, Hn, Hmsg. simpl.
      specialize (Hseq n eq_refl).
      replace (n <? 0) with false by lia. reflexivity.
    + rewrite Hsup, Hmsg. reflexivity.
  - destruct (Nat.le_gt_cases (String.length (chosenMessage input message)) 255)
      as [Hshort | Hlong].
    + rewrite truncateMessage_short by exact Hshort. exact Hshort.
    + destruct (truncateMessage_long _ Hlong) as [_ ->]. lia.
  - intros n m Heq. apply itoa_inj.
    repeat apply append_inj_l in Heq. exact Heq.
Qed.

End Builders.

(** ** The constructor *)

Lemma rev_chars_list (s acc : string) :
  list_ascii_of_string (Strings.rev_chars s acc) =
  (List.rev (list_ascii_of_string s) ++ list_ascii_of_string acc)%list.
Proof.
  revert acc. induction s as [| a s IH]; intros acc; simpl; [reflexivity |].
  rewrite IH. simpl. rewrite <- app_assoc. reflexivity.
Qed.

Lemma rev_list (s : string) :
  list_ascii_of_string (Strings.rev s) = List.rev (list_ascii_of_string s).
Proof. unfold Strings.rev. rewrite rev_chars_list. simpl. apply app_nil_r. Qed.

Lemma append_list (s1 s2 : string) :
  list_ascii_of_string (s1 +:+ s2) =
  (list_ascii_of_string s1 ++ list_ascii_of_string s2)%list.
Proof. induction s1 as [| a s1 IH]; simpl; [reflexivity | rewrite IH; reflexivity]. Qed.

Lemma list_ascii_inj (s1 s2 : string) :
  list_ascii_of_string s1 = list_ascii_of_string s2 -> s1 = s2.
Proof.
  intros Heq. rewrite <- (string_of_list_ascii_of_string s1),
    <- (string_of_list_ascii_of_string s2), Heq. reflexivity.
Qed.

Lemma drop_leading_list (ch : ascii) (s : string) :
  exists k,
    list_ascii_of_string s =
      (repeat ch k ++ list_ascii_of_string (Strings.drop_leading ch s))%list /\
    forall rest, Strings.drop_leading ch s <> String ch rest.
Proof.
  induction s as [| a s [k [Hk Hhead]]]; simpl.
  - exists O. split; [reflexivity | discriminate].
  - destruct (Ascii.eqb_spec a ch) as [-> | Hne].
    + exists (S k). simpl. rewrite <- Hk. split; [reflexivity | exact Hhead].
    + exists O. split; [reflexivity |]. intros rest [= Heq _]. contradiction.
Qed.

Lemma rev_repeat {A : Type} (x : A) (k : nat) : List.rev (repeat x k) = repeat x k.
Proof.
  induction k as [| k IH]; simpl; [reflexivity |].
  rewrite IH. clear IH. induction k as [| k IH]; simpl; [reflexivity |].
  rewrite <- IH. reflexivity.
Qed.

(** [strings.TrimRight] with a one-byte cutset removes a run of that byte at
    the end, and all of it. *)
Lemma TrimRight1_spec (s : string) (ch : ascii) :
  (exists k, s = Strings.TrimRight1 s ch +:+ string_of_list_ascii (repeat ch k)) /\
  (forall t, Strings.TrimRight1 s ch <> t +:+ String ch "").
Proof.
  unfold Strings.TrimRight1.
  destruct (drop_leading_list ch (Strings.rev s)) as [k [Hk Hhead]].
  rewrite rev_list in Hk.
  split.
  - exists k. apply list_ascii_inj.
    rewrite append_list, rev_list, list_ascii_of_string_of_list_ascii.
    rewrite <- (rev_involutive (list_ascii_of_string s)), Hk, rev_app_distr, rev_repeat.
    reflexivity.
  - intros t Heq.
    assert (Hl : list_ascii_of_string (Strings.drop_leading ch (Strings.rev s)) =
                 (ch :: List.rev (list_ascii_of_string t))%list).
    { apply (f_equal list_ascii_of_string) in Heq.
      rewrite rev_list, append_list in Heq. simpl in Heq.
      rewrite <- (rev_involutive (list_ascii_of_string _)), Heq, rev_app_distr.
      reflexivity. }
    apply (Hhead (string_of_list_ascii (List.rev (list_ascii_of_string t)))).
    apply list_ascii_inj. rewrite Hl. simpl.
    rewrite list_ascii_of_string_of_list_ascii. reflexivity.
Qed.

Section Constructor.

Context {T R : Type} `{HttpClient T} `{Rand R} `{Library}.

Implicit Types (c : PingClient) (w : World (T := T) (R := R)).

(** X11. The base URL of a client never ends with a slash: [NewPingClient]
    takes the option [BaseURL], or https://cronbeats.io when the option is
    blank, and removes every slash at its end, and nothing else. The user
    agent is the option, or cronbeats-go-sdk/0.1.0 when the option is
    blank. The new client has the injected transport, or the one of
    [net/http] when none is injected, a generator seeded with the clock, and
    has done nothing yet. *)
Theorem NewPingClient_fields key opts now c w :
  NewPingClient key opts now = inl (c, w) ->
  let options := match opts with Some o => o | None => Options_zero end in
  let chosen := if decide (TrimSpace (BaseURL options) = "")
                then "https://cronbeats.io" else BaseURL options in
  (forall t, baseURL c <> t +:+ "/") /\
  (exists k, chosen = baseURL c +:+ string_of_list_ascii (repeat "/"%char k)) /\
  userAgent c = (if decide (TrimSpace (UserAgent options) = "")
                 then "cronbeats-go-sdk/0.1.0" else UserAgent options) /\
  httpClient w = match HTTPClient options with Some t => t | None => NetHTTPClient end /\
  rng w = NewSource now /\
  log w = [].
Proof.
  unfold NewPingClient.
  destruct (negb (jobKeyRegex_MatchString key)); [discriminate |].
  intros [= <- <-]. simpl. unfold defaultString.
  assert (Hdec : forall v fallback : string,
            (if String.eqb (TrimSpace v) "" then fallback else v) =
            (if decide (TrimSpace v = "") then fallback else v)).
  { intros v fallback.
    destruct (String.eqb_spec (TrimSpace v) ""); destruct (decide (TrimSpace v = ""));
      congruence. }
  rewrite !Hdec.
  destruct (TrimRight1_spec
              (if decide (TrimSpace (BaseURL match opts with Some o => o | None => Options_zero end) = "")
               then "https://cronbeats.io"
               else BaseURL match opts with Some o => o | None => Options_zero end) "/")
    as [Hsuffix Hend].
  repeat split; try reflexivity; assumption.
Qed.

End Constructor.

(** ** Integers as floats *)

Lemma integer_scaled (s : bool) (m p : positive) (d : Z) :
  Z.pos m = Z.pos p * 2 ^ (53 - d) -> d <= 53 ->
  Float64.integer (S754_finite s m (d - 53)) = Some (if s then Z.neg p else Z.pos p).
Proof.
  intros Hm Hd. unfold Float64.integer.
  destruct (Z.leb_spec 0 (d - 53)) as [Hz | Hneg].
  - assert (Hd53 : d = 53) by lia. subst d.
    change (53 - 53) with 0 in *. rewrite Z.pow_0_r, Z.mul_1_r in *.
    rewrite Hm. destruct s; reflexivity.
  - replace (- (d - 53)) with (53 - d) by lia. rewrite Hm.
    rewrite Z.mod_mul by (apply Z.pow_nonzero; lia).
    rewrite Z.div_mul by (apply Z.pow_nonzero; lia).
    simpl. destruct s; reflexivity.
Qed.

Section IntegerFloats.

Context `{Library}.

(** X12. An integer of magnitude below 2^53 under "processing_time_ms" is
    converted to the float that is exactly that integer, for each of the
    integer types of the type switch of [floatOrZero]: the float has no
    fractional part and its value is the integer, so cutting its fraction,
    or converting it back to an [int], gives the integer back. *)
Theorem floatOrZero_integer_exact (n : Z) :
  Z.abs n < 2 ^ 53 ->
  Float64.integer (floatOrZero (VInt n)) = Some n /\
  Float64.integer (floatOrZero (VInt64 n)) = Some n /\
  Float64.integer (floatOrZero (VInt32 n)) = Some n /\
  Float64.truncate (floatOrZero (VInt n)) = Some n /\
  Float64.truncate (floatOrZero (VInt64 n)) = Some n /\
  Float64.truncate (floatOrZero (VInt32 n)) = Some n /\
  Float64.to_int (floatOrZero (VInt n)) = n.
Proof.
  intros Hn.
  assert (Hexact : Float64.integer (Float64.of_int n) = Some n /\
                   Float64.truncate (Float64.of_int n) = Some n).
  { destruct n as [| p | p].
    - split; reflexivity.
    - destruct (of_int_normal false p Hn) as [m [Hround [Hd Hv]]].
      pose proof (digits2_pos_le p 53 ltac:(lia) Hn) as Hle.
      unfold Float64.of_int, binary_normalize, Float64.prec, Float64.emax.
      rewrite Hround. split.
      + apply (integer_scaled false m p _ Hv). lia.
      + replace (Z.pos (digits2_pos p) - 53) with (Z.pos (digits2_pos p) - 53 + 0) by lia.
        rewrite (truncate_scaled false m p _ 0 Hv) by lia.
        f_equal. lia.
    - destruct (of_int_normal true p Hn) as [m [Hround [Hd Hv]]].
      pose proof (digits2_pos_le p 53 ltac:(lia) Hn) as Hle.
      unfold Float64.of_int, binary_normalize, Float64.prec, Float64.emax.
      rewrite Hround. split.
      + apply (integer_scaled true m p _ Hv). lia.
      + replace (Z.pos (digits2_pos p) - 53) with (Z.pos (digits2_pos p) - 53 + 0) by lia.
        rewrite (truncate_scaled true m p _ 0 Hv) by lia.
        f_equal. lia. }
  destruct Hexact as [Hint Htrunc].
  simpl. repeat split; try exact Hint; try exact Htrunc.
  unfold Float64.to_int. rewrite Htrunc.
  unfold GoInt.MinInt, GoInt.MaxInt.
  change (2 ^ 53) with 9007199254740992 in Hn.
  change (2 ^ 63) with 9223372036854775808.
  rewrite !(proj2 (Z.leb_le _ _)) by lia. reflexivity.
Qed.

End IntegerFloats.

(** ** The stub transport of the tests *)

Section StubTransport.

Context {R : Type} `{Rand R} `{Library}.

#[local] Existing Instance Stub.stubHttp.

Implicit Types (c : PingClient) (w : World (T := Stub.stubHTTPClient) (R := R)).

Lemma iteration_httpClient {T : Type} `{HttpClient T} (c : PingClient)
  action url payload attempt (w w' : World (T := T) (R := R)) flow :
  iteration c action url payload attempt w = (w', flow) ->
  httpClient w' = fst (answer c url payload (httpClient w)).
Proof.
  unfold iteration. rewrite doRequest_answer.
  set (w1 := {| httpClient := fst (answer c url payload (httpClient w));
                rng := rng w;
                log := _ |}).
  assert (Hretry : forall a,
            retry c a w1 = (w', flow) ->
            httpClient w' = fst (answer c url payload (httpClient w))).
  { intros a. unfold retry.
    destruct (sleepWithBackoff c (a + 1) w1) as [w2 |] eqn:Hs; intros [= <- _].
    - apply (sleepWithBackoff_httpClient _ _ _ _ Hs).
    - reflexivity. }
  destruct (snd (answer c url payload (httpClient w))) as [res | reqErr].
  - destruct ((Status res >=? 200) && (Status res <? 300)); [intros [= <- _]; reflexivity |].
    destruct (mapError (Status res)) as [code flag].
    destruct (flag && (attempt <? maxRetries c)); [apply Hretry |].
    intros [= <- _]. reflexivity.
  - destruct (attempt >=? maxRetries c); [intros [= <- _]; reflexivity | apply Hretry].
Qed.

Lemma stubRequest_calls (s : Stub.stubHTTPClient) method url headers payload timeoutMs :
  Stub.calls (fst (Stub.stubRequest s method url headers payload timeoutMs)) =
  (Stub.calls s ++
   [{| Stub.call_method := method; Stub.call_url := url; Stub.call_body := payload |}])%list.
Proof.
  unfold Stub.stubRequest. destruct (Stub.networkFailures s >? 0); [reflexivity |].
  destruct (Stub.responses s); reflexivity.
Qed.

Lemma requestLoop_stub_calls c action url payload attempt w :
  exists n,
    requests (log (fst (requestLoop c action url payload attempt w))) =
      (requests (log w) + n)%nat /\
    Stub.calls (httpClient (fst (requestLoop c action url payload attempt w))) =
      (Stub.calls (httpClient w) ++
       repeat {| Stub.call_method := "POST"; Stub.call_url := url;
                 Stub.call_body := payload |} n)%list.
Proof.
  set (call := {| Stub.call_method := "POST"; Stub.call_url := url;
                  Stub.call_body := payload |}).
  assert (Hturn1 : forall a w0 w' flow,
            iteration c action url payload a w0 = (w', flow) ->
            requests (log w') = S (requests (log w0)) /\
            Stub.calls (httpClient w') = (Stub.calls (httpClient w0) ++ [call])%list).
  { intros a w0 w' flow Hturn. split.
    - pose proof (iteration_events _ _ _ _ _ _ _ _ Hturn) as Hev.
      destruct flow as [r | a' |].
      + destruct Hev as [-> _]. apply requests_request.
      + destruct Hev as [d ->].
        change [requestEvent c url payload; Slept d]
          with ([requestEvent c url payload] ++ [Slept d])%list.
        rewrite app_assoc, requests_sleep. apply requests_request.
      + rewrite Hev. apply requests_request.
    - rewrite (iteration_httpClient _ _ _ _ _ _ _ _ Hturn).
      apply stubRequest_calls. }
  apply (requestLoop_turns c action url payload
    (fun _ w0 out =>
       exists n,
         requests (log (fst out)) = (requests (log w0) + n)%nat /\
         Stub.calls (httpClient (fst out)) =
           (Stub.calls (httpClient w0) ++ repeat call n)%list)).
  - intros a w0 w' r Hturn. destruct (Hturn1 _ _ _ _ Hturn) as [Hreq Hcalls].
    exists 1%nat. simpl. split; [lia | exact Hcalls].
  - intros a w0 w' a' Hturn [n [Hreq Hcalls]].
    destruct (Hturn1 _ _ _ _ Hturn) as [Hreq1 Hcalls1].
    exists (S n). split; [lia |].
    rewrite Hcalls, Hcalls1, <- app_assoc. reflexivity.
  - intros a w0 w' Hturn. destruct (Hturn1 _ _ _ _ Hturn) as [Hreq Hcalls].
    exists 1%nat. simpl. split; [lia | exact Hcalls].
Qed.

(** X13. The stub of the tests records exactly the calls the client makes,
    whatever the encoder and the generator of the client: after a call of
    [request], however it ends, its list [calls] has grown by one entry per
    invocation of the transport, at least one, each with the method POST,
    the URL of the request and the encoded body. *)
Theorem stub_records_calls c action path body payload w :
  encodeBody body = inl payload ->
  exists n,
    (1 <= n)%nat /\
    requests (log (fst (request c action path body w))) = (requests (log w) + n)%nat /\
    Stub.calls (httpClient (fst (request c action path body w))) =
      (Stub.calls (httpClient w) ++
       repeat {| Stub.call_method := "POST"; Stub.call_url := baseURL c +:+ path;
                 Stub.call_body := payload |} n)%list.
Proof.
  intros Henc. rewrite (request_encoded _ _ _ _ _ _ Henc).
  destruct (requestLoop_stub_calls c action (baseURL c +:+ path) payload 0 w)
    as [n [Hreq Hcalls]].
  exists n. split; [| split; assumption].
  destruct (requestLoop_trace c action (baseURL c +:+ path) payload 0 w)
    as [evs [Hlog [Htrace _]]].
  rewrite Hlog, requests_app in Hreq.
  pose proof (RetryTrace_requests (requestEvent c (baseURL c +:+ path) payload) _
                eq_refl Htrace) as Hcount.
  lia.
Qed.

Lemma stub_fails_then_answers (n : nat) :
  forall c url payload (s : Stub.stubHTTPClient),
  Stub.networkFailures s = Z.of_nat n ->
  failsThenAnswers n c url payload s (inl (Stub.nextResponse s)).
Proof.
  induction n as [| n IH]; intros c url payload s Hn.
  - simpl. unfold answer. simpl. unfold Stub.stubRequest, Stub.nextResponse.
    rewrite Hn. simpl. destruct (Stub.responses s); reflexivity.
  - assert (Ha : answer c url payload s =
                 ({| Stub.responses := Stub.responses s;
                     Stub.networkFailures := Stub.networkFailures s - 1;
                     Stub.calls :=
                       (Stub.calls s ++
                        [{| Stub.call_method := "POST"; Stub.call_url := url;
                            Stub.call_body := payload |}])%list |},
                  inr (SdkError "socket timeout" (Some (PlainError "timeout"))))).
    { unfold answer. simpl. unfold Stub.stubRequest.
      replace (Stub.networkFailures s >? 0) with true by lia. reflexivity. }
    cbn [failsThenAnswers]. rewrite Ha. cbn [fst snd retryableFailure]. split; [reflexivity |].
    change (Stub.nextResponse s) with
      (Stub.nextResponse
         {| Stub.responses := Stub.responses s;
            Stub.networkFailures := Stub.networkFailures s - 1;
            Stub.calls :=
              (Stub.calls s ++
               [{| Stub.call_method := "POST"; Stub.call_url := url;
                   Stub.call_body := payload |}])%list |}).
    apply IH. simpl. lia.
Qed.

(** X14. A stub scripted with k network failures, k within the budget,
    makes the client retry k times, whatever the encoder and the generator
    of the client: the call returns what the next scripted response (or the
    200 with an empty object, when none is left) gives, as long as that
    response is not itself retried, and the stub has then recorded k + 1
    calls. When k is at least 1 this needs a jitter bound below the largest
    [int]: at that bound the first retry panics in its draw. *)
Theorem stub_network_failures_retried c action path body payload w :
  encodeBody body = inl payload ->
  0 <= Stub.networkFailures (httpClient w) <= maxRetries c ->
  retryableFailure (inl (Stub.nextResponse (httpClient w))) = false \/
    maxRetries c <= Stub.networkFailures (httpClient w) ->
  (0 < Stub.networkFailures (httpClient w) -> retryJitterMs c < GoInt.MaxInt) ->
  snd (request c action path body w) =
    Returns (resultOf c action (inl (Stub.nextResponse (httpClient w)))) /\
  length (Stub.calls (httpClient (fst (request c action path body w)))) =
    (length (Stub.calls (httpClient w)) +
     Z.to_nat (Stub.networkFailures (httpClient w)) + 1)%nat.
Proof.
  intros Henc Hk Hend Hjitter.
  rewrite (request_encoded _ _ _ _ _ _ Henc).
  destruct (requestLoop_stub_calls c action (baseURL c +:+ path) payload 0 w) as [n [Hreq Hcalls]].
  destruct (requestLoop_fails_then_answers (Z.to_nat (Stub.networkFailures (httpClient w)))
              c action (baseURL c +:+ path) payload 0 w
              (inl (Stub.nextResponse (httpClient w)))) as [Hres [Hcount _]].
  - apply stub_fails_then_answers. lia.
  - lia.
  - destruct Hend; [left; assumption | right; lia].
  - intros Hpos. apply Hjitter. lia.
  - split; [exact Hres |].
    rewrite Hcalls, length_app, repeat_length. lia.
Qed.

End StubTransport.

(** ** The further properties on the stubs *)

Section FurtherOnTheStubs.

Import Stub.

(** X1 on a ping that meets one network failure. *)
Lemma request_trace_witness :
  exists evs,
    log (fst (Ping (testClient 2 1 0) (testWorld 1 []))) = evs /\
    (1 <= requests evs <= 3)%nat /\
    requests evs = S (length (sleeps evs)).
Proof.
  destruct (request_trace (testClient 2 1 0) "ping" "/ping/abc123de" ∅ ""
              (testWorld 1 [])) as [evs [Hlog [_ [Hbound [Hcount _]]]]].
  - reflexivity.
  - exists evs. split; [exact Hlog |]. split; [exact Hbound | exact Hcount].
Defined.

(** X2 on a transport that keeps failing, with max retries 2. *)
Lemma retryable_error_exhausts_budget_witness :
  requests (log (fst (Ping (testClient 2 1 0) (testWorld 5 [])))) = 3%nat /\
  length (sleeps (log (fst (Ping (testClient 2 1 0) (testWorld 5 []))))) = 2%nat.
Proof.
  apply (retryable_error_exhausts_budget (testClient 2 1 0) "ping" "/ping/abc123de" ∅ ""
           (testWorld 5 []) CodeNetwork None "socket timeout: timeout"
           (RawError (SdkError "socket timeout" (Some (PlainError "timeout"))))).
  - reflexivity.
  - reflexivity.
Defined.

(** X3 on a network failure followed by a 400. *)
Lemma request_outcome_witness :
  snd (Ping (testClient 2 1 0) (testWorld 1 [{| status := 400; body := "{}" |}])) =
    Returns (inr (ApiError CodeValidation (Some 400) false "Request failed" (RawBody ∅))) /\
  requests (log (fst (Ping (testClient 2 1 0)
                        (testWorld 1 [{| status := 400; body := "{}" |}])))) = 2%nat.
Proof.
  destruct (request_outcome (testClient 2 1 0) "ping" "/ping/abc123de" ∅ ""
              (testWorld 1 [{| status := 400; body := "{}" |}]) 1
              (inl {| Status := 400; Body := "{}"; Headers := ∅ |})) as [Hres [Hcount _]].
  - reflexivity.
  - vm_compute. split; reflexivity.
  - vm_compute. discriminate.
  - left. reflexivity.
  - intros _. vm_compute. reflexivity.
  - split; [exact Hres | exact Hcount].
Defined.

(** X4 on a body the stub encoder refuses. *)
Lemma request_encode_failure_witness :
  request (testClient 2 1 0) "progress" "/ping/abc123de/progress"
    {[ "message" := VBool true ]} (testWorld 0 []) =
  (testWorld 0 [],
   Returns (inr (SdkError "failed to encode request payload"
                   (Some (PlainError "json: unsupported value"))))).
Proof.
  apply (request_encode_failure (testClient 2 1 0) "progress" "/ping/abc123de/progress"
           {[ "message" := VBool true ]} (testWorld 0 [])
           (PlainError "json: unsupported value")).
  reflexivity.
Defined.

(** X17 on a 503 answered to a client with the largest jitter bound. *)
Lemma request_panics_at_largest_jitter_witness :
  snd (Ping (testClient 2 1 9223372036854775807)
         (testWorld 0 [{| status := 503; body := "{}" |}])) = Panics /\
  requests (log (fst (Ping (testClient 2 1 9223372036854775807)
                        (testWorld 0 [{| status := 503; body := "{}" |}])))) = 1%nat /\
  snd (Ping (testClient 2 1 100) (testWorld 0 [{| status := 503; body := "{}" |}])) <> Panics.
Proof.
  destruct (request_panics_at_largest_jitter (testClient 2 1 9223372036854775807)
              "ping" "/ping/abc123de" ∅ ""
              (testWorld 0 [{| status := 503; body := "{}" |}])) as [_ Hpanic];
    [reflexivity |].
  destruct Hpanic as [Hrun [Hcount _]].
  - reflexivity.
  - reflexivity.
  - reflexivity.
  - destruct (request_panics_at_largest_jitter (testClient 2 1 100)
                "ping" "/ping/abc123de" ∅ ""
                (testWorld 0 [{| status := 503; body := "{}" |}])) as [Hnever _];
      [reflexivity |].
    split; [| split].
    + change (Ping (testClient 2 1 9223372036854775807)
                (testWorld 0 [{| status := 503; body := "{}" |}]))
        with (request (testClient 2 1 9223372036854775807) "ping" "/ping/abc123de" ∅
                (testWorld 0 [{| status := 503; body := "{}" |}])).
      rewrite Hrun. reflexivity.
    + exact Hcount.
    + apply Hnever. vm_compute. reflexivity.
Defined.

(** X5 on three network failures, base 250 and no jitter. *)
Lemma request_waits_double_witness :
  sleeps (log (fst (Ping (testClient 3 250 0) (testWorld 3 [])))) =
    [250 * Millisecond; 500 * Millisecond; 1000 * Millisecond].
Proof.
  destruct (request_waits_double (testClient 3 250 0) "ping" "/ping/abc123de" ∅ ""
              (testWorld 3 []) 3 (inl ok200)) as [Hsleeps _].
  - reflexivity.
  - vm_compute. repeat split; reflexivity.
  - vm_compute. discriminate.
  - left. reflexivity.
  - vm_compute. discriminate.
  - vm_compute. discriminate.
  - vm_compute. discriminate.
  - exact Hsleeps.
Defined.

(** X6 on a 201 with the empty object. *)
Lemma success_fields_witness :
  exists s,
    snd (Ping (testClient 2 1 0) (testWorld 0 [{| status := 201; body := "{}" |}])) =
      Returns (inl s) /\
    Action s = "ping" /\ JobKey s = "abc123de" /\ Timestamp s = "" /\
    NextExpected s = None.
Proof.
  destruct (success_fields (testClient 2 1 0) "ping" "/ping/abc123de" ∅ ""
              (testWorld 0 [{| status := 201; body := "{}" |}])
              {| Status := 201; Body := "{}"; Headers := ∅ |} ∅)
    as [s [Hres [_ [_ [Ha [Hk [Ht Hn]]]]]]]; try reflexivity.
  exists s. repeat split; assumption.
Defined.

(** X7 on a 404 with a page of HTML. *)
Lemma failure_body_tolerated_witness :
  snd (Ping (testClient 2 1 0) (testWorld 0 [{| status := 404; body := "<html>" |}])) =
    Returns (inr (ApiError CodeNotFound (Some 404) false "Invalid JSON response"
                    (RawBody {[ "message" := VString "Invalid JSON response" ]}))).
Proof.
  destruct (failure_body_tolerated (testClient 2 1 0) "ping" "/ping/abc123de" ∅ ""
              (testWorld 0 [{| status := 404; body := "<html>" |}])
              {| Status := 404; Body := "<html>"; Headers := ∅ |}) as [Hbad _].
  - reflexivity.
  - reflexivity.
  - reflexivity.
  - left. reflexivity.
  - apply Hbad. intros obj. vm_compute. discriminate.
Defined.

(** X10 on a sequence given as an [int] with a variadic message. *)
Lemma Progress_request_witness :
  Progress (testClient 2 1 0) (VInt 7) ["step seven"] (testWorld 0 []) =
  request (testClient 2 1 0) "progress" "/ping/abc123de/progress/7"
    {[ "message" := VString "step seven" ]} (testWorld 0 []).
Proof.
  destruct (Progress_request (testClient 2 1 0) (VInt 7) ["step seven"] (testWorld 0 []))
    as [Hcall _].
  - reflexivity.
  - intros n [= <-]. lia.
  - exact Hcall.
Defined.

(** X11 on a base URL given with two slashes at its end. *)
Lemma NewPingClient_fields_witness :
  let opts := {| BaseURL := "https://example.test//"; TimeoutMs := 0; MaxRetries := 0;
                 RetryBackoffMs := 0; RetryJitterMs := 0; UserAgent := "  ";
                 HTTPClient := None |} in
  NewPingClient "abc123de" (Some opts) 11 =
    inl ({| baseURL := "https://example.test"; jobKey := "abc123de"; timeoutMs := 5000;
            maxRetries := 2; retryBackoffMs := 250; retryJitterMs := 100;
            userAgent := "cronbeats-go-sdk/0.1.0" |},
         {| httpClient := NetHTTPClient; rng := 11; log := [] |}) /\
  forall t, "https://example.test" <> t +:+ "/".
Proof.
  intros opts.
  assert (Hnew : NewPingClient "abc123de" (Some opts) 11 =
    inl ({| baseURL := "https://example.test"; jobKey := "abc123de"; timeoutMs := 5000;
            maxRetries := 2; retryBackoffMs := 250; retryJitterMs := 100;
            userAgent := "cronbeats-go-sdk/0.1.0" |},
         {| httpClient := NetHTTPClient; rng := 11; log := [] |})) by reflexivity.
  split; [exact Hnew |].
  destruct (NewPingClient_fields _ _ _ _ _ Hnew) as [Hend _]. exact Hend.
Defined.

(** X12 on the integer 8. *)
Lemma floatOrZero_integer_exact_witness :
  Z.abs 8 < 2 ^ 53 /\ Float64.integer (floatOrZero (VInt 8)) = Some 8.
Proof.
  split; [reflexivity |].
  destruct (floatOrZero_integer_exact 8) as [Hint _]; [reflexivity | exact Hint].
Defined.

(** X13 on a ping that meets a 503 and then a 200. *)
Lemma stub_records_calls_witness :
  exists n,
    (1 <= n)%nat /\
    requests (log (fst (Ping (testClient 2 1 0)
                          (testWorld 0 [{| status := 503; body := "{}" |}])))) = n /\
    calls (httpClient (fst (Ping (testClient 2 1 0)
                              (testWorld 0 [{| status := 503; body := "{}" |}])))) =
      repeat {| call_method := "POST"; call_url := "https://cronbeats.io/ping/abc123de";
                call_body := "" |} n.
Proof.
  destruct (stub_records_calls (testClient 2 1 0) "ping" "/ping/abc123de" ∅ ""
              (testWorld 0 [{| status := 503; body := "{}" |}])) as [n [Hpos [Hreq Hcalls]]].
  - reflexivity.
  - exists n. split; [exact Hpos |]. split; [exact Hreq | exact Hcalls].
Defined.

(** X14 on the script of the test of the retry on network failures. *)
Lemma stub_network_failures_retried_witness :
  snd (Ping (testClient 2 1 0) (testWorld 1 [{| status := 200; body := "{}" |}])) =
    Returns (inl (normalizeSuccess (testClient 2 1 0) "ping" ∅)) /\
  length (calls (httpClient (fst (Ping (testClient 2 1 0)
                                    (testWorld 1 [{| status := 200; body := "{}" |}])))))
    = 2%nat.
Proof.
  destruct (stub_network_failures_retried (testClient 2 1 0) "ping" "/ping/abc123de" ∅ ""
              (testWorld 1 [{| status := 200; body := "{}" |}])) as [Hres Hcalls].
  - reflexivity.
  - vm_compute. split; discriminate.
  - left. reflexivity.
  - intros _. vm_compute. reflexivity.
  - split; [exact Hres | exact Hcalls].
Defined.

End FurtherOnTheStubs.

(** ** Waits with jitter, and the fixed-status wrappers *)

Section JitteredWaits.

Context {T R : Type} `{HttpClient T} `{Rand R} `{Library}.

Implicit Types (c : PingClient) (w : World (T := T) (R := R)).

Lemma sleepWithBackoff_wait c a w :
  1 <= a <= 1024 ->
  Z.abs (retryBackoffMs c) * 2 ^ (a - 1) + Z.max 0 (retryJitterMs c) <= MaxDurationMs ->
  exists j w1,
    0 <= j <= Z.max 0 (retryJitterMs c) /\
    sleepWithBackoff c a w = Some w1 /\
    log w1 =
      (log w ++ [Slept ((retryBackoffMs c * 2 ^ (a - 1) + j) * Millisecond)])%list.
Proof.
  intros Ha Hb. unfold MaxDurationMs in Hb.
  assert (Hpow : 0 <= 2 ^ (a - 1)) by (apply Z.pow_nonneg; lia).
  assert (Habs : Z.abs (retryBackoffMs c * 2 ^ (a - 1)) =
                 Z.abs (retryBackoffMs c) * 2 ^ (a - 1)).
  { rewrite Z.abs_mul, (Z.abs_eq (2 ^ (a - 1))) by exact Hpow. reflexivity. }
  assert (Hjmax : retryJitterMs c < GoInt.MaxInt).
  { unfold GoInt.MaxInt. change (2 ^ 63) with 9223372036854775808.
    pose proof (Z.abs_nonneg (retryBackoffMs c)). nia. }
  destruct (drawJitter_range c (rng w) Hjmax) as [j [r [Hdrawn [Hj _]]]].
  unfold sleepWithBackoff. rewrite Hdrawn.
  exists j. eexists. split; [exact Hj |]. split; [reflexivity |]. simpl.
  rewrite backoffMs_exact;
    [| exact Ha | rewrite Habs; change (2 ^ 53) with 9007199254740992; lia].
  rewrite <- Habs in Hb.
  set (base := retryBackoffMs c * 2 ^ (a - 1)) in *. clearbody base.
  rewrite (wrap_in_range (base + j))
    by (unfold GoInt.in_range, GoInt.MinInt, GoInt.MaxInt;
        change (2 ^ 63) with 9223372036854775808; lia).
  rewrite wrap_in_range
    by (unfold GoInt.in_range, GoInt.MinInt, GoInt.MaxInt, Millisecond;
        change (2 ^ 63) with 9223372036854775808; lia).
  reflexivity.
Qed.

Lemma requestLoop_waits_within N :
  forall c action url payload attempt w out,
  failsThenAnswers N c url payload (httpClient w) out ->
  0 <= attempt ->
  attempt + Z.of_nat N <= maxRetries c ->
  retryableFailure out = false \/ maxRetries c <= attempt + Z.of_nat N ->
  attempt + Z.of_nat N <= 1024 ->
  Z.abs (retryBackoffMs c) * 2 ^ (attempt + Z.of_nat N - 1)
    + Z.max 0 (retryJitterMs c) <= MaxDurationMs ->
  exists waits,
    sleeps (log (fst (requestLoop c action url payload attempt w))) =
      (sleeps (log w) ++ waits)%list /\
    Forall2 (fun i d =>
               exists j, 0 <= j <= Z.max 0 (retryJitterMs c) /\
                         d = (retryBackoffMs c * 2 ^ (attempt + Z.of_nat i) + j) * Millisecond)
      (List.seq 0 N) waits.
Proof.
  induction N as [| n IH];
    intros c action url payload attempt w out Hrun Ha Hbudget Hend Hmax Hb.
  - simpl in Hrun. rewrite Z.add_0_r in Hend.
    rewrite (requestLoop_terminal _ _ _ _ _ _ _ Hrun Hend). simpl.
    exists []. rewrite app_nil_r, doRequest_sleeps. split; [reflexivity | constructor].
  - destruct Hrun as [Hfail Hrest].
    assert (Hfirst : Z.abs (retryBackoffMs c) * 2 ^ (attempt + 1 - 1)
                     + Z.max 0 (retryJitterMs c) <= MaxDurationMs).
    { assert (2 ^ (attempt + 1 - 1) <= 2 ^ (attempt + Z.of_nat (S n) - 1))
        by (apply Z.pow_le_mono_r; lia).
      pose proof (Z.abs_nonneg (retryBackoffMs c)). nia. }
    set (w0 := fst (doRequest c url payload w)).
    destruct (sleepWithBackoff_wait c (attempt + 1) w0) as [j [w1 [Hj [Hw1 Hlog]]]];
      [lia | exact Hfirst |].
    assert (Hlt : attempt < maxRetries c) by lia.
    rewrite (requestLoop_retry _ _ _ _ _ _ _ Hfail Hlt Hw1).
    assert (Ht : httpClient w1 = fst (answer c url payload (httpClient w))).
    { rewrite (sleepWithBackoff_httpClient _ _ _ _ Hw1). unfold w0.
      apply doRequest_httpClient. }
    rewrite <- Ht in Hrest.
    destruct (IH c action url payload (attempt + 1) w1 out Hrest) as [waits [Hs Hall]];
      try lia.
    { destruct Hend; [left; assumption | right; lia]. }
    { replace (attempt + 1 + Z.of_nat n - 1) with (attempt + Z.of_nat (S n) - 1) by lia.
      exact Hb. }
    exists (((retryBackoffMs c * 2 ^ (attempt + 1 - 1) + j) * Millisecond) :: waits).
    split.
    + rewrite Hs, Hlog, sleeps_app. unfold w0. rewrite doRequest_sleeps. simpl.
      rewrite <- app_assoc. reflexivity.
    + simpl. constructor.
      * exists j. split; [exact Hj |].
        replace (attempt + 1 - 1) with (attempt + Z.of_nat 0) by lia. reflexivity.
      * rewrite <- List.seq_shift. apply Forall2_fmap_l.
        eapply Forall2_impl; [exact Hall |].
        intros i d [j' [Hj' ->]]. exists j'. split; [exact Hj' |]. simpl.
        replace (attempt + 1 + Z.of_nat i) with (attempt + Z.of_nat (S i)) by lia.
        reflexivity.
Qed.

(** X15. Every wait of a call lies between the doubled base and the doubled
    base plus the jitter bound: on a transport that answers N retryable
    failures within the budget and then the answer that ends the call, the
    call sleeps N times, and the i-th wait (from 0) is base * 2^i ms plus a
    jitter between 0 and the jitter bound (0 when the bound is negative), as
    long as N <= 1024 and the largest wait fits a [time.Duration]. *)
Theorem request_waits_within c action path body payload w N out :
  encodeBody body = inl payload ->
  failsThenAnswers N c (baseURL c +:+ path) payload (httpClient w) out ->
  Z.of_nat N <= maxRetries c ->
  retryableFailure out = false \/ maxRetries c <= Z.of_nat N ->
  Z.of_nat N <= 1024 ->
  Z.abs (retryBackoffMs c) * 2 ^ (Z.of_nat N - 1) + Z.max 0 (retryJitterMs c)
    <= MaxDurationMs ->
  exists waits,
    sleeps (log (fst (request c action path body w))) = (sleeps (log w) ++ waits)%list /\
    Forall2 (fun i d =>
               exists j, 0 <= j <= Z.max 0 (retryJitterMs c) /\
                         d = (retryBackoffMs c * 2 ^ Z.of_nat i + j) * Millisecond)
      (List.seq 0 N) waits.
Proof.
  intros Henc Hrun Hbudget Hend Hmax Hb. rewrite (request_encoded _ _ _ _ _ _ Henc).
  apply (requestLoop_waits_within N c action _ payload 0 w out Hrun); try assumption; lia.
Qed.

(** X16. Given that [strings.TrimSpace] and [strings.ToLower] leave the
    words "success" and "fail" as they are, [Success] and [Fail] never fail
    validation: they are the requests of the action "end" to
    /ping/{key}/end/success and /ping/{key}/end/fail, without a body. *)
Theorem Success_Fail_requests c w :
  ToLower (TrimSpace "success") = "success" ->
  ToLower (TrimSpace "fail") = "fail" ->
  Success c w = request c "end" ("/ping/" +:+ jobKey c +:+ "/end/success") ∅ w /\
  Fail c w = request c "end" ("/ping/" +:+ jobKey c +:+ "/end/fail") ∅ w /\
  (forall m, snd (Success c w) <> Returns (inr (ValidationError m))) /\
  (forall m, snd (Fail c w) <> Returns (inr (ValidationError m))).
Proof.
  intros Hs Hf.
  assert (HS : Success c w = request c "end" ("/ping/" +:+ jobKey c +:+ "/end/success") ∅ w).
  { unfold Success, End, endStatus. rewrite Hs. reflexivity. }
  assert (HF : Fail c w = request c "end" ("/ping/" +:+ jobKey c +:+ "/end/fail") ∅ w).
  { unfold Fail, End, endStatus. rewrite Hf. reflexivity. }
  split; [exact HS |]. split; [exact HF |].
  rewrite HS, HF. split; intros m; apply request_not_validation.
Qed.

End JitteredWaits.

Section JitteredOnTheStubs.

Import Stub.

(** X15 on two network failures, base 250 and jitter bound 100. *)
Lemma request_waits_within_witness :
  exists waits,
    sleeps (log (fst (Ping (testClient 2 250 100) (testWorld 2 [])))) = waits /\
    length waits = 2%nat.
Proof.
  destruct (request_waits_within (testClient 2 250 100) "ping" "/ping/abc123de" ∅ ""
              (testWorld 2 []) 2 (inl ok200)) as [waits [Hs Hall]].
  - reflexivity.
  - vm_compute. repeat split; reflexivity.
  - vm_compute. discriminate.
  - left. reflexivity.
  - vm_compute. discriminate.
  - vm_compute. discriminate.
  - exists waits. split; [exact Hs |].
    apply Forall2_length in Hall. rewrite <- Hall. reflexivity.
Defined.

(** X16 on the stub library. *)
Lemma Success_Fail_requests_witness :
  Success (testClient 2 1 0) (testWorld 0 []) =
    request (testClient 2 1 0) "end" "/ping/abc123de/end/success" ∅ (testWorld 0 []) /\
  Fail (testClient 2 1 0) (testWorld 0 []) =
    request (testClient 2 1 0) "end" "/ping/abc123de/end/fail" ∅ (testWorld 0 []).
Proof.
  destruct (Success_Fail_requests (testClient 2 1 0) (testWorld 0 [])) as [HS [HF _]].
  - reflexivity.
  - reflexivity.
  - split; [exact HS | exact HF].
Defined.

End JitteredOnTheStubs.

